(** * CampusMate: attendance / marks writes and the teacher XP system

    A shallow embedding of the teacher routes of the backend
    ([backend/routes/teachers.js], [backend/routes/marks.js]) together with
    the properties the specification states about them.

    The relational store is modelled as a record of tables.  Every awaited
    store call may throw; which calls throw is decided by a fault plan that
    is part of the world, so that the handlers' [try]/[catch] structure can be
    followed as it is written. *)

From Stdlib Require Import ZArith Lia Ascii String.
From stdpp Require Import base gmap strings list.

Local Open Scope string_scope.
Local Open Scope Z_scope.

(** ** Tables *)

(** The columns of [teachers] the XP system reads and writes. *)
Record TeacherRow := mkTeacher {
  xp : Z;
  level : Z;
  next_xp_target : Z;
}.

Inductive Status := Present | Absent.

(** [String(r.status) === "Present" ? "Present" : "Absent"] *)
Definition normalize_status (s : string) : Status :=
  if String.eqb s "Present" then Present else Absent.

(** The values of one row of an attendance [INSERT].  [a_student_id] holds
    the number handed to the driver, [None] standing for [NaN]. *)
Record AttendanceRow := mkAtt {
  a_student_id : option Z;
  a_date : string;
  a_status : Status;
  a_recorded_by : option Z;
}.

(** The values of one row of a marks [INSERT]. *)
Record MarksRow := mkMarks {
  m_student_id : Z;
  m_batch_id : Z;
  m_assessment : string;
  m_exam_date : option string;
  m_subject : option string;
  m_marks : option Z;
  m_semester : option Z;
  m_recorded_by : option Z;
  m_max_marks : option Z;
}.

(** The columns of a stored marks row besides its key. *)
Record MarksVal := mkMarksVal {
  v_exam_date : option string;
  v_subject : option string;
  v_marks : option Z;
  v_semester : option Z;
  v_recorded_by : option Z;
  v_max_marks : option Z;
}.

(** Modelled from the spec: the unique keys of the [attendance] and [marks]
    tables, (student, date) and (student, batch, assessment), which the
    [INSERT ... ON DUPLICATE KEY UPDATE] statements of the routes rely on;
    the schema is not part of the sources.  A table with a unique key is a
    finite map from the key to the other columns: for [attendance] these
    are [status] and [recorded_by].  Timestamp columns are left out. *)
Abbreviation AttTable := (gmap (option Z * string) (Status * option Z)).
Abbreviation MarksTable := (gmap (Z * Z * string) MarksVal).

(** The [teacher_batches] table: a row is a pair (teacher_id, batch_id)
    with its column [assigned_by].  The statements that add rows are
    [INSERT IGNORE], which skips a pair the table has: the pair is the
    key of the row.  [assigned_by] is [None] in a row added by a statement
    that names no [assigned_by]; the column then holds its default, [NULL]
    unless the schema, which is not part of the sources, declares
    another. *)
Abbreviation AssignTable := (gmap (Z * Z) (option Z)).

(** [(t, b) ∈ table]: the table has a row for teacher [t] and batch [b]. *)
#[global] Instance assigned : ElemOf (Z * Z) AssignTable :=
  fun key table => is_Some (table !! key).

#[global] Instance assigned_dec (key : Z * Z) (table : AssignTable)
  : Decision (key ∈ table) := decide (is_Some (table !! key)).

Record DB := mkDB {
  teachers : gmap Z TeacherRow;
  teacher_batches : AssignTable;
  students : gmap Z (option Z);
  attendance : AttTable;
  marks : MarksTable;
}.

Definition set_teachers (f : gmap Z TeacherRow → gmap Z TeacherRow) (d : DB) : DB :=
  mkDB (f (teachers d)) (teacher_batches d) (students d) (attendance d) (marks d).

Definition set_attendance (f : AttTable → AttTable) (d : DB) : DB :=
  mkDB (teachers d) (teacher_batches d) (students d) (f (attendance d)) (marks d).

Definition set_marks (f : MarksTable → MarksTable) (d : DB) : DB :=
  mkDB (teachers d) (teacher_batches d) (students d) (attendance d) (f (marks d)).

(** ** The world: store, console and fault plan *)

Inductive LogLevel := LLog | LWarn | LError.

Inductive Error := StoreError.

(** [faults] is consumed one entry per awaited store call; [true] makes that
    call throw.  An exhausted plan means the store answers. *)
Record World := mkWorld {
  db : DB;
  console : list (LogLevel * string);
  faults : list bool;
}.

Inductive Res (A : Type) :=
  | Ok (a : A) (w : World)
  | Throw (e : Error) (w : World).
Arguments Ok {A} a w.
Arguments Throw {A} e w.

Definition M (A : Type) : Type := World → Res A.

Definition ret {A} (a : A) : M A := fun w => Ok a w.

Definition bind {A B} (m : M A) (k : A → M B) : M B := fun w =>
  match m w with
  | Ok a w' => k a w'
  | Throw e w' => Throw e w'
  end.

Definition throw {A} (e : Error) : M A := fun w => Throw e w.

(** [try { m } catch (err) { h err }] *)
Definition try_catch {A} (m : M A) (h : Error → M A) : M A := fun w =>
  match m w with
  | Ok a w' => Ok a w'
  | Throw e w' => h e w'
  end.

#[global] Instance M_ret : MRet M := @ret.
#[global] Instance M_bind : MBind M := fun A B k m => bind m k.

Definition world_of {A} (r : Res A) : World :=
  match r with Ok _ w => w | Throw _ w => w end.

Definition print (l : LogLevel) (msg : string) : M unit := fun w =>
  Ok tt (mkWorld (db w) (console w ++ [(l, msg)]) (faults w)).

(** [await pool.query(...)]: the statement [q] runs against the store unless
    the fault plan makes the call throw. *)
Definition pool_query {A} (q : DB → A * DB) : M A := fun w =>
  match faults w with
  | true :: fs => Throw StoreError (mkWorld (db w) (console w) fs)
  | false :: fs => let '(a, d) := q (db w) in Ok a (mkWorld d (console w) fs)
  | [] => let '(a, d) := q (db w) in Ok a (mkWorld d (console w) [])
  end.

(** ** XP system helpers (routes/teachers.js) *)

Definition XP_ATTENDANCE : Z := 10.
Definition XP_MARKS : Z := 15.
Definition MAX_LEVEL : Z := 10.

(** [UPDATE teachers SET xp = xp + ? WHERE id = ?]; the result is
    [affectedRows]. *)
Definition sql_add_xp (amount teacherId : Z) (d : DB) : Z * DB :=
  match teachers d !! teacherId with
  | Some r =>
      (1, set_teachers
            (insert teacherId (mkTeacher (xp r + amount) (level r) (next_xp_target r))) d)
  | None => (0, d)
  end.

(** [SELECT xp, level, next_xp_target FROM teachers WHERE id = ?] *)
Definition sql_select_xp (teacherId : Z) (d : DB) : list TeacherRow * DB :=
  (match teachers d !! teacherId with Some r => [r] | None => [] end, d).

(** [UPDATE teachers SET xp = ?, level = ?, next_xp_target = ? WHERE id = ?] *)
Definition sql_set_level (x l t teacherId : Z) (d : DB) : unit * DB :=
  match teachers d !! teacherId with
  | Some _ => (tt, set_teachers (insert teacherId (mkTeacher x l t)) d)
  | None => (tt, d)
  end.

(** The [while (xp >= next_xp_target && level < MAX_LEVEL)] loop of
    [checkTeacherLevelUp], each turn with its [UPDATE].  A turn raises
    [level], so [MAX_LEVEL - level] turns always suffice; [fuel] is that
    bound, and more fuel changes nothing ([levelUpLoop_fuel]). *)
Fixpoint levelUpLoop (fuel : nat) (teacherId x l t : Z) : M unit :=
  match fuel with
  | O => ret tt
  | S fuel' =>
      if (t <=? x) && (l <? MAX_LEVEL) then
        let x := x - t in
        let l := l + 1 in
        let t := if l <? MAX_LEVEL then t + 150 else t in
        pool_query (sql_set_level x l t teacherId) ;;
        levelUpLoop fuel' teacherId x l t
      else ret tt
  end.

Definition checkTeacherLevelUp (teacherId : Z) : M unit :=
  rows ← pool_query (sql_select_xp teacherId);
  match rows with
  | [] => ret tt
  | r :: _ =>
      if MAX_LEVEL <=? level r then ret tt
      else levelUpLoop (Z.to_nat (MAX_LEVEL - level r)) teacherId
             (xp r) (level r) (next_xp_target r)
  end.

Definition addTeacherXP (teacherId amount : Z) : M unit :=
  try_catch
    (print LLog "[XP] addTeacherXP called ->" ;;
     r ← pool_query (sql_add_xp amount teacherId);
     print LLog (if r =? 0 then "[XP] addTeacherXP update result: norows"
                 else "[XP] addTeacherXP update result: ok") ;;
     checkTeacherLevelUp teacherId ;;
     print LLog "[XP] addTeacherXP finished for")
    (fun err => print LError "[XP] addTeacherXP ERROR" ;; throw err).

(** ** Requests and responses *)

Inductive Role := admin | teacher | student.

(** Modelled from the spec: [req.user], the principal [{id, role}] the
    authentication middleware (middleware/auth.js, not part of the sources)
    leaves on the request, with role admin, teacher or student; these are
    the members routes/auth.js signs into the token of each kind of login. *)
Record User := mkUser {
  u_id : Z;
  u_role : Role;
}.

(** What the handler sends: [status] is the HTTP status ([res.status(...)],
    200 when not set), the other members are those of the JSON body. *)
Record Response := mkResp {
  status : Z;
  message : string;
  count : option nat;
  fields : option (string * string);
  error : option Error;
}.

Definition saved (msg : string) (n : nat) : Response :=
  mkResp 200 msg (Some n) None None.
Definition invalid (field why : string) : Response :=
  mkResp 400 "Validation failed" None (Some (field, why)) None.
Definition bad_request (msg : string) : Response :=
  mkResp 400 msg None None None.
Definition forbidden (msg : string) : Response :=
  mkResp 403 msg None None None.
Definition server_error (msg : string) (e : option Error) : Response :=
  mkResp 500 msg None None e.

Definition isAdmin (user : option User) : bool :=
  match user with
  | Some u => match u_role u with admin => true | _ => false end
  | None => false
  end.

(** [user && Number(user.id) === Number(id)] *)
Definition isSelf (user : option User) (id : Z) : bool :=
  match user with
  | Some u => u_id u =? id
  | None => false
  end.

(** One element of [records] of an attendance body: [r_student_id] is
    [Number(r.student_id)] ([None] for [NaN]) and [r_status] is
    [String(r.status)]. *)
Record AttRecord := mkAttRecord {
  r_student_id : option Z;
  r_status : string;
}.

(** [req.body] of an attendance write; an absent or ill-typed member is
    [None]. *)
Record AttBody := mkAttBody {
  b_date : option string;
  b_batch_id : option Z;
  b_records : option (list AttRecord);
}.

(** [Boolean(n)] on a number: [NaN] and [0] are falsy. *)
Definition truthy_num (n : option Z) : bool :=
  match n with
  | Some z => negb (z =? 0)
  | None => false
  end.

Definition is_digit (c : ascii) : bool :=
  let n := nat_of_ascii c in (48 <=? n)%nat && (n <=? 57)%nat.

Definition is_dash (c : ascii) : bool := (nat_of_ascii c =? 45)%nat.

(** [/^\d{4}-\d{2}-\d{2}$/.test(d)] *)
Definition date_shape (d : string) : bool :=
  match list_ascii_of_string d with
  | [y1; y2; y3; y4; h1; m1; m2; h2; d1; d2] =>
      forallb is_digit [y1; y2; y3; y4; m1; m2; d1; d2] && is_dash h1 && is_dash h2
  | _ => false
  end.

(** ** Store statements of the attendance route *)

(** [SELECT 1 FROM teacher_batches WHERE teacher_id = ? AND batch_id = ? LIMIT 1] *)
Definition sql_teacher_batch (teacherId batchId : Z) (d : DB) : list Z * DB :=
  (if bool_decide ((teacherId, batchId) ∈ teacher_batches d) then [1] else [], d).

(** [SELECT id FROM students WHERE id IN (?) AND batch_id = ?] *)
Definition sql_students_in (ids : list Z) (batchId : Z) (d : DB) : list Z * DB :=
  (filter (fun sid => students d !! sid = Some (Some batchId)) (remove_dups ids), d).

(** One row of [INSERT INTO attendance ... ON DUPLICATE KEY UPDATE status =
    VALUES(status), recorded_by = VALUES(recorded_by)]: a row whose key is
    present has both columns overwritten, any other row is added. *)
Definition upsert_attendance (r : AttendanceRow) (t : AttTable) : AttTable :=
  <[ (a_student_id r, a_date r) := (a_status r, a_recorded_by r) ]> t.

(** The multi-row [INSERT INTO attendance ... VALUES (...),(...)]: rows are
    applied in order. *)
Definition sql_upsert_attendance (rows : list AttendanceRow) (d : DB) : unit * DB :=
  (tt, set_attendance (fun t => foldl (fun t r => upsert_attendance r t) t rows) d).

(** [records.map((r) => Number(r.student_id)).filter(Boolean)] *)
Definition studentIds (records : list AttRecord) : list Z :=
  omap (fun r => if truthy_num (r_student_id r) then r_student_id r else None) records.

(** The [values] built by the [for (const r of records)] loop, one row per
    record. *)
Definition attendance_values (user_id : option Z) (date : string)
    (records : list AttRecord) : list AttendanceRow :=
  map (fun r => mkAtt (r_student_id r) date (normalize_status (r_status r)) user_id)
    records.

Definition teacherHasBatch (teacherId batchId : Z) : M bool :=
  rows ← pool_query (sql_teacher_batch teacherId batchId);
  ret (negb (length rows =? 0)%nat).

(** [user && user.id ? user.id : null] *)
Definition recorder (user : option User) : option Z :=
  match user with
  | Some u => if u_id u =? 0 then None else Some (u_id u)
  | None => None
  end.

Section Routes.

(** [!Number.isNaN(new Date(d).getTime())]: the date parser of the runtime. *)
Variable date_parses : string → bool.

Definition isValidDateString (d : string) : bool :=
  date_shape d && date_parses d.

(** ** POST /api/teachers/:id/attendance (routes/teachers.js)

    The handler is one function; it is cut here at its comments.  First
    the part from "validate student ids belong to batch" to the response.
    [DATE(?)] of a [YYYY-MM-DD] string is that calendar day: the key keeps
    the string. *)
Definition attendance_upsert (tid : Z) (user : option User)
    (date : string) (batch_id : Z) (records : list AttRecord) : M Response :=
  let studentIds := studentIds records in
  if (length studentIds =? 0)%nat then ret (invalid "records" "student_id required") else
  studs ← pool_query (sql_students_in studentIds batch_id);
  let validStudentSet : gset Z := list_to_set studs in
  let invalids := filter (fun sid => sid ∉ validStudentSet) studentIds in
  if negb (length invalids =? 0)%nat
  then ret (invalid "records" "Some student(s) not in selected batch") else
  let values := attendance_values (recorder user) date records in
  if (length values =? 0)%nat then ret (invalid "records" "No valid records") else
  pool_query (sql_upsert_attendance values) ;;
  try_catch
    (print LLog "[XP] awarding attendance XP ->" ;;
     addTeacherXP tid XP_ATTENDANCE)
    (fun e => print LWarn "XP update (attendance) failed:") ;;
  ret (saved "Saved" (length records)).

(** The part from the permission check on. *)
Definition attendance_write (tid : Z) (user : option User)
    (date : string) (batch_id : Z) (records : list AttRecord) : M Response :=
  if negb (isAdmin user) && negb (isSelf user tid) then ret (forbidden "Forbidden") else
  denied ← (if negb (isAdmin user)
            then ok ← teacherHasBatch tid batch_id; ret (negb ok)
            else ret false);
  if (denied : bool) then ret (forbidden "Forbidden: not assigned to batch") else
  attendance_upsert tid user date batch_id records.

(** [router.post("/:id/attendance", auth, ...)]: the shape checks, then the
    parts above, all inside the handler's [try]/[catch]. *)
Definition post_attendance (tid : Z) (user : option User) (body : AttBody)
  : M Response :=
  try_catch
    (match b_date body with
     | None => ret (invalid "date" "Invalid date")
     | Some date =>
       if String.eqb date "" || negb (isValidDateString date)
       then ret (invalid "date" "Invalid date") else
       match b_batch_id body with
       | None => ret (invalid "batch_id" "batch_id required")
       | Some batch_id =>
         if batch_id =? 0 then ret (invalid "batch_id" "batch_id required") else
         match b_records body with
         | None => ret (invalid "records" "records must be non-empty array")
         | Some records =>
           if (length records =? 0)%nat
           then ret (invalid "records" "records must be non-empty array")
           else attendance_write tid user date batch_id records
         end
       end
     end)
    (fun err =>
       print LError "POST /teachers/:id/attendance" ;;
       ret (server_error "Server error" None)).

(** ** routes/attendance.js

    The router repeats [isAdmin], [isSelf], [isValidDateString] and
    [teacherHasBatch] with the same bodies.  Its teacher-scoped write is the
    handler above without the XP award. *)

Definition attendance_upsert_plain (user : option User)
    (date : string) (batch_id : Z) (records : list AttRecord) : M Response :=
  let studentIds := studentIds records in
  if (length studentIds =? 0)%nat then ret (invalid "records" "student_id required") else
  studs ← pool_query (sql_students_in studentIds batch_id);
  let validStudentSet : gset Z := list_to_set studs in
  let invalids := filter (fun sid => sid ∉ validStudentSet) studentIds in
  if negb (length invalids =? 0)%nat
  then ret (invalid "records" "Some student(s) not in selected batch") else
  let values := attendance_values (recorder user) date records in
  if (length values =? 0)%nat then ret (invalid "records" "No valid records") else
  pool_query (sql_upsert_attendance values) ;;
  ret (saved "Saved" (length records)).

Definition attendance_write_plain (tid : Z) (user : option User)
    (date : string) (batch_id : Z) (records : list AttRecord) : M Response :=
  if negb (isAdmin user) && negb (isSelf user tid) then ret (forbidden "Forbidden") else
  denied ← (if negb (isAdmin user)
            then ok ← teacherHasBatch tid batch_id; ret (negb ok)
            else ret false);
  if (denied : bool) then ret (forbidden "Forbidden: not assigned to batch") else
  attendance_upsert_plain user date batch_id records.

(** [router.post('/teachers/:id/attendance', auth, ...)] of
    routes/attendance.js *)
Definition post_teacher_attendance (tid : Z) (user : option User) (body : AttBody)
  : M Response :=
  try_catch
    (match b_date body with
     | None => ret (invalid "date" "Invalid date")
     | Some date =>
       if String.eqb date "" || negb (isValidDateString date)
       then ret (invalid "date" "Invalid date") else
       match b_batch_id body with
       | None => ret (invalid "batch_id" "batch_id required")
       | Some batch_id =>
         if batch_id =? 0 then ret (invalid "batch_id" "batch_id required") else
         match b_records body with
         | None => ret (invalid "records" "records must be non-empty array")
         | Some records =>
           if (length records =? 0)%nat
           then ret (invalid "records" "records must be non-empty array")
           else attendance_write_plain tid user date batch_id records
         end
       end
     end)
    (fun err =>
       print LError "POST /teachers/:id/attendance" ;;
       ret (server_error "Server error" None)).

(** ** routes/marks.js *)

(** One element of [records] of a marks body, after the coercions of the
    handler: [mr_student_id] is [Number(r.student_id || 0)], the other
    members are [None] for [null] or a missing member. *)
Record MarksRecord := mkMarksRecord {
  mr_student_id : option Z;
  mr_subject : option string;
  mr_marks : option Z;
  mr_semester : option Z;
  mr_recorded_by : option Z;
}.

Record MarksBody := mkMarksBody {
  mb_date : option string;
  mb_batch_id : option Z;
  mb_assessment : option string;
  mb_max_marks : option Z;
  mb_records : option (list MarksRecord);
}.

Record Payload := mkPayload {
  p_date : option string;
  p_batch_id : option Z;
  p_assessment : option string;
  p_max_marks : option Z;
  p_records : list MarksRecord;
}.

(** [x || null] on a string *)
Definition or_null (s : option string) : option string :=
  match s with
  | Some x => if String.eqb x "" then None else Some x
  | None => None
  end.

Definition buildPayload (body : MarksBody) : Payload :=
  mkPayload (or_null (mb_date body)) (mb_batch_id body) (or_null (mb_assessment body))
    (mb_max_marks body) (default [] (mb_records body)).

(** One [INSERT INTO marks ... ON DUPLICATE KEY UPDATE]: on a conflict
    [subject], [marks], [semester], [recorded_by] and [max_marks] are
    overwritten and [exam_date] is kept. *)
Definition upsert_marks (r : MarksRow) (t : MarksTable) : MarksTable :=
  let k := (m_student_id r, m_batch_id r, m_assessment r) in
  let exam_date :=
    match t !! k with
    | Some old => v_exam_date old
    | None => m_exam_date r
    end in
  <[ k := mkMarksVal exam_date (m_subject r) (m_marks r) (m_semester r)
            (m_recorded_by r) (m_max_marks r) ]> t.

(** An awaited call on the connection that leaves the committed tables as
    they are ([getConnection], [beginTransaction], [rollback], and a
    statement inside the open transaction). *)
Definition conn_call : M unit := pool_query (fun d => (tt, d)).

(** [conn.commit()] publishes the rows of the transaction. *)
Definition conn_commit (tx : MarksTable) : M unit :=
  pool_query (fun d => (tt, set_marks (fun _ => tx) d)).

(** The parameters of the [INSERT] for record [r]. *)
Definition marks_row (student_id batch_id : Z) (assessment : string) (p : Payload)
    (r : MarksRecord) : MarksRow :=
  mkMarks student_id batch_id assessment (p_date p) (mr_subject r) (mr_marks r)
    (mr_semester r) (mr_recorded_by r) (p_max_marks p).

(** The [for (const r of p.records)] loop; [tx] is the marks table as the
    open transaction sees it.  [inl] is an early response. *)
Fixpoint marks_loop (batch_id : Z) (assessment : string) (p : Payload)
    (rs : list MarksRecord) (tx : MarksTable) : M (Response + MarksTable) :=
  match rs with
  | [] => ret (inr tx)
  | r :: rs' =>
      match mr_student_id r with
      | Some student_id =>
          if student_id =? 0
          then conn_call ;; ret (inl (bad_request "Each record must include student_id"))
          else
            conn_call ;;
            marks_loop batch_id assessment p rs'
              (upsert_marks (marks_row student_id batch_id assessment p r) tx)
      | None => conn_call ;; ret (inl (bad_request "Each record must include student_id"))
      end
  end.

(** The [try]/[catch]/[finally] of the handler.  The [catch] block rolls
    back only [if (conn)], that is when [db.getConnection()] returned, and
    swallows a failure of that rollback; the inner [try_catch] is this
    guarded rollback, the outer one the rest of the [catch] block. *)
Definition marks_transaction (batch_id : Z) (assessment : string) (p : Payload)
  : M Response :=
  try_catch
    (conn_call ;;
     try_catch
       (conn_call ;;
        tx0 ← (fun w => Ok (marks (db w)) w);
        r ← marks_loop batch_id assessment p (p_records p) tx0;
        match r with
        | inl early => ret early
        | inr tx =>
            conn_commit tx ;;
            ret (saved "Marks saved" (length (p_records p)))
        end)
       (fun err => try_catch conn_call (fun _ => ret tt) ;; throw err))
    (fun err =>
       print LError "marks POST error" ;;
       ret (server_error "Database error" (Some err))).

(** [req.app.locals.db], set by server.js at start-up. *)
Variable locals_db : bool.

(** [router.post("/", ...)] of routes/marks.js; [res_json] is [res.json]. *)
Definition post_marks (res_json : Response → M Response) (body : MarksBody)
  : M Response :=
  if negb locals_db then res_json (server_error "DB not configured" None) else
  let p := buildPayload body in
  match p_batch_id p, p_assessment p with
  | Some batch_id, Some assessment =>
    if batch_id =? 0 then res_json (bad_request "batch_id and assessment are required") else
    if (length (p_records p) =? 0)%nat then res_json (bad_request "No records provided") else
    resp ← marks_transaction batch_id assessment p;
    res_json resp
  | _, _ => res_json (bad_request "batch_id and assessment are required")
  end.

(** ** POST /api/teachers/:tid/marks (routes/teachers.js) *)

Definition lower (c : ascii) : ascii :=
  let n := nat_of_ascii c in
  if (65 <=? n)%nat && (n <=? 90)%nat then ascii_of_nat (n + 32) else c.

Fixpoint prefix_ci (p s : string) : bool :=
  match p, s with
  | EmptyString, _ => true
  | String a p', String b s' => Ascii.eqb (lower a) (lower b) && prefix_ci p' s'
  | String _ _, EmptyString => false
  end.

Fixpoint contains_ci (p s : string) : bool :=
  prefix_ci p s ||
  match s with
  | EmptyString => false
  | String _ s' => contains_ci p s'
  end.

(** [/mark|save|saved|success/i.test(String(message))] *)
Definition success_pattern (m : string) : bool :=
  contains_ci "mark" m || contains_ci "save" m || contains_ci "saved" m
  || contains_ci "success" m.

(** The replacement of [res.json] installed by the route.  The bodies the
    marks router sends carry [message] and neither [msg], [status], [ok] nor
    [success], so [message] is [body.message] and [okFlag] is [false]. *)
Definition xp_json (tid : Z) (body : Response) : M Response :=
  print LLog "[XP wrapper] response body:" ;;
  (if (negb (String.eqb (message body) "") && success_pattern (message body)) || false
   then try_catch
          (print LLog "[XP] awarding MARKS XP ->" ;;
           addTeacherXP tid XP_MARKS)
          (fun err => print LWarn "[XP] failed to award marks XP:")
   else ret tt) ;;
  ret body.

(** [req.body.records.map((r) => ({ ...r, recorded_by: tid }))] *)
Definition force_recorded_by (tid : Z) (body : MarksBody) : MarksBody :=
  mkMarksBody (mb_date body) (mb_batch_id body) (mb_assessment body) (mb_max_marks body)
    (map (fun r => mkMarksRecord (mr_student_id r) (mr_subject r) (mr_marks r)
                     (mr_semester r) (Some tid)) <$> mb_records body).

(** [router.post("/:tid/marks", auth, ...)]: the request, [req.user]
    included, is handed to the marks router; the handler itself reads only
    [req.params.tid] and [req.body]. *)
Definition post_teacher_marks (tid : Z) (user : option User) (body : MarksBody)
  : M Response :=
  post_marks (xp_json tid) (force_recorded_by tid body).

End Routes.

(** ** Administration of teachers and their batches (routes/teachers.js) *)

Definition set_teacher_batches (f : AssignTable → AssignTable) (d : DB) : DB :=
  mkDB (teachers d) (f (teacher_batches d)) (students d) (attendance d) (marks d).

(** [res.json({ message })]: status 200 and a body with [message] only. *)
Definition done_with (msg : string) : Response := mkResp 200 msg None None None.

(** [req.body] of the assignment route.  [ab_batchIds] is [None] unless
    [req.body.batchIds] is an array; its elements are [Number(b)], [None]
    standing for [NaN]. *)
Record AssignBody := mkAssignBody {
  ab_batchIds : option (list (option Z));
}.

(** [Array.isArray(req.body.batchIds)
      ? req.body.batchIds.map(Number).filter(Boolean) : []] *)
Definition batchIds_of (body : AssignBody) : list Z :=
  match ab_batchIds body with
  | Some bs => omap (fun b => if truthy_num b then b else None) bs
  | None => []
  end.

(** [INSERT IGNORE INTO teacher_batches (teacher_id, batch_id) VALUES
    (?, ?),...]: a pair that is present already is skipped, its row is
    kept; the statement names no [assigned_by], which is [None] in the
    rows it adds. *)
Definition sql_assign_batches (teacherId : Z) (batchIds : list Z) (d : DB) : unit * DB :=
  (tt, set_teacher_batches
         (fun rows => rows ∪ list_to_map ((fun b => ((teacherId, b), None)) <$> batchIds)) d).

(** [SELECT batch_id FROM teacher_batches WHERE teacher_id = ?].  The
    statement has no [ORDER BY]; the rows come as the table enumerates them. *)
Definition sql_batches_of (teacherId : Z) (d : DB) : list Z * DB :=
  (omap (fun p : Z * Z => if p.1 =? teacherId then Some p.2 else None)
     (map_to_list (teacher_batches d)).*1, d).

(** [DELETE FROM teacher_batches WHERE teacher_id = ? AND batch_id = ?] *)
Definition sql_unassign_batch (teacherId batchId : Z) (d : DB) : unit * DB :=
  (tt, set_teacher_batches (delete (teacherId, batchId)) d).

(** [DELETE FROM teacher_batches WHERE teacher_id = ?] *)
Definition sql_delete_assignments (teacherId : Z) (d : DB) : unit * DB :=
  (tt, set_teacher_batches
         (filter (fun row : Z * Z * option Z => row.1.1 ≠ teacherId)) d).

(** [DELETE FROM teachers WHERE id = ?] *)
Definition sql_delete_teacher (id : Z) (d : DB) : unit * DB :=
  (tt, set_teachers (delete id) d).

(** [router.post("/:id/batches", auth, ...)] *)
Definition post_teacher_batches (id : Z) (user : option User) (body : AssignBody)
  : M Response :=
  try_catch
    (if negb (isAdmin user) then ret (forbidden "Forbidden") else
     let batchIds := batchIds_of body in
     if (length batchIds =? 0)%nat then ret (bad_request "batchIds required") else
     pool_query (sql_assign_batches id batchIds) ;;
     ret (done_with "Assigned"))
    (fun err =>
       print LError "POST /teachers/:id/batches" ;;
       ret (server_error "Server error" None)).

(** [router.get("/:id/batches", auth, ...)]; [inr] is the body
    [{ batchIds }] sent with status 200.  The handler does not read
    [req.user]. *)
Definition get_teacher_batches (id : Z) (user : option User)
  : M (Response + list Z) :=
  try_catch
    (rows ← pool_query (sql_batches_of id);
     ret (inr rows))
    (fun err =>
       print LError "GET /teachers/:id/batches" ;;
       ret (inl (server_error "Server error" None))).

(** [router.delete("/:id/batches/:batchId", auth, ...)] *)
Definition delete_teacher_batch (id batchId : Z) (user : option User) : M Response :=
  try_catch
    (if negb (isAdmin user) then ret (forbidden "Forbidden") else
     pool_query (sql_unassign_batch id batchId) ;;
     ret (done_with "Unassigned"))
    (fun err =>
       print LError "DELETE /teachers/:id/batches/:batchId" ;;
       ret (server_error "Server error" None)).

(** [router.delete("/:id", auth, ...)]: two statements, no transaction. *)
Definition delete_teacher (id : Z) (user : option User) : M Response :=
  try_catch
    (if negb (isAdmin user) then ret (forbidden "Forbidden") else
     pool_query (sql_delete_assignments id) ;;
     pool_query (sql_delete_teacher id) ;;
     ret (done_with "Deleted"))
    (fun err =>
       print LError "DELETE /teachers/:id" ;;
       ret (server_error "Server error" None)).

(** ** Reading attendance *)

(** [req.query] of the attendance reads.  [q_batch_id] is
    [req.query.batch_id ? Number(req.query.batch_id) : null], with [None]
    for [null] and for [NaN]. *)
Record AttQuery := mkAttQuery {
  q_date : option string;
  q_batch_id : option Z;
}.

(** A row of the answer.  Of its columns the model keeps those of the
    [attendance] table; the student's columns ([roll_no], [name], [email],
    [course]) and those of the batch are not part of the modelled tables. *)
Record AttendanceEntry := mkEntry {
  e_student_id : Z;
  e_status : Status;
  e_recorded_by : option Z;
}.

(** [SELECT a.student_id, a.status, a.recorded_by, ... FROM attendance a
     JOIN students s ON s.id = a.student_id ...
     WHERE a.attendance_date = ? AND s.batch_id = ? ORDER BY ...].
    The order of the rows, by roll number, is not modelled: they come as
    the table enumerates them. *)
Definition sql_attendance_of (date : string) (batchId : Z) (d : DB)
  : list AttendanceEntry * DB :=
  (omap (fun kv : (option Z * string) * (Status * option Z) =>
           match kv.1.1 with
           | Some sid =>
               if decide (kv.1.2 = date ∧ students d !! sid = Some (Some batchId))
               then Some (mkEntry sid kv.2.1 kv.2.2) else None
           | None => None
           end)
     (map_to_list (attendance d)), d).

(** A reference to an identifier no scope declares throws a
    [ReferenceError].  The handlers that catch it do not look at the
    exception, and the model's one exception value stands for it. *)
Definition unbound {A} (name : string) : M A := throw StoreError.

Section ReadRoutes.

Variable date_parses : string → bool.

(** [router.get("/:id/attendance", auth, ...)] of routes/teachers.js;
    [inr] is the array of rows sent with status 200. *)
Definition get_attendance (tid : Z) (user : option User) (query : AttQuery)
  : M (Response + list AttendanceEntry) :=
  try_catch
    (match q_date query with
     | None => ret (inl (bad_request "Invalid date"))
     | Some date =>
       if String.eqb date "" || negb (isValidDateString date_parses date)
       then ret (inl (bad_request "Invalid date")) else
       match q_batch_id query with
       | None => ret (inl (bad_request "batch_id required"))
       | Some batchId =>
         if batchId =? 0 then ret (inl (bad_request "batch_id required")) else
         if negb (isAdmin user) && negb (isSelf user tid)
         then ret (inl (forbidden "Forbidden")) else
         denied ← (if negb (isAdmin user)
                   then ok ← teacherHasBatch tid batchId; ret (negb ok)
                   else ret false);
         if (denied : bool)
         then ret (inl (forbidden "Forbidden: not assigned to batch")) else
         rows ← pool_query (sql_attendance_of date batchId);
         ret (inr rows)
       end
     end)
    (fun err =>
       print LError "GET /teachers/:id/attendance" ;;
       ret (inl (server_error "Server error" None))).

(** [router.get('/teachers/:id/attendance', auth, ...)] of
    routes/attendance.js.  The text of its [SELECT] is a template literal
    with [${ROLL_ORDER_SQL}]; routes/attendance.js declares no
    [ROLL_ORDER_SQL] (the constant of that name is local to
    routes/teachers.js), so building the argument of [pool.query] throws
    before the store is called. *)
Definition get_teacher_attendance (tid : Z) (user : option User) (query : AttQuery)
  : M (Response + list AttendanceEntry) :=
  try_catch
    (match q_date query with
     | None => ret (inl (bad_request "Invalid date"))
     | Some date =>
       if String.eqb date "" || negb (isValidDateString date_parses date)
       then ret (inl (bad_request "Invalid date")) else
       match q_batch_id query with
       | None => ret (inl (bad_request "batch_id required"))
       | Some batchId =>
         if batchId =? 0 then ret (inl (bad_request "batch_id required")) else
         if negb (isAdmin user) && negb (isSelf user tid)
         then ret (inl (forbidden "Forbidden")) else
         denied ← (if negb (isAdmin user)
                   then ok ← teacherHasBatch tid batchId; ret (negb ok)
                   else ret false);
         if (denied : bool) then ret (inl (forbidden "Forbidden")) else
         (sql ← unbound "ROLL_ORDER_SQL";
          rows ← pool_query (sql : DB → list AttendanceEntry * DB);
          ret (inr rows))
       end
     end)
    (fun err =>
       print LError "GET /teachers/:id/attendance" ;;
       ret (inl (server_error "Server error" None))).

End ReadRoutes.

(** ** The teacher-scoped write of routes/marks.js *)

(** [req.body.records.map((r) => { if (typeof r.recorded_by === "undefined"
    || r.recorded_by === null) r.recorded_by = Number(req.params.tid);
    return r; })] *)
Definition default_recorded_by (tid : Z) (body : MarksBody) : MarksBody :=
  mkMarksBody (mb_date body) (mb_batch_id body) (mb_assessment body) (mb_max_marks body)
    (map (fun r => mkMarksRecord (mr_student_id r) (mr_subject r) (mr_marks r)
                     (mr_semester r)
                     (match mr_recorded_by r with
                      | Some by_ => Some by_
                      | None => Some tid
                      end)) <$> mb_records body).

(** [router.post("/teachers/:tid/marks", ...)] of routes/marks.js: the
    request goes on to the router's own [POST /], with Express's
    [res.json]. *)
Definition post_marks_teacher (locals_db : bool) (tid : Z) (body : MarksBody)
  : M Response :=
  post_marks locals_db ret (default_recorded_by tid body).

(** ** GET /api/teachers/:tid/marks (routes/teachers.js) *)

(** [s.includes(c)] for a one-character [c] *)
Fixpoint includes (c : ascii) (s : string) : bool :=
  match s with
  | EmptyString => false
  | String a s' => Ascii.eqb a c || includes c s'
  end.

(** [s.indexOf(c)] for a one-character [c]: [-1] when [c] does not occur *)
Fixpoint indexOf (c : ascii) (s : string) : Z :=
  match s with
  | EmptyString => -1
  | String a s' =>
      if Ascii.eqb a c then 0
      else let i := indexOf c s' in if i <? 0 then -1 else i + 1
  end.

Fixpoint string_drop (n : nat) (s : string) : string :=
  match n, s with
  | O, _ => s
  | S n', String _ s' => string_drop n' s'
  | S _, EmptyString => EmptyString
  end.

(** [s.slice(start)]: a negative [start] counts from the end *)
Definition slice (start : Z) (s : string) : string :=
  let len := Z.of_nat (String.length s) in
  let from := if start <? 0 then Z.max (len + start) 0 else Z.min start len in
  string_drop (Z.to_nat from) s.

(** The [req.url] the handler sets before it hands the request to the
    marks router; [tid] is [req.params.tid] and [url] the [req.url] it
    finds. *)
Definition forward_marks_url (tid url : string) : string :=
  "/teachers/" ++ tid ++ "/marks"
  ++ (if includes "?" url then slice (indexOf "?" url) url else "").

(** ** routes/batches.js: assignment from the side of the batch *)

(** [req.body] of [POST /:id/assign-teacher]: [at_teacher_id] is the
    number [req.body.teacher_id], [None] when the member is missing or
    [null]. *)
Record AssignTeacherBody := mkAssignTeacherBody {
  at_teacher_id : option Z;
}.

(** [INSERT IGNORE INTO teacher_batches (teacher_id, batch_id,
    assigned_by) VALUES (?, ?, ?)]: a pair that is present already is
    skipped and its row kept, a new row carries [assigned_by]. *)
Definition sql_assign_teacher (teacherId batchId assignedBy : Z) (d : DB) : unit * DB :=
  (tt, set_teacher_batches
         (fun rows => rows ∪ {[ (teacherId, batchId) := Some assignedBy ]}) d).

(** [router.post('/:id/assign-teacher', auth, ...)].  The handler reads
    [req.user.role] without a guard; [user] is the principal the
    middleware has set.  [batchId] is the number in [req.params.id],
    which the handler hands to the store as it comes. *)
Definition post_batch_assign_teacher (batchId : Z) (user : User)
    (body : AssignTeacherBody) : M Response :=
  match u_role user with
  | admin =>
      match at_teacher_id body with
      | None => ret (bad_request "teacher_id required")
      | Some teacher_id =>
          if teacher_id =? 0 then ret (bad_request "teacher_id required") else
          try_catch
            (pool_query (sql_assign_teacher teacher_id batchId (u_id user)) ;;
             ret (done_with "Assigned"))
            (fun err =>
               print LError "POST /api/batches/:id/assign-teacher" ;;
               ret (server_error "Server error" None))
      end
  | _ => ret (forbidden "Forbidden")
  end.

(** [router.delete('/:id/unassign-teacher/:teacherId', auth, ...)] *)
Definition delete_batch_teacher (batchId teacherId : Z) (user : User) : M Response :=
  match u_role user with
  | admin =>
      try_catch
        (pool_query (sql_unassign_batch teacherId batchId) ;;
         ret (done_with "Unassigned"))
        (fun err =>
           print LError "DELETE /api/batches/:id/unassign-teacher/:teacherId" ;;
           ret (server_error "Server error" None))
  | _ => ret (forbidden "Forbidden")
  end.

(** ** Reading marks (routes/marks.js) *)

(** [req.query] of the marks reads; a member is a string, [None] when it
    is missing. *)
Record MarksQuery := mkMarksQuery {
  mq_batch_id : option string;
  mq_assessment : option string;
  mq_date : option string;
  mq_student_id : option string;
}.

(** [if (s)] on a query member: a missing member and the empty string are
    falsy. *)
Definition truthy_string (s : option string) : bool :=
  match s with
  | Some x => negb (String.eqb x "")
  | None => false
  end.

(** [/^\d{2}-\d{2}-\d{4}$/.test(d)] *)
Definition ddmmyyyy (d : string) : bool :=
  match list_ascii_of_string d with
  | [d1; d2; h1; m1; m2; h2; y1; y2; y3; y4] =>
      forallb is_digit [d1; d2; m1; m2; y1; y2; y3; y4] && is_dash h1 && is_dash h2
  | _ => false
  end.

(** The double quote character, as a string. *)
Definition dquote : string := String (ascii_of_nat 34) EmptyString.

(** The condition the [if (date) { ... }] block pushes. *)
Definition date_condition (date : string) : string :=
  if ddmmyyyy date
  then "m.exam_date IS NOT NULL AND DATE_FORMAT(m.exam_date, "
       ++ dquote ++ "%d-%m-%Y" ++ dquote ++ ") = ?"
  else if date_shape date
  then "m.exam_date IS NOT NULL AND DATE_FORMAT(m.exam_date, "
       ++ dquote ++ "%Y-%m-%d" ++ dquote ++ ") = ?"
  else "m.exam_date IS NOT NULL AND DATE(m.exam_date) = DATE(?)".

(** [filters.join(" AND ")] *)
Fixpoint join_and (filters : list string) : string :=
  match filters with
  | [] => ""
  | [f] => f
  | f :: fs => f ++ " AND " ++ join_and fs
  end.

(** [filters.length ? "WHERE " + filters.join(" AND ") : ""] *)
Definition where_clause (filters : list string) : string :=
  if (length filters =? 0)%nat then "" else "WHERE " ++ join_and filters.

(** The text of the [SELECT] of both reads around [${where}]. *)
Definition marks_select (where_ : string) : string :=
  "SELECT m.*, s.roll_no AS student_roll_no, s.name AS student_name, "
  ++ "s.email AS student_email, s.batch_id AS student_batch_id, "
  ++ "b.batch AS student_std, b.year AS student_batch_year, "
  ++ "t.name AS teacher_name, t.email AS teacher_email "
  ++ "FROM marks m LEFT JOIN students s ON s.id = m.student_id "
  ++ "LEFT JOIN batches b ON s.batch_id = b.id "
  ++ "LEFT JOIN teachers t ON t.id = m.recorded_by "
  ++ where_
  ++ " ORDER BY CASE WHEN s.roll_no IS NOT NULL AND s.roll_no <> '' "
  ++ "THEN CAST(s.roll_no AS UNSIGNED) ELSE m.student_id END, m.exam_date DESC".

(** The number of [?] in the text of a statement. *)
Fixpoint placeholders (sql : string) : nat :=
  match sql with
  | EmptyString => 0
  | String c sql' => (if Ascii.eqb c "?" then 1 else 0) + placeholders sql'
  end.

Section MarksReads.

(** JavaScript numbers, [Number(s)] on a string, and the test
    [Number.isFinite(n) && n > 0]. *)
Variable JsNumber : Type.
Variable to_number : string → JsNumber.
Variable finite_positive : JsNumber → bool.

(** A value handed to the driver for a [?]. *)
Inductive Param :=
  | PNumber (n : JsNumber)
  | PString (s : string).

(** The rows of the answer, and the store running a [SELECT] given as
    text with its values. *)
Variable Row : Type.
Variable run_select : string → list Param → DB → list Row.

(** [if (v) { filters.push(condition); params.push(value); }] for a member
    [v] of the query, on the [filters] and [params] built so far. *)
Definition push_if (v : option string) (condition : string → string)
    (value : string → Param) (acc : list string * list Param)
  : list string * list Param :=
  match v with
  | Some x =>
      if String.eqb x "" then acc
      else ((acc.1 ++ [condition x])%list, (acc.2 ++ [value x])%list)
  | None => acc
  end.

(** The four [if] blocks the two reads share. *)
Definition marks_filters (q : MarksQuery) (acc : list string * list Param)
  : list string * list Param :=
  let acc := push_if (mq_batch_id q) (fun _ => "m.batch_id = ?")
               (fun x => PNumber (to_number x)) acc in
  let acc := push_if (mq_student_id q) (fun _ => "m.student_id = ?")
               (fun x => PNumber (to_number x)) acc in
  let acc := push_if (mq_assessment q) (fun _ => "m.assessment = ?") PString acc in
  push_if (mq_date q) date_condition PString acc.

(** [db.query(sql, params)] inside the [try] of the reads. *)
Definition marks_query (label : string) (fp : list string * list Param)
  : M (Response + list Row) :=
  try_catch
    (rows ← pool_query (fun d =>
               (run_select (marks_select (where_clause fp.1)) fp.2 d, d));
     ret (inr rows))
    (fun err =>
       print LError label ;;
       ret (inl (server_error "DB error" (Some err)))).

(** [router.get("/", ...)] *)
Definition get_marks (locals_db : bool) (q : MarksQuery) : M (Response + list Row) :=
  if negb locals_db then ret (inl (server_error "DB not configured" None)) else
  marks_query "marks GET error" (marks_filters q ([], [])).

(** [router.get("/teachers/:tid/marks", ...)]; [tid] is [req.params.tid]. *)
Definition get_marks_teacher (locals_db : bool) (tid : string) (q : MarksQuery)
  : M (Response + list Row) :=
  if negb locals_db then ret (inl (server_error "DB not configured" None)) else
  let tid := to_number tid in
  if negb (finite_positive tid) then ret (inl (bad_request "Invalid teacher id")) else
  marks_query "teacher marks GET error"
    (marks_filters q (["m.recorded_by = ?"], [PNumber tid])).

End MarksReads.

Arguments PNumber {JsNumber} n.
Arguments PString {JsNumber} s.
Arguments push_if {JsNumber} v condition value acc.
Arguments marks_filters {JsNumber} to_number q acc.
Arguments marks_query {JsNumber Row} run_select label fp.
Arguments get_marks {JsNumber} to_number {Row} run_select locals_db q.
Arguments get_marks_teacher {JsNumber} to_number finite_positive {Row} run_select
  locals_db tid q.

(** ** The XP transition in the words of the specification

    Section 4.4: add [amount] to [xp]; while [level < 10] and
    [xp >= next_xp_target], subtract [next_xp_target] from [xp], increment
    [level], and increase [next_xp_target] by 150 if the new level is below
    10. *)

Definition spec_level_up (s : TeacherRow) : TeacherRow :=
  mkTeacher (xp s - next_xp_target s) (level s + 1)
    (if decide (level s + 1 < 10) then next_xp_target s + 150 else next_xp_target s).

Inductive spec_levelling : TeacherRow → TeacherRow → Prop :=
  | levelling_done s :
      ¬ (level s < 10 ∧ next_xp_target s <= xp s) → spec_levelling s s
  | levelling_step s s' :
      level s < 10 → next_xp_target s <= xp s →
      spec_levelling (spec_level_up s) s' → spec_levelling s s'.

Definition spec_award (amount : Z) (s s' : TeacherRow) : Prop :=
  spec_levelling (mkTeacher (xp s + amount) (level s) (next_xp_target s)) s'.

(** ** What an award may change *)

(** Every table but [teachers] is as it was. *)
Definition xp_frame (d d' : DB) : Prop :=
  teacher_batches d' = teacher_batches d ∧ students d' = students d
  ∧ attendance d' = attendance d ∧ marks d' = marks d.

(** The most a run of [addTeacherXP tid _] does, whether it returns or
    throws: only the row of [tid] changes, it is neither created nor
    removed, its level stays within the maximum, and at the maximum its
    level and target stay. *)
Definition xp_effect (tid : Z) (d d' : DB) : Prop :=
  xp_frame d d'
  ∧ (∀ id, id ≠ tid → teachers d' !! id = teachers d !! id)
  ∧ match teachers d !! tid with
    | None => teachers d' !! tid = None
    | Some r =>
        ∃ r', teachers d' !! tid = Some r'
              ∧ (level r ≤ MAX_LEVEL → level r' ≤ MAX_LEVEL)
              ∧ (MAX_LEVEL ≤ level r →
                 level r' = level r ∧ next_xp_target r' = next_xp_target r)
    end.

(** ** Vocabulary for the statements about the routes *)

(** The first [n] awaited store calls of a run succeed. *)
Fixpoint store_ok (n : nat) (fs : list bool) : bool :=
  match n, fs with
  | O, _ => true
  | S _, [] => true
  | S n', f :: fs' => negb f && store_ok n' fs'
  end.

(** Student [sid] belongs to batch [batch]. *)
Definition in_batch (d : DB) (batch sid : Z) : Prop :=
  students d !! sid = Some (Some batch).

(** The permission rule of the attendance routes: an admin, or the user
    whose id is the path parameter when that teacher is assigned to the
    batch. *)
Definition permitted (d : DB) (user : option User) (tid batch : Z) : Prop :=
  isAdmin user = true ∨ (isSelf user tid = true ∧ (tid, batch) ∈ teacher_batches d).

(** The store after the attendance [INSERT] of a request. *)
Definition written (user : option User) (date : string) (records : list AttRecord)
    (d : DB) : DB :=
  (sql_upsert_attendance (attendance_values (recorder user) date records) d).2.

(** A body that passes the shape checks of the attendance route. *)
Definition well_formed (date_parses : string → bool) (body : AttBody)
    (date : string) (batch : Z) (records : list AttRecord) : Prop :=
  b_date body = Some date ∧ date ≠ "" ∧ isValidDateString date_parses date = true
  ∧ b_batch_id body = Some batch ∧ batch ≠ 0
  ∧ b_records body = Some records ∧ records ≠ [].

(** The keys of the rows an attendance [INSERT] names. *)
Definition att_keys (values : list AttendanceRow) : gset (option Z * string) :=
  list_to_set (map (fun r => (a_student_id r, a_date r)) values).

(** The rows of the marks [INSERT]s of a payload, and their keys. *)
Definition marks_rows (batch : Z) (assessment : string) (p : Payload) : list MarksRow :=
  map (fun r => marks_row (default 0 (mr_student_id r)) batch assessment p r) (p_records p).

Definition marks_keys (rows : list MarksRow) : gset (Z * Z * string) :=
  list_to_set (map (fun r => (m_student_id r, m_batch_id r, m_assessment r)) rows).

(** The store after the marks transaction of a payload has committed. *)
Definition marks_written (batch : Z) (assessment : string) (p : Payload) (d : DB) : DB :=
  set_marks (fun t => foldl (fun t r => upsert_marks r t) t (marks_rows batch assessment p)) d.

(** The last values an attendance [INSERT] gives for key [k], if any. *)
Fixpoint att_last (k : option Z * string) (values : list AttendanceRow)
  : option (Status * option Z) :=
  match values with
  | [] => None
  | r :: values' =>
      match att_last k values' with
      | Some v => Some v
      | None =>
          if decide ((a_student_id r, a_date r) = k)
          then Some (a_status r, a_recorded_by r) else None
      end
  end.

(** A response of the marks router other than [Marks saved]; none of them
    matches the pattern of the XP wrapper. *)
Definition marks_refusal (resp : Response) : Prop :=
  status resp ≠ 200 ∧ success_pattern (message resp) = false.

(** A [res.json] that sends the body it is given and leaves the marks
    table alone: Express's own ([ret]) and the XP wrapper are such. *)
Definition sends_unchanged (res_json : Response → M Response) : Prop :=
  ∀ resp w, ∃ w', res_json resp w = Ok resp w' ∧ marks (db w') = marks (db w).

(** No stored level exceeds the maximum. *)
Definition levels_capped (d : DB) : Prop :=
  ∀ id r, teachers d !! id = Some r → level r <= MAX_LEVEL.

(** A sequence of awards [(teacherId, amount)], each run on the world the
    previous one left, whether it returned or threw. *)
Definition award_all (awards : list (Z * Z)) (w : World) : World :=
  foldl (fun w a => world_of (addTeacherXP a.1 a.2 w)) w awards.

(** ** Example data *)

(** A date parser for the examples: month 01-12 and day 01-31. *)
Definition calendar_date (d : string) : bool :=
  match list_ascii_of_string d with
  | [_; _; _; _; _; m1; m2; _; d1; d2] =>
      let m := (10 * (nat_of_ascii m1 - 48) + (nat_of_ascii m2 - 48))%nat in
      let dd := (10 * (nat_of_ascii d1 - 48) + (nat_of_ascii d2 - 48))%nat in
      (1 <=? m)%nat && (m <=? 12)%nat && (1 <=? dd)%nat && (dd <=? 31)%nat
  | _ => false
  end.

(** Teacher 1 at the start of the XP ladder, assigned to batch 7; students
    100 and 101 in batch 7, student 102 in batch 8. *)
Definition campus : DB :=
  mkDB {[ 1 := mkTeacher 0 1 250 ]} {[ (1, 7) := None ]}
    {[ 100 := Some 7; 101 := Some 7; 102 := Some 8 ]} ∅ ∅.

Definition campus_up : World := mkWorld campus [] [].

(** Teacher 3 has reached the last level; the store fails its second call. *)
Definition campus_max : World :=
  mkWorld (mkDB {[ 3 := mkTeacher 40 10 1450 ]} ∅ ∅ ∅ ∅) [] [false; true].

(** The store answers three calls and fails the fourth. *)
Definition campus_xp_down : World := mkWorld campus [] [false; false; false; true].

Definition teacher1 : option User := Some (mkUser 1 teacher).
Definition teacher2 : option User := Some (mkUser 2 teacher).
Definition admin9 : option User := Some (mkUser 9 admin).

(** A student whose id is that of teacher 1. *)
Definition student1 : option User := Some (mkUser 1 student).

Definition roll_call : AttBody :=
  mkAttBody (Some "2024-01-15") (Some 7)
    (Some [mkAttRecord (Some 100) "Present"; mkAttRecord (Some 101) "late"]).

Definition roll_call_foreign : AttBody :=
  mkAttBody (Some "2024-01-15") (Some 7)
    (Some [mkAttRecord (Some 100) "Present"; mkAttRecord (Some 102) "Present"]).

(** The second record carries [student_id] 0, as [Number] gives it for
    [0], [null] or the empty string. *)
Definition roll_call_zero : AttBody :=
  mkAttBody (Some "2024-01-15") (Some 7)
    (Some [mkAttRecord (Some 100) "Present"; mkAttRecord (Some 0) "Present"]).

Definition roll_call_twice : AttBody :=
  mkAttBody (Some "2024-01-15") (Some 7)
    (Some [mkAttRecord (Some 100) "Present"; mkAttRecord (Some 100) "Absent"]).

Definition mark_present : AttBody :=
  mkAttBody (Some "2024-01-15") (Some 7) (Some [mkAttRecord (Some 100) "Present"]).

Definition mark_absent : AttBody :=
  mkAttBody (Some "2024-01-15") (Some 7) (Some [mkAttRecord (Some 100) "Absent"]).

Definition midterm : MarksBody :=
  mkMarksBody (Some "2024-01-15") (Some 7) (Some "Midterm") (Some 100)
    (Some [mkMarksRecord (Some 100) None (Some 55) None None;
           mkMarksRecord (Some 101) None (Some 66) None None]).

(** No teacher is assigned to any batch. *)
Definition campus_unassigned : World :=
  mkWorld (mkDB {[ 1 := mkTeacher 0 1 250 ]} ∅ {[ 100 := Some 7; 101 := Some 7 ]} ∅ ∅)
    [] [].

(** ** Observing a run *)

Definition answer (r : Res Response) : option Response :=
  match r with Ok a _ => Some a | Throw _ _ => None end.

Definition threw {A} (r : Res A) : bool :=
  match r with Ok _ _ => false | Throw _ _ => true end.

(** The run answered 200. *)
Definition succeeded (r : Res Response) : bool :=
  match r with Ok a _ => status a =? 200 | Throw _ _ => false end.

(** Between [d] and [d'] teacher [tid] received exactly one award of
    [amount], as the specification defines an award; an id without a row
    receives nothing. *)
Definition awarded (amount tid : Z) (d d' : DB) : Prop :=
  match teachers d !! tid with
  | Some r => ∃ r', teachers d' = <[tid := r']> (teachers d) ∧ spec_award amount r r'
  | None => teachers d' = teachers d
  end.

(** ** Vocabulary for the further properties *)

(** The row after [amount] has been added to its [xp], before any
    level-up. *)
Definition add_xp (amount : Z) (s : TeacherRow) : TeacherRow :=
  mkTeacher (xp s + amount) (level s) (next_xp_target s).

(** Some turns of the level-up rule, not necessarily all that are due:
    what an award has carried out when a store failure cuts it short. *)
Inductive levelling_progress : TeacherRow → TeacherRow → Prop :=
  | progress_none s : levelling_progress s s
  | progress_step s s' :
      level s < 10 → next_xp_target s <= xp s →
      levelling_progress (spec_level_up s) s' → levelling_progress s s'.

(** The key of the row a marks [INSERT] names. *)
Definition marks_key (r : MarksRow) : Z * Z * string :=
  (m_student_id r, m_batch_id r, m_assessment r).

(** The last row a sequence of marks [INSERT]s names for key [k], if any. *)
Fixpoint marks_last (k : Z * Z * string) (rows : list MarksRow) : option MarksRow :=
  match rows with
  | [] => None
  | r :: rows' =>
      match marks_last k rows' with
      | Some r' => Some r'
      | None => if decide (marks_key r = k) then Some r else None
      end
  end.

(** A record the loop of the marks route accepts:
    [Number(r.student_id || 0)] is a number other than 0. *)
Definition has_student (r : MarksRecord) : Prop :=
  ∃ sid, mr_student_id r = Some sid ∧ sid ≠ 0.

(** A run of a marks write for [body] from world [w] wrote all or nothing:
    it answered, and either the answer is not a 200 and the marks table is
    as it was, or the answer is a 200, every record of the payload names a
    student, and the marks table holds the rows of all of them. *)
Definition all_or_nothing (body : MarksBody) (w : World) (run : Res Response) : Prop :=
  let p := buildPayload body in
  ∃ resp w',
    run = Ok resp w'
    ∧ ((status resp ≠ 200 ∧ marks (db w') = marks (db w))
       ∨ (status resp = 200 ∧ Forall has_student (p_records p)
          ∧ ∃ batch assessment,
              p_batch_id p = Some batch ∧ p_assessment p = Some assessment
              ∧ marks (db w') = marks (marks_written batch assessment p (db w)))).

(** Every table but [teacher_batches] is as it was. *)
Definition other_tables_kept (d d' : DB) : Prop :=
  teachers d' = teachers d ∧ students d' = students d
  ∧ attendance d' = attendance d ∧ marks d' = marks d.

(** The run left the batch assignments of world [w] as they were. *)
Definition keeps_assignments {A} (w : World) (run : Res A) : Prop :=
  teacher_batches (db (world_of run)) = teacher_batches (db w).

(** ** Further example data *)

(** The midterm marks with the first record signed by teacher 2. *)
Definition midterm_signed : MarksBody :=
  mkMarksBody (Some "2024-01-15") (Some 7) (Some "Midterm") (Some 100)
    (Some [mkMarksRecord (Some 100) None (Some 55) None (Some 2);
           mkMarksRecord (Some 101) None (Some 66) None None]).

(** A later submission for the same assessment. *)
Definition midterm_regraded : MarksBody :=
  mkMarksBody (Some "2024-02-01") (Some 7) (Some "Midterm") (Some 50)
    (Some [mkMarksRecord (Some 100) None (Some 40) None None]).

(** The store answers one call and fails the next. *)
Definition campus_half_down : World := mkWorld campus [] [false; true].

Definition assign_7_8 : AssignBody := mkAssignBody (Some [Some 7; None; Some 0; Some 8]).

(** What the text of a marks read may depend on: which members of the
    query are present, and the form of the date. *)
Definition query_shape (q : MarksQuery) : bool * bool * bool * option (bool * bool) :=
  (truthy_string (mq_batch_id q), truthy_string (mq_student_id q),
   truthy_string (mq_assessment q),
   if truthy_string (mq_date q)
   then (fun d => (ddmmyyyy d, date_shape d)) <$> mq_date q else None).

(** Conditions with one [?] each, and as many values as conditions. *)
Definition bound {JsNumber} (acc : list string * list (Param JsNumber)) : Prop :=
  Forall (fun f => placeholders f = 1%nat) acc.1 ∧ length acc.1 = length acc.2.

(** ** Proof automation *)

(** Builds the levelling derivation of a concrete award. *)
Ltac levelling :=
  repeat (vm_compute;
          first [ apply levelling_done; cbn; lia
                | apply levelling_step; [cbn; lia | cbn; lia |] ]).

(** Checks every student of a concrete payload against its batch. *)
Ltac students_in_batch :=
  let sid := fresh "sid" in
  let Hin := fresh "Hin" in
  intros sid Hin; vm_compute in Hin;
  repeat (apply elem_of_cons in Hin as [->|Hin]; [reflexivity|]);
  by apply elem_of_nil in Hin.

(** * Properties of the XP system *)

(** ** Running the monad *)

Lemma run_bind {A B} (m : M A) (k : A → M B) w :
  (m ≫= k) w = match m w with Ok a w' => k a w' | Throw e w' => Throw e w' end.
Proof. reflexivity. Qed.

(** A store call throws or runs its statement; either way it consumes one
    entry of the fault plan. *)
Lemma pool_query_cases {A} (q : DB → A * DB) w :
  (hd false (faults w) = true
   ∧ pool_query q w = Throw StoreError (mkWorld (db w) (console w) (tail (faults w))))
  ∨ (hd false (faults w) = false
     ∧ pool_query q w
       = Ok (q (db w)).1 (mkWorld (q (db w)).2 (console w) (tail (faults w)))).
Proof.
  unfold pool_query. destruct (faults w) as [|[] fs]; simpl.
  - right. split; [done|]. by destruct (q (db w)).
  - left. done.
  - right. split; [done|]. by destruct (q (db w)).
Qed.

Lemma pool_query_up {A} (q : DB → A * DB) w :
  faults w = [] →
  pool_query q w = Ok (q (db w)).1 (mkWorld (q (db w)).2 (console w) []).
Proof. intros H. unfold pool_query. rewrite H. by destruct (q (db w)). Qed.

(** ** The award when the store answers *)

(** The specification's rule determines the resulting state. *)
Lemma spec_levelling_det s s1 s2 :
  spec_levelling s s1 → spec_levelling s s2 → s1 = s2.
Proof.
  intros H1. revert s2. induction H1 as [s Hn|s s' Hl Hx _ IH]; intros s2 H2.
  - inversion H2; subst; [done|]. exfalso. apply Hn. done.
  - inversion H2; subst; [|by apply IH]. exfalso.
    match goal with H : ¬ _ |- _ => apply H end. done.
Qed.

(** With [MAX_LEVEL - level] turns of fuel or more the loop ends in the
    state the specification's while rule gives, and that state is the
    stored row. *)
Lemma levelUpLoop_up n tid x l t w :
  faults w = [] →
  teachers (db w) !! tid = Some (mkTeacher x l t) →
  (Z.to_nat (MAX_LEVEL - l) ≤ n)%nat →
  ∃ r', levelUpLoop n tid x l t w
        = Ok tt (mkWorld (set_teachers (insert tid r') (db w)) (console w) [])
      ∧ spec_levelling (mkTeacher x l t) r'.
Proof.
  revert x l t w. induction n as [|n IH]; intros x l t w Hf Hrow Hn.
  - exists (mkTeacher x l t). split.
    + simpl. unfold ret. f_equal. destruct w as [d c f]; simpl in *. subst f. f_equal.
      destruct d; unfold set_teachers; simpl in *. f_equal. by rewrite insert_id.
    + apply levelling_done. simpl. unfold MAX_LEVEL in Hn. lia.
  - simpl. destruct ((t <=? x) && (l <? MAX_LEVEL)) eqn:Hc.
    + apply andb_true_iff in Hc as [Hx Hl]. apply Z.leb_le in Hx. apply Z.ltb_lt in Hl.
      rewrite run_bind, pool_query_up by done.
      unfold sql_set_level. rewrite Hrow. simpl.
      set (r1 := mkTeacher (x - t) (l + 1) (if l + 1 <? MAX_LEVEL then t + 150 else t)).
      destruct (IH (x - t) (l + 1) (if l + 1 <? MAX_LEVEL then t + 150 else t)
                  (mkWorld (set_teachers (insert tid r1) (db w)) (console w) []))
        as (r' & Hrun & Hspec);
        [done | simpl; by rewrite lookup_insert_eq | unfold MAX_LEVEL in *; lia |].
      exists r'. split.
      * rewrite Hrun. simpl. f_equal. f_equal. unfold set_teachers; simpl. f_equal.
        by rewrite insert_insert_eq.
      * apply levelling_step; simpl; [unfold MAX_LEVEL in Hl; lia | done |].
        unfold spec_level_up; simpl.
        replace (if decide (l + 1 < 10) then t + 150 else t)
          with (if l + 1 <? MAX_LEVEL then t + 150 else t); [done|].
        unfold MAX_LEVEL. destruct (Z.ltb_spec (l + 1) 10); case_decide; lia.
    + exists (mkTeacher x l t). split.
      * unfold ret. f_equal. destruct w as [d c f]; simpl in *. subst f. f_equal.
        destruct d; unfold set_teachers; simpl in *. f_equal. by rewrite insert_id.
      * apply levelling_done. simpl. unfold MAX_LEVEL in Hc.
        apply andb_false_iff in Hc as [Hc|Hc];
          [apply Z.leb_gt in Hc|apply Z.ltb_ge in Hc]; lia.
Qed.

(** The bound is never what stops the loop: more fuel gives the same
    run. *)
Lemma levelUpLoop_fuel n tid x l t :
  (Z.to_nat (MAX_LEVEL - l) ≤ n)%nat →
  levelUpLoop n tid x l t = levelUpLoop (Z.to_nat (MAX_LEVEL - l)) tid x l t.
Proof.
  revert x l t. induction n as [|n IH]; intros x l t Hn.
  - by replace (Z.to_nat (MAX_LEVEL - l)) with 0%nat by lia.
  - destruct (Z.to_nat (MAX_LEVEL - l)) as [|k] eqn:Hk; simpl.
    + replace (l <? MAX_LEVEL) with false by (symmetry; apply Z.ltb_ge; lia).
      by rewrite andb_false_r.
    + destruct ((t <=? x) && (l <? MAX_LEVEL)); [|done].
      rewrite IH by lia.
      replace k with (Z.to_nat (MAX_LEVEL - (l + 1))) by lia. done.
Qed.

Lemma set_teachers_twice d tid a b :
  set_teachers (insert tid a) (set_teachers (insert tid b) d)
  = set_teachers (insert tid a) d.
Proof. unfold set_teachers; simpl. by rewrite insert_insert_eq. Qed.

Lemma addTeacherXP_up tid amount w r :
  faults w = [] →
  teachers (db w) !! tid = Some r →
  ∃ r', addTeacherXP tid amount w
        = Ok tt (mkWorld (set_teachers (insert tid r') (db w))
                   (console w ++ [(LLog, "[XP] addTeacherXP called ->");
                                  (LLog, "[XP] addTeacherXP update result: ok");
                                  (LLog, "[XP] addTeacherXP finished for")]) [])
      ∧ spec_award amount r r'.
Proof.
  intros Hf Hr. unfold addTeacherXP, try_catch.
  rewrite run_bind. unfold print at 1. rewrite run_bind, pool_query_up by done.
  cbn [db console faults]. unfold sql_add_xp. rewrite Hr. cbn [fst snd].
  rewrite run_bind. unfold print at 1. cbn [db console faults Z.eqb].
  rewrite run_bind. unfold checkTeacherLevelUp.
  rewrite run_bind, pool_query_up by done. cbn [db console faults].
  unfold sql_select_xp. cbn [fst snd set_teachers teachers].
  rewrite lookup_insert_eq. cbn [level xp next_xp_target].
  set (w1 := mkWorld _ _ _).
  destruct (MAX_LEVEL <=? level r) eqn:Hmax.
  - exists (mkTeacher (xp r + amount) (level r) (next_xp_target r)). split.
    + unfold ret, print. subst w1. cbn. rewrite <- !app_assoc. done.
    + apply levelling_done. simpl. apply Z.leb_le in Hmax. unfold MAX_LEVEL in Hmax. lia.
  - destruct (levelUpLoop_up (Z.to_nat (MAX_LEVEL - level r)) tid (xp r + amount) (level r)
                (next_xp_target r) w1) as (r' & Hrun & Hspec);
      [done | subst w1; simpl; by rewrite lookup_insert_eq | done |].
    exists r'. split; [|done].
    rewrite Hrun. unfold print. subst w1. cbn [db console faults].
    rewrite set_teachers_twice, <- !app_assoc. done.
Qed.

Lemma addTeacherXP_up_missing tid amount w :
  faults w = [] →
  teachers (db w) !! tid = None →
  addTeacherXP tid amount w
  = Ok tt (mkWorld (db w)
             (console w ++ [(LLog, "[XP] addTeacherXP called ->");
                            (LLog, "[XP] addTeacherXP update result: norows");
                            (LLog, "[XP] addTeacherXP finished for")]) []).
Proof.
  intros Hf Hr. unfold addTeacherXP, try_catch.
  rewrite run_bind. unfold print at 1. rewrite run_bind, pool_query_up by done.
  cbn [db console faults]. unfold sql_add_xp. rewrite Hr. cbn [fst snd].
  rewrite run_bind. unfold print at 1. cbn [db console faults Z.eqb].
  rewrite run_bind. unfold checkTeacherLevelUp.
  rewrite run_bind, pool_query_up by done. cbn [db console faults].
  unfold sql_select_xp. rewrite Hr. cbn. rewrite <- !app_assoc. done.
Qed.

(** ** The award whatever the store does *)

Lemma xp_frame_refl d : xp_frame d d.
Proof. by unfold xp_frame. Qed.

Lemma xp_frame_set_teachers f d : xp_frame d (set_teachers f d).
Proof. by unfold xp_frame, set_teachers. Qed.

Lemma xp_frame_trans d1 d2 d3 : xp_frame d1 d2 → xp_frame d2 d3 → xp_frame d1 d3.
Proof. unfold xp_frame. intros (?&?&?&?) (?&?&?&?). repeat split; congruence. Qed.

(** Every row the loop stores has a level within the maximum, and a loop
    entered at the maximum stores nothing. *)
Lemma levelUpLoop_effect n tid x l t w :
  teachers (db w) !! tid = Some (mkTeacher x l t) →
  let d' := db (world_of (levelUpLoop n tid x l t w)) in
  xp_frame (db w) d'
  ∧ (∀ id, id ≠ tid → teachers d' !! id = teachers (db w) !! id)
  ∧ ∃ r', teachers d' !! tid = Some r'
          ∧ (l ≤ MAX_LEVEL → level r' ≤ MAX_LEVEL)
          ∧ (MAX_LEVEL ≤ l → r' = mkTeacher x l t).
Proof.
  revert x l t w. induction n as [|n IH]; intros x l t w Hrow; simpl.
  - split; [apply xp_frame_refl|]. split; [done|]. by exists (mkTeacher x l t).
  - destruct ((t <=? x) && (l <? MAX_LEVEL)) eqn:Hc; simpl.
    + apply andb_true_iff in Hc as [_ Hl]. apply Z.ltb_lt in Hl.
      rewrite run_bind.
      destruct (pool_query_cases
                  (sql_set_level (x - t) (l + 1)
                     (if l + 1 <? MAX_LEVEL then t + 150 else t) tid) w)
        as [[_ ->]|[_ ->]]; simpl.
      * split; [apply xp_frame_refl|]. split; [done|].
        exists (mkTeacher x l t). split; [done|]. split; [done|lia].
      * unfold sql_set_level. rewrite Hrow. cbn [fst snd].
        match goal with |- context [levelUpLoop n tid ?a ?b ?c ?w1] =>
          destruct (IH a b c w1) as (Hfr & Hoth & r' & Hr' & Hle & _)
        end; [simpl; by rewrite lookup_insert_eq|].
        cbn [db] in *. split; [|split].
        -- eapply xp_frame_trans; [apply xp_frame_set_teachers|exact Hfr].
        -- intros id Hid. rewrite Hoth by done. simpl. by rewrite lookup_insert_ne.
        -- exists r'. split; [done|]. split; [intros; apply Hle; lia|lia].
    + split; [apply xp_frame_refl|]. split; [done|]. by exists (mkTeacher x l t).
Qed.

Lemma checkTeacherLevelUp_effect tid w :
  xp_effect tid (db w) (db (world_of (checkTeacherLevelUp tid w))).
Proof.
  unfold checkTeacherLevelUp. rewrite run_bind.
  destruct (pool_query_cases (sql_select_xp tid) w) as [[_ ->]|[_ ->]]; simpl.
  - split; [apply xp_frame_refl|]. split; [done|].
    destruct (teachers (db w) !! tid) as [r|]; [|done]. by exists r.
  - destruct (teachers (db w) !! tid) as [r|] eqn:Hr; simpl.
    + destruct (MAX_LEVEL <=? level r) eqn:Hmax; simpl.
      * split; [apply xp_frame_refl|]. split; [done|]. rewrite Hr. by exists r.
      * match goal with |- context [levelUpLoop ?n tid ?a ?b ?c ?w1] =>
          destruct (levelUpLoop_effect n tid a b c w1)
            as (Hfr & Hoth & r' & Hr' & Hle & Heq)
        end; [simpl; by destruct r|].
        cbn [db] in *. split; [done|]. split; [done|]. rewrite Hr.
        exists r'. split; [done|]. split; [done|].
        intros Hge. apply Heq in Hge. subst r'. done.
    + split; [apply xp_frame_refl|]. split; [done|]. by rewrite Hr.
Qed.

Lemma xp_effect_refl tid d : xp_effect tid d d.
Proof.
  split; [apply xp_frame_refl|]. split; [done|].
  destruct (teachers d !! tid) as [r|]; [|done]. by exists r.
Qed.

Lemma xp_effect_trans tid d1 d2 d3 :
  xp_effect tid d1 d2 → xp_effect tid d2 d3 → xp_effect tid d1 d3.
Proof.
  intros (Hf1 & Ho1 & H1) (Hf2 & Ho2 & H2).
  split; [by eapply xp_frame_trans|]. split.
  - intros id Hid. rewrite Ho2, Ho1 by done. done.
  - destruct (teachers d1 !! tid) as [r|].
    + destruct H1 as (r1 & Hr1 & Hle1 & Hge1). rewrite Hr1 in H2.
      destruct H2 as (r2 & Hr2 & Hle2 & Hge2). exists r2. split; [done|].
      split; [by auto|]. intros Hge. destruct (Hge1 Hge) as [E1 E2].
      destruct Hge2 as [E3 E4]; [lia|]. split; congruence.
    + by rewrite H1 in H2.
Qed.

Lemma sql_add_xp_effect amount tid d : xp_effect tid d (sql_add_xp amount tid d).2.
Proof.
  unfold sql_add_xp. destruct (teachers d !! tid) as [r|] eqn:Hr; simpl.
  - split; [apply xp_frame_set_teachers|]. split.
    + intros id Hid. simpl. by rewrite lookup_insert_ne.
    + rewrite Hr. eexists. split; [simpl; by rewrite lookup_insert_eq|]. done.
  - apply xp_effect_refl.
Qed.

Lemma addTeacherXP_effect tid amount w :
  xp_effect tid (db w) (db (world_of (addTeacherXP tid amount w))).
Proof.
  unfold addTeacherXP, try_catch.
  rewrite run_bind. unfold print at 1. rewrite run_bind.
  destruct (pool_query_cases (sql_add_xp amount tid)
              (mkWorld (db w) (console w ++ [(LLog, "[XP] addTeacherXP called ->")]) (faults w)))
    as [[_ ->]|[_ ->]]; cbn [db console faults].
  - simpl. apply xp_effect_refl.
  - rewrite run_bind. unfold print at 1. cbn [db console faults]. rewrite run_bind.
    match goal with |- context [checkTeacherLevelUp tid ?w1] =>
      pose proof (checkTeacherLevelUp_effect tid w1) as Hc;
      destruct (checkTeacherLevelUp tid w1) as [[] w2|e w2]
    end; simpl in *; (eapply xp_effect_trans; [apply sql_add_xp_effect|exact Hc]).
Qed.

(** * Properties of the attendance route *)

Lemma store_ok_step n fs :
  store_ok (S n) fs = true → hd false fs = false ∧ store_ok n (tail fs) = true.
Proof.
  destruct fs as [|[] fs]; simpl; try done. by destruct n.
Qed.

Lemma pool_query_ok {A} (q : DB → A * DB) n w :
  store_ok (S n) (faults w) = true →
  pool_query q w = Ok (q (db w)).1 (mkWorld (q (db w)).2 (console w) (tail (faults w)))
  ∧ store_ok n (tail (faults w)) = true.
Proof.
  intros H. apply store_ok_step in H as [Hh Ht]. split; [|done].
  destruct (pool_query_cases q w) as [[E _]|[_ E]]; [congruence|done].
Qed.

Lemma filter_outside_nil (S : gset Z) (ids : list Z) :
  (∀ sid, sid ∈ ids → sid ∈ S) → filter (fun sid => sid ∉ S) ids = [].
Proof.
  induction ids as [|a ids IH]; intros Hall; [done|].
  rewrite filter_cons_False by (intros Hn; apply Hn, Hall; set_solver).
  apply IH. intros sid Hin. apply Hall. set_solver.
Qed.

Lemma no_invalids ids batch d :
  (length (filter (fun sid => sid ∉ (list_to_set (sql_students_in ids batch d).1 : gset Z))
             ids) =? 0)%nat = true
  ↔ ∀ sid, sid ∈ ids → in_batch d batch sid.
Proof.
  unfold sql_students_in, in_batch. cbn [fst].
  rewrite Nat.eqb_eq. split.
  - intros Hlen sid Hin. apply nil_length_inv in Hlen.
    destruct (decide (sid ∈ (list_to_set
                (filter (λ sid, students d !! sid = Some (Some batch)) (remove_dups ids))
                : gset Z))) as [Hs|Hs].
    + apply elem_of_list_to_set, list_elem_of_filter in Hs. by destruct Hs.
    + exfalso. eapply (filter_nil_not_elem_of _ _ sid); [exact Hlen| exact Hs | exact Hin].
  - intros Hall. rewrite filter_outside_nil; [done|].
    intros sid Hin. apply elem_of_list_to_set, list_elem_of_filter. split; [by apply Hall|].
    by apply elem_of_remove_dups.
Qed.

Lemma teacherHasBatch_cases tid batch w :
  (hd false (faults w) = true
   ∧ teacherHasBatch tid batch w
     = Throw StoreError (mkWorld (db w) (console w) (tail (faults w))))
  ∨ (hd false (faults w) = false
     ∧ teacherHasBatch tid batch w
       = Ok (bool_decide ((tid, batch) ∈ teacher_batches (db w)))
           (mkWorld (db w) (console w) (tail (faults w)))).
Proof.
  unfold teacherHasBatch. rewrite run_bind.
  destruct (pool_query_cases (sql_teacher_batch tid batch) w) as [[H ->]|[H ->]];
    [by left|right]. split; [done|]. unfold sql_teacher_batch. cbn [fst snd].
  by destruct (bool_decide _).
Qed.

(** What a run of the write part of the route can do, whatever the store
    does: it leaves the store as it is and does not answer 200, or it
    answers [Saved] after the [INSERT], with the XP update as the only other
    change. *)
Lemma attendance_upsert_outcome tid user date batch records w :
  match attendance_upsert tid user date batch records w with
  | Throw _ w' => db w' = db w
  | Ok resp w' =>
      (db w' = db w ∧ status resp ≠ 200)
      ∨ (resp = saved "Saved" (length records)
         ∧ xp_effect tid (written user date records (db w)) (db w')
         ∧ (∀ sid, sid ∈ studentIds records → in_batch (db w) batch sid)
         ∧ ∃ w1, db w1 = written user date records (db w)
                 ∧ (faults w = [] → faults w1 = [])
                 ∧ db w' = db (world_of (addTeacherXP tid XP_ATTENDANCE w1)))
  end.
Proof.
  unfold attendance_upsert. cbn zeta.
  destruct (length (studentIds records) =? 0)%nat eqn:Hids; [left; done|].
  rewrite run_bind.
  destruct (pool_query_cases (sql_students_in (studentIds records) batch) w)
    as [[_ ->]|[_ ->]]; [done|].
  destruct (negb _) eqn:Hinv; [left; done|].
  apply negb_false_iff in Hinv. cbn [snd sql_students_in] in Hinv.
  pose proof (proj1 (no_invalids (studentIds records) batch (db w)) Hinv) as Hval.
  destruct (length (attendance_values (recorder user) date records) =? 0)%nat;
    [left; done|].
  rewrite run_bind.
  match goal with |- context [pool_query ?q ?w2] =>
    destruct (pool_query_cases q w2) as [[_ ->]|[_ ->]]; [done|]
  end.
  cbn [db console faults fst snd sql_students_in].
  rewrite run_bind. unfold try_catch at 1. rewrite run_bind. unfold print at 1.
  match goal with |- context [addTeacherXP tid XP_ATTENDANCE ?w3] =>
    pose proof (addTeacherXP_effect tid XP_ATTENDANCE w3) as Hxp;
    destruct (addTeacherXP tid XP_ATTENDANCE w3) as [[] w4|e w4] eqn:Hrun;
    (right; split; [done|]; split; [done|]; split; [done|];
     exists w3; rewrite Hrun; cbn [db console faults world_of];
     split; [done|]; split; [|done]; by intros ->)
  end.
Qed.

Lemma attendance_write_outcome tid user date batch records w :
  match attendance_write tid user date batch records w with
  | Throw _ w' => db w' = db w
  | Ok resp w' =>
      (db w' = db w ∧ status resp ≠ 200)
      ∨ (resp = saved "Saved" (length records)
         ∧ xp_effect tid (written user date records (db w)) (db w')
         ∧ permitted (db w) user tid batch
         ∧ (∀ sid, sid ∈ studentIds records → in_batch (db w) batch sid)
         ∧ ∃ w1, db w1 = written user date records (db w)
                 ∧ (faults w = [] → faults w1 = [])
                 ∧ db w' = db (world_of (addTeacherXP tid XP_ATTENDANCE w1)))
  end.
Proof.
  unfold attendance_write.
  destruct (negb (isAdmin user) && negb (isSelf user tid)) eqn:Hperm.
  { simpl. left. done. }
  rewrite run_bind.
  destruct (isAdmin user) eqn:Hadm; cbn [negb].
  - cbn. pose proof (attendance_upsert_outcome tid user date batch records w) as H.
    destruct (attendance_upsert tid user date batch records w) as [resp w'|e w']; [|done].
    destruct H as [H|(?&?&?&?)]; [by left|right].
    split; [done|]. split; [done|]. split; [by left|done].
  - rewrite run_bind.
    destruct (teacherHasBatch_cases tid batch w) as [[_ ->]|[_ ->]]; [done|].
    cbn [ret]. destruct (bool_decide _) eqn:Hb; cbn [negb]; [|left; done].
    apply bool_decide_eq_true in Hb.
    match goal with |- context [attendance_upsert tid user date batch records ?w1] =>
      pose proof (attendance_upsert_outcome tid user date batch records w1) as H;
      destruct (attendance_upsert tid user date batch records w1) as [resp w'|e w']
    end; cbn [db] in *; [|done].
    destruct H as [H|(?&?&?&w1&?&Hf&?)]; [by left|right].
    split; [done|]. split; [done|]. split.
    { right. split; [|done]. cbn [negb andb] in Hperm. by destruct (isSelf user tid). }
    split; [done|]. exists w1. split; [done|]. split; [|done].
    intros E. apply Hf. cbn. by rewrite E.
Qed.

Lemma studentIds_nonempty records :
  studentIds records ≠ [] → (length (studentIds records) =? 0)%nat = false
                            ∧ (length records =? 0)%nat = false.
Proof.
  intros H. split; apply Nat.eqb_neq; intros E; apply nil_length_inv in E.
  - done.
  - subst records. done.
Qed.

Lemma attendance_upsert_rejects tid user date batch records sid w :
  sid ∈ studentIds records →
  ¬ in_batch (db w) batch sid →
  store_ok 1 (faults w) = true →
  attendance_upsert tid user date batch records w
  = Ok (invalid "records" "Some student(s) not in selected batch")
      (mkWorld (db w) (console w) (tail (faults w))).
Proof.
  intros Hin Hout Hok. unfold attendance_upsert. cbn zeta.
  assert (studentIds records ≠ []) as Hne by (intros E; rewrite E in Hin; set_solver).
  apply studentIds_nonempty in Hne as [-> _].
  rewrite run_bind.
  destruct (pool_query_ok (sql_students_in (studentIds records) batch) 0 w Hok) as [-> _].
  destruct (negb _) eqn:Hinv; [done|].
  apply negb_false_iff in Hinv. cbn [snd sql_students_in] in Hinv.
  pose proof (proj1 (no_invalids (studentIds records) batch (db w)) Hinv) as Hval.
  exfalso. by apply Hout, Hval.
Qed.

Lemma attendance_values_length uid date records :
  length (attendance_values uid date records) = length records.
Proof. unfold attendance_values. by rewrite length_map. Qed.

(** The run of the write part for a request whose students all belong to
    the batch, when the lookup and the [INSERT] are answered. *)
Lemma attendance_upsert_saves tid user date batch records w :
  studentIds records ≠ [] →
  (∀ sid, sid ∈ studentIds records → in_batch (db w) batch sid) →
  store_ok 2 (faults w) = true →
  attendance_upsert tid user date batch records w
  = match addTeacherXP tid XP_ATTENDANCE
            (mkWorld (written user date records (db w))
               (console w ++ [(LLog, "[XP] awarding attendance XP ->")])
               (drop 2 (faults w))) with
    | Ok _ w2 => Ok (saved "Saved" (length records)) w2
    | Throw _ w2 =>
        Ok (saved "Saved" (length records))
          (mkWorld (db w2) (console w2 ++ [(LWarn, "XP update (attendance) failed:")])
             (faults w2))
    end.
Proof.
  intros Hne Hval Hok. unfold attendance_upsert. cbn zeta.
  apply studentIds_nonempty in Hne as [-> Hrec].
  rewrite run_bind.
  destruct (pool_query_ok (sql_students_in (studentIds records) batch) 1 w Hok) as [-> Hok1].
  apply no_invalids in Hval. cbn [fst snd sql_students_in] in *. rewrite Hval. cbn [negb].
  rewrite attendance_values_length, Hrec.
  rewrite run_bind.
  match goal with |- context [pool_query ?q ?w2] =>
    destruct (pool_query_ok q 0 w2 Hok1) as [-> _]
  end.
  cbn [db console faults fst snd].
  replace (tail (tail (faults w))) with (drop 2 (faults w))
    by (by destruct (faults w) as [|? [|? ?]]).
  rewrite run_bind. unfold try_catch at 1. rewrite run_bind. unfold print at 1.
  cbn [db console faults]. fold (written user date records (db w)).
  destruct (addTeacherXP tid XP_ATTENDANCE _) as [[] w2|e w2]; done.
Qed.

Lemma attendance_write_forbidden tid user date batch records w :
  isAdmin user = false →
  isSelf user tid = false ∨ (tid, batch) ∉ teacher_batches (db w) →
  store_ok 1 (faults w) = true →
  ∃ resp w', attendance_write tid user date batch records w = Ok resp w'
             ∧ status resp = 403 ∧ db w' = db w.
Proof.
  intros Hadm Hno Hok. unfold attendance_write. rewrite Hadm. cbn [negb andb].
  destruct (isSelf user tid) eqn:Hself; cbn [negb].
  - destruct Hno as [?|Hno]; [done|].
    rewrite !run_bind.
    destruct (teacherHasBatch_cases tid batch w) as [[E _]|[_ ->]].
    { apply store_ok_step in Hok as [Hok _]. congruence. }
    rewrite bool_decide_eq_false_2 by done. cbn. eauto.
  - cbn. eauto.
Qed.

Lemma attendance_write_permitted tid user date batch records w :
  permitted (db w) user tid batch →
  store_ok 1 (faults w) = true →
  attendance_write tid user date batch records w
  = attendance_upsert tid user date batch records
      (if isAdmin user then w else mkWorld (db w) (console w) (tail (faults w))).
Proof.
  intros Hp Hok. unfold attendance_write.
  destruct (isAdmin user) eqn:Hadm; cbn [negb andb].
  - by rewrite run_bind.
  - destruct Hp as [?|[Hself Hin]]; [congruence|]. rewrite Hself. cbn [negb].
    rewrite !run_bind.
    destruct (teacherHasBatch_cases tid batch w) as [[E _]|[_ ->]].
    { apply store_ok_step in Hok as [Hok _]. congruence. }
    rewrite bool_decide_eq_true_2 by done. done.
Qed.

(** *** The same for routes/attendance.js *)

Lemma attendance_upsert_plain_outcome user date batch records w :
  match attendance_upsert_plain user date batch records w with
  | Throw _ w' => db w' = db w
  | Ok resp w' =>
      (db w' = db w ∧ status resp ≠ 200)
      ∨ (resp = saved "Saved" (length records)
         ∧ db w' = written user date records (db w)
         ∧ ∀ sid, sid ∈ studentIds records → in_batch (db w) batch sid)
  end.
Proof.
  unfold attendance_upsert_plain. cbn zeta.
  destruct (length (studentIds records) =? 0)%nat eqn:Hids; [left; done|].
  rewrite run_bind.
  destruct (pool_query_cases (sql_students_in (studentIds records) batch) w)
    as [[_ ->]|[_ ->]]; [done|].
  destruct (negb _) eqn:Hinv; [left; done|].
  apply negb_false_iff in Hinv. cbn [snd sql_students_in] in Hinv.
  pose proof (proj1 (no_invalids (studentIds records) batch (db w)) Hinv) as Hval.
  destruct (length (attendance_values (recorder user) date records) =? 0)%nat;
    [left; done|].
  rewrite run_bind.
  match goal with |- context [pool_query ?q ?w2] =>
    destruct (pool_query_cases q w2) as [[_ ->]|[_ ->]]; [done|]
  end.
  right. done.
Qed.

Lemma attendance_write_plain_outcome tid user date batch records w :
  match attendance_write_plain tid user date batch records w with
  | Throw _ w' => db w' = db w
  | Ok resp w' =>
      (db w' = db w ∧ status resp ≠ 200)
      ∨ (resp = saved "Saved" (length records)
         ∧ db w' = written user date records (db w)
         ∧ ∀ sid, sid ∈ studentIds records → in_batch (db w) batch sid)
  end.
Proof.
  unfold attendance_write_plain.
  destruct (negb (isAdmin user) && negb (isSelf user tid)) eqn:Hperm.
  { simpl. left. done. }
  rewrite run_bind.
  destruct (isAdmin user) eqn:Hadm; cbn [negb].
  - cbn. apply attendance_upsert_plain_outcome.
  - rewrite run_bind.
    destruct (teacherHasBatch_cases tid batch w) as [[_ ->]|[_ ->]]; [done|].
    cbn [ret]. destruct (bool_decide _); cbn [negb]; [|left; done].
    match goal with |- context [attendance_upsert_plain user date batch records ?w1] =>
      apply (attendance_upsert_plain_outcome user date batch records w1)
    end.
Qed.

Lemma attendance_upsert_plain_rejects user date batch records sid w :
  sid ∈ studentIds records →
  ¬ in_batch (db w) batch sid →
  store_ok 1 (faults w) = true →
  attendance_upsert_plain user date batch records w
  = Ok (invalid "records" "Some student(s) not in selected batch")
      (mkWorld (db w) (console w) (tail (faults w))).
Proof.
  intros Hin Hout Hok. unfold attendance_upsert_plain. cbn zeta.
  assert (studentIds records ≠ []) as Hne by (intros E; rewrite E in Hin; set_solver).
  apply studentIds_nonempty in Hne as [-> _].
  rewrite run_bind.
  destruct (pool_query_ok (sql_students_in (studentIds records) batch) 0 w Hok) as [-> _].
  destruct (negb _) eqn:Hinv; [done|].
  apply negb_false_iff in Hinv. cbn [snd sql_students_in] in Hinv.
  pose proof (proj1 (no_invalids (studentIds records) batch (db w)) Hinv) as Hval.
  exfalso. by apply Hout, Hval.
Qed.

Lemma attendance_write_plain_permitted tid user date batch records w :
  permitted (db w) user tid batch →
  store_ok 1 (faults w) = true →
  attendance_write_plain tid user date batch records w
  = attendance_upsert_plain user date batch records
      (if isAdmin user then w else mkWorld (db w) (console w) (tail (faults w))).
Proof.
  intros Hp Hok. unfold attendance_write_plain.
  destruct (isAdmin user) eqn:Hadm; cbn [negb andb].
  - by rewrite run_bind.
  - destruct Hp as [?|[Hself Hin]]; [congruence|]. rewrite Hself. cbn [negb].
    rewrite !run_bind.
    destruct (teacherHasBatch_cases tid batch w) as [[E _]|[_ ->]].
    { apply store_ok_step in Hok as [Hok _]. congruence. }
    rewrite bool_decide_eq_true_2 by done. done.
Qed.

Section AttendanceRoute.

Variable date_parses : string → bool.

Lemma post_attendance_well_formed tid user body date batch records w :
  well_formed date_parses body date batch records →
  post_attendance date_parses tid user body w
  = match attendance_write tid user date batch records w with
    | Ok resp w' => Ok resp w'
    | Throw _ w' =>
        Ok (server_error "Server error" None)
          (mkWorld (db w') (console w' ++ [(LError, "POST /teachers/:id/attendance")])
             (faults w'))
    end.
Proof.
  intros (Hd & Hd0 & Hdv & Hb & Hb0 & Hr & Hr0).
  unfold post_attendance, try_catch. rewrite Hd, Hb, Hr, Hdv.
  apply String.eqb_neq in Hd0. rewrite Hd0. cbn [negb orb].
  apply Z.eqb_neq in Hb0. rewrite Hb0.
  destruct records as [|r records]; [done|]. cbn [length Nat.eqb].
  destruct (attendance_write _ _ _ _ _ _); done.
Qed.

(** Every run of the route answers; a run that did not answer [Saved] left
    the store as it was. *)
Lemma post_attendance_outcome tid user body w :
  ∃ resp w',
    post_attendance date_parses tid user body w = Ok resp w'
    ∧ ((db w' = db w ∧ status resp ≠ 200)
       ∨ ∃ date batch records,
           well_formed date_parses body date batch records
           ∧ resp = saved "Saved" (length records)
           ∧ xp_effect tid (written user date records (db w)) (db w')
           ∧ permitted (db w) user tid batch
           ∧ (∀ sid, sid ∈ studentIds records → in_batch (db w) batch sid)
           ∧ ∃ w1, db w1 = written user date records (db w)
                   ∧ (faults w = [] → faults w1 = [])
                   ∧ db w' = db (world_of (addTeacherXP tid XP_ATTENDANCE w1))).
Proof.
  unfold post_attendance, try_catch.
  destruct (b_date body) as [date|] eqn:Hd; [|cbn; eauto 10].
  destruct (String.eqb date "") eqn:Hd0; [cbn; eauto 10|].
  destruct (isValidDateString date_parses date) eqn:Hdv; [|cbn; eauto 10].
  cbn [negb orb].
  destruct (b_batch_id body) as [batch|] eqn:Hb; [|cbn; eauto 10].
  destruct (batch =? 0) eqn:Hb0; [cbn; eauto 10|].
  destruct (b_records body) as [records|] eqn:Hr; [|cbn; eauto 10].
  destruct (length records =? 0)%nat eqn:Hr0; [cbn; eauto 10|].
  pose proof (attendance_write_outcome tid user date batch records w) as H.
  destruct (attendance_write tid user date batch records w) as [resp w'|e w'].
  - exists resp, w'. split; [done|]. destruct H as [H|(?&?&?&?&?)]; [by left|right].
    exists date, batch, records. split; [|done].
    apply String.eqb_neq in Hd0. apply Z.eqb_neq in Hb0.
    repeat split; try done. intros ->. done.
  - cbn. eexists _, _. split; [done|]. left. done.
Qed.

Lemma post_teacher_attendance_well_formed tid user body date batch records w :
  well_formed date_parses body date batch records →
  post_teacher_attendance date_parses tid user body w
  = match attendance_write_plain tid user date batch records w with
    | Ok resp w' => Ok resp w'
    | Throw _ w' =>
        Ok (server_error "Server error" None)
          (mkWorld (db w') (console w' ++ [(LError, "POST /teachers/:id/attendance")])
             (faults w'))
    end.
Proof.
  intros (Hd & Hd0 & Hdv & Hb & Hb0 & Hr & Hr0).
  unfold post_teacher_attendance, try_catch. rewrite Hd, Hb, Hr, Hdv.
  apply String.eqb_neq in Hd0. rewrite Hd0. cbn [negb orb].
  apply Z.eqb_neq in Hb0. rewrite Hb0.
  destruct records as [|r records]; [done|]. cbn [length Nat.eqb].
  destruct (attendance_write_plain _ _ _ _ _ _); done.
Qed.

Lemma post_teacher_attendance_outcome tid user body w :
  ∃ resp w',
    post_teacher_attendance date_parses tid user body w = Ok resp w'
    ∧ ((db w' = db w ∧ status resp ≠ 200)
       ∨ ∃ date batch records,
           well_formed date_parses body date batch records
           ∧ resp = saved "Saved" (length records)
           ∧ db w' = written user date records (db w)
           ∧ ∀ sid, sid ∈ studentIds records → in_batch (db w) batch sid).
Proof.
  unfold post_teacher_attendance, try_catch.
  destruct (b_date body) as [date|] eqn:Hd; [|cbn; eauto 10].
  destruct (String.eqb date "") eqn:Hd0; [cbn; eauto 10|].
  destruct (isValidDateString date_parses date) eqn:Hdv; [|cbn; eauto 10].
  cbn [negb orb].
  destruct (b_batch_id body) as [batch|] eqn:Hb; [|cbn; eauto 10].
  destruct (batch =? 0) eqn:Hb0; [cbn; eauto 10|].
  destruct (b_records body) as [records|] eqn:Hr; [|cbn; eauto 10].
  destruct (length records =? 0)%nat eqn:Hr0; [cbn; eauto 10|].
  pose proof (attendance_write_plain_outcome tid user date batch records w) as H.
  destruct (attendance_write_plain tid user date batch records w) as [resp w'|e w'].
  - exists resp, w'. split; [done|]. destruct H as [H|(?&?&?)]; [by left|right].
    exists date, batch, records. split; [|done].
    apply String.eqb_neq in Hd0. apply Z.eqb_neq in Hb0.
    repeat split; try done. intros ->. done.
  - cbn. eexists _, _. split; [done|]. left. done.
Qed.

End AttendanceRoute.

(** ** The multi-row upsert *)

Lemma upsert_all_lookup (values : list AttendanceRow) (t : AttTable) k :
  foldl (fun t r => upsert_attendance r t) t values !! k
  = match att_last k values with Some v => Some v | None => t !! k end.
Proof.
  revert t. induction values as [|r values IH]; intros t; [done|].
  cbn [foldl att_last]. rewrite IH. destruct (att_last k values); [done|].
  unfold upsert_attendance. rewrite lookup_insert. by case_decide.
Qed.

Lemma upsert_all_idempotent (values : list AttendanceRow) (t : AttTable) :
  foldl (fun t r => upsert_attendance r t)
    (foldl (fun t r => upsert_attendance r t) t values) values
  = foldl (fun t r => upsert_attendance r t) t values.
Proof.
  apply map_eq. intros k. rewrite !upsert_all_lookup. by destruct (att_last k values).
Qed.

Lemma upsert_all_dom (values : list AttendanceRow) (t : AttTable) :
  dom (foldl (fun t r => upsert_attendance r t) t values) = att_keys values ∪ dom t.
Proof.
  revert t. induction values as [|r values IH]; intros t.
  - unfold att_keys. cbn. by rewrite (left_id_L ∅ (∪)).
  - cbn [foldl]. rewrite IH. unfold upsert_attendance, att_keys. cbn [map list_to_set].
    rewrite dom_insert_L, (assoc_L (∪)). f_equal. apply (comm_L (∪)).
Qed.

Lemma att_keys_size uid date records :
  NoDup (map r_student_id records) →
  size (att_keys (attendance_values uid date records)) = length records.
Proof.
  intros Hnd. unfold att_keys, attendance_values.
  rewrite size_list_to_set.
  - by rewrite !length_map.
  - rewrite map_map. cbn.
    replace (map (λ x, (r_student_id x, date)) records)
      with ((λ s, (s, date)) <$> (map r_student_id records))
      by (by rewrite <- list_fmap_compose).
    apply NoDup_fmap_2; [|done]. intros ?? [=]. done.
Qed.

(** ** The marks route *)

Lemma upsert_marks_dom (r : MarksRow) (t : MarksTable) :
  dom (upsert_marks r t) = {[ (m_student_id r, m_batch_id r, m_assessment r) ]} ∪ dom t.
Proof. unfold upsert_marks. cbn zeta. by rewrite dom_insert_L. Qed.

Lemma upsert_marks_all_dom (rows : list MarksRow) (t : MarksTable) :
  dom (foldl (fun t r => upsert_marks r t) t rows) = marks_keys rows ∪ dom t.
Proof.
  revert t. induction rows as [|r rows IH]; intros t.
  - unfold marks_keys. cbn. by rewrite (left_id_L ∅ (∪)).
  - cbn [foldl]. rewrite IH, upsert_marks_dom. unfold marks_keys. cbn [map list_to_set].
    rewrite (assoc_L (∪)). f_equal. apply (comm_L (∪)).
Qed.

Lemma marks_keys_size batch assessment p :
  NoDup (map (fun r => default 0 (mr_student_id r)) (p_records p)) →
  size (marks_keys (marks_rows batch assessment p)) = length (p_records p).
Proof.
  intros Hnd. unfold marks_keys, marks_rows.
  rewrite size_list_to_set.
  - by rewrite !length_map.
  - rewrite map_map. cbn.
    replace (map (λ x, (default 0 (mr_student_id x), batch, assessment)) (p_records p))
      with ((λ s, (s, batch, assessment))
              <$> (map (fun r => default 0 (mr_student_id r)) (p_records p)))
      by (by rewrite <- list_fmap_compose).
    apply NoDup_fmap_2; [|done]. intros ?? [=]. done.
Qed.

Lemma conn_call_cases w :
  (hd false (faults w) = true
   ∧ conn_call w = Throw StoreError (mkWorld (db w) (console w) (tail (faults w))))
  ∨ (hd false (faults w) = false
     ∧ conn_call w = Ok tt (mkWorld (db w) (console w) (tail (faults w)))).
Proof. apply (pool_query_cases (fun d => (tt, d))). Qed.

(** The loop touches no committed table; when it runs to its end the
    transaction holds the upserts of all records, in order. *)
Lemma marks_loop_outcome (batch : Z) (assessment : string) (p : Payload)
    (rs : list MarksRecord) (tx : MarksTable) (w : World) :
  match marks_loop batch assessment p rs tx w with
  | Throw _ w' => db w' = db w
  | Ok (inl early) w' =>
      db w' = db w ∧ early = bad_request "Each record must include student_id"
  | Ok (inr tx') w' =>
      db w' = db w ∧ (faults w = [] → faults w' = [])
      ∧ tx' = foldl (fun t r => upsert_marks r t) tx
                (map (fun r => marks_row (default 0 (mr_student_id r)) batch assessment p r) rs)
  end.
Proof.
  revert tx w. induction rs as [|r rs IH]; intros tx w; [done|].
  cbn [marks_loop].
  destruct (mr_student_id r) as [sid|] eqn:Hsid.
  - destruct (sid =? 0).
    + rewrite run_bind. by destruct (conn_call_cases w) as [[_ ->]|[_ ->]].
    + rewrite run_bind. destruct (conn_call_cases w) as [[_ ->]|[_ ->]]; [done|].
      match goal with |- context [marks_loop _ _ _ rs ?t ?w1] =>
        pose proof (IH t w1) as H;
        destruct (marks_loop batch assessment p rs t w1) as [[e|t'] w'|e w']
      end; cbn [db map default faults] in *; rewrite ?Hsid; [done| |done].
      destruct H as (?&Hf&?). split; [done|]. split; [|done].
      intros E. apply Hf. by rewrite E.
  - rewrite run_bind. by destruct (conn_call_cases w) as [[_ ->]|[_ ->]].
Qed.

Lemma xp_json_quiet tid resp w :
  success_pattern (message resp) = false →
  xp_json tid resp w
  = Ok resp (mkWorld (db w) (console w ++ [(LLog, "[XP wrapper] response body:")]) (faults w)).
Proof.
  intros H. unfold xp_json. rewrite run_bind. unfold print at 1. rewrite H.
  by rewrite andb_false_r.
Qed.

Lemma xp_json_saved tid n w :
  xp_json tid (saved "Marks saved" n) w
  = match addTeacherXP tid XP_MARKS
            (mkWorld (db w)
               (console w ++ [(LLog, "[XP wrapper] response body:");
                              (LLog, "[XP] awarding MARKS XP ->")]) (faults w)) with
    | Ok _ w2 => Ok (saved "Marks saved" n) w2
    | Throw _ w2 =>
        Ok (saved "Marks saved" n)
          (mkWorld (db w2) (console w2 ++ [(LWarn, "[XP] failed to award marks XP:")])
             (faults w2))
    end.
Proof.
  unfold xp_json. rewrite run_bind. unfold print at 1.
  replace (success_pattern (message (saved "Marks saved" n))) with true by reflexivity.
  cbn [message saved String.eqb Ascii.eqb negb andb orb]. cbn match.
  rewrite run_bind. unfold try_catch. rewrite run_bind. unfold print at 1.
  cbn [db console faults]. rewrite <- app_assoc. cbn [app].
  destruct (addTeacherXP tid XP_MARKS _) as [[] w2|e w2]; done.
Qed.

Lemma ret_sends_unchanged : sends_unchanged ret.
Proof. intros resp w. by exists w. Qed.

Lemma xp_json_sends_unchanged tid : sends_unchanged (xp_json tid).
Proof.
  intros resp w. unfold xp_json. rewrite run_bind. unfold print at 1.
  destruct ((negb (String.eqb (message resp) "") && success_pattern (message resp))
            || false).
  - rewrite run_bind. unfold try_catch. rewrite run_bind. unfold print at 1.
    match goal with |- context [addTeacherXP tid XP_MARKS ?w1] =>
      destruct (addTeacherXP_effect tid XP_MARKS w1) as ((_&_&_&Hm) & _);
      destruct (addTeacherXP tid XP_MARKS w1) as [[] w2|e w2]
    end; cbn [db world_of] in Hm; eexists; (split; [done|]); done.
  - cbn. eexists. split; done.
Qed.

Lemma marks_transaction_outcome batch assessment p w :
  ∃ resp w1,
    marks_transaction batch assessment p w = Ok resp w1
    ∧ ((marks_refusal resp ∧ db w1 = db w)
       ∨ (resp = saved "Marks saved" (length (p_records p))
          ∧ db w1 = marks_written batch assessment p (db w)
          ∧ (faults w = [] → faults w1 = []))).
Proof.
  unfold marks_transaction. unfold try_catch at 1.
  rewrite run_bind. destruct (conn_call_cases w) as [[_ ->]|[Hh1 ->]].
  { cbn. eexists _, _. split; [done|]. left. split; [by split|done]. }
  set (w0 := mkWorld (db w) (console w) (tail (faults w))).
  assert (Hf0 : faults w = [] → faults w0 = []) by (subst w0; cbn; by intros ->).
  assert (Hcatch : ∀ e (wf : World), db wf = db w →
    ∃ resp w1,
      match (try_catch conn_call (fun _ => ret tt) ;; throw e) wf with
      | Ok a w' => Ok a w'
      | Throw e0 w' =>
          (print LError "marks POST error" ;;
           ret (server_error "Database error" (Some e0))) w'
      end = Ok resp w1
      ∧ ((marks_refusal resp ∧ db w1 = db w) ∨
         (resp = saved "Marks saved" (length (p_records p))
          ∧ db w1 = marks_written batch assessment p (db w)
          ∧ (faults w = [] → faults w1 = [])))).
  { intros e wf Hwf. rewrite run_bind. unfold try_catch.
    destruct (conn_call_cases wf) as [[_ ->]|[_ ->]]; cbn;
      eexists _, _; (split; [done|]); left; (split; [by split|done]). }
  unfold try_catch at 1.
  rewrite run_bind. destruct (conn_call_cases w0) as [[_ ->]|[Hh2 ->]]; [by apply Hcatch|].
  cbn [db console faults]. rewrite run_bind. cbn [db]. rewrite run_bind.
  match goal with |- context [marks_loop _ _ _ _ ?t ?w2] =>
    pose proof (marks_loop_outcome batch assessment p (p_records p) t w2) as H;
    destruct (marks_loop batch assessment p (p_records p) t w2) as [[e|t'] w'|e w']
  end; cbn [db faults] in H.
  - destruct H as [Hdb ->]. cbn. eexists _, _. split; [done|]. left. split; [by split|done].
  - destruct H as (Hdb & Hf & ->). rewrite run_bind. unfold conn_commit.
    match goal with |- context [pool_query ?q w'] =>
      destruct (pool_query_cases q w') as [[_ ->]|[_ ->]]
    end.
    + by apply Hcatch.
    + cbn. eexists _, _. split; [done|]. right. split; [done|]. split.
      * rewrite Hdb. done.
      * intros E. rewrite Hf; [done|]. by rewrite Hf0.
  - by apply Hcatch.
Qed.

Section MarksRoute.

Variable locals_db : bool.

(** Every run of the teacher-scoped marks route answers; it answers
    [Marks saved] exactly when the transaction committed, and then the
    only other change is that of one [addTeacherXP tid XP_MARKS]. *)
Lemma post_teacher_marks_outcome tid user body w :
  let p := buildPayload (force_recorded_by tid body) in
  ∃ resp w',
    post_teacher_marks locals_db tid user body w = Ok resp w'
    ∧ ((status resp ≠ 200 ∧ db w' = db w)
       ∨ ∃ batch assessment w1,
           p_batch_id p = Some batch ∧ p_assessment p = Some assessment
           ∧ resp = saved "Marks saved" (length (p_records p))
           ∧ db w1 = marks_written batch assessment p (db w)
           ∧ (faults w = [] → faults w1 = [])
           ∧ db w' = db (world_of (addTeacherXP tid XP_MARKS w1))).
Proof.
  intros p. unfold post_teacher_marks, post_marks. fold p.
  assert (Hquiet : ∀ resp w0, marks_refusal resp → db w0 = db w →
    ∃ resp' w', xp_json tid resp w0 = Ok resp' w'
      ∧ ((status resp' ≠ 200 ∧ db w' = db w)
         ∨ ∃ batch assessment w1,
           p_batch_id p = Some batch ∧ p_assessment p = Some assessment
           ∧ resp' = saved "Marks saved" (length (p_records p))
           ∧ db w1 = marks_written batch assessment p (db w)
           ∧ (faults w = [] → faults w1 = [])
           ∧ db w' = db (world_of (addTeacherXP tid XP_MARKS w1)))).
  { intros resp w0 [Hs Hm] Hdb. rewrite xp_json_quiet by done.
    eexists _, _. split; [done|]. left. done. }
  destruct locals_db; cbn [negb]; [|by apply Hquiet].
  destruct (p_batch_id p) as [batch|] eqn:Hb; [|by apply Hquiet].
  destruct (p_assessment p) as [assessment|] eqn:Ha; [|by apply Hquiet].
  destruct (batch =? 0); [by apply Hquiet|].
  destruct (length (p_records p) =? 0)%nat; [by apply Hquiet|].
  rewrite run_bind.
  destruct (marks_transaction_outcome batch assessment p w)
    as (resp & w1 & -> & [[Href Hdb]|(-> & Hdb & Hf)]); [by apply Hquiet|].
  rewrite xp_json_saved.
  match goal with |- context [addTeacherXP tid XP_MARKS ?w2] =>
    destruct (addTeacherXP tid XP_MARKS w2) as [[] w3|e w3] eqn:Hrun;
    (eexists _, _; split; [done|]; right; exists batch, assessment, w2;
     rewrite Hrun; cbn [db console faults world_of]; done)
  end.
Qed.

Lemma post_marks_outcome res_json body w :
  sends_unchanged res_json →
  let p := buildPayload body in
  ∃ resp w',
    post_marks locals_db res_json body w = Ok resp w'
    ∧ ((status resp ≠ 200 ∧ marks (db w') = marks (db w))
       ∨ ∃ batch assessment,
           p_batch_id p = Some batch ∧ p_assessment p = Some assessment
           ∧ resp = saved "Marks saved" (length (p_records p))
           ∧ marks (db w') = marks (marks_written batch assessment p (db w))).
Proof.
  intros Hjson p. unfold post_marks. fold p.
  assert (Hquiet : ∀ resp w0, status resp ≠ 200 → db w0 = db w →
    ∃ resp' w', res_json resp w0 = Ok resp' w'
      ∧ ((status resp' ≠ 200 ∧ marks (db w') = marks (db w))
         ∨ ∃ batch assessment,
           p_batch_id p = Some batch ∧ p_assessment p = Some assessment
           ∧ resp' = saved "Marks saved" (length (p_records p))
           ∧ marks (db w') = marks (marks_written batch assessment p (db w)))).
  { intros resp w0 Hs Hdb. destruct (Hjson resp w0) as (w' & -> & Hm).
    eexists _, _. split; [done|]. left. split; [done|]. by rewrite Hm, Hdb. }
  destruct locals_db; cbn [negb]; [|by apply Hquiet].
  destruct (p_batch_id p) as [batch|] eqn:Hb; [|by apply Hquiet].
  destruct (p_assessment p) as [assessment|] eqn:Ha; [|by apply Hquiet].
  destruct (batch =? 0); [by apply Hquiet|].
  destruct (length (p_records p) =? 0)%nat; [by apply Hquiet|].
  rewrite run_bind.
  destruct (marks_transaction_outcome batch assessment p w)
    as (resp & w1 & -> & [[[Hst _] Hdb]|(-> & Hdb & Hf)]); [by apply Hquiet|].
  destruct (Hjson (saved "Marks saved" (length (p_records p))) w1) as (w' & -> & Hm).
  eexists _, _. split; [done|]. right. exists batch, assessment.
  split; [done|]. split; [done|]. split; [done|]. by rewrite Hm, Hdb.
Qed.

End MarksRoute.

Lemma store_ok_weaken n fs : store_ok (S n) fs = true → store_ok n fs = true.
Proof.
  revert fs. induction n as [|n IH]; intros fs H; [done|].
  destruct fs as [|f fs]; [done|]. cbn in *.
  apply andb_true_iff in H as [-> H]. cbn. by apply IH.
Qed.

Lemma succeeded_answer r :
  succeeded r = true → ∃ resp w', r = Ok resp w' ∧ status resp = 200.
Proof.
  destruct r as [resp w'|]; [|done]. cbn. intros H%Z.eqb_eq. eauto.
Qed.

Lemma addTeacherXP_awarded tid amount w :
  faults w = [] →
  awarded amount tid (db w) (db (world_of (addTeacherXP tid amount w))).
Proof.
  intros Hf. unfold awarded. destruct (teachers (db w) !! tid) as [r|] eqn:Hr.
  - destruct (addTeacherXP_up tid amount w r Hf Hr) as (r' & -> & Hspec).
    exists r'. done.
  - by rewrite addTeacherXP_up_missing.
Qed.

(** * Further properties *)

(** ** An award that a store failure may cut short *)

Lemma spec_levelling_progress s s' : spec_levelling s s' → levelling_progress s s'.
Proof.
  induction 1 as [s _|s s' Hl Hx _ IH]; [apply progress_none|].
  by apply progress_step.
Qed.

Lemma spec_level_up_add_xp b s : spec_level_up (add_xp b s) = add_xp b (spec_level_up s).
Proof. unfold spec_level_up, add_xp. cbn. f_equal. lia. Qed.

(** Levelling after a further amount passes through the turns already
    taken. *)
Lemma levelling_progress_catch_up s m s2 b :
  levelling_progress s m → 0 <= b →
  spec_levelling (add_xp b m) s2 → spec_levelling (add_xp b s) s2.
Proof.
  intros Hp Hb. induction Hp as [s|s m Hl Hx _ IH]; intros H2; [done|].
  apply levelling_step; cbn; [done|lia|].
  rewrite spec_level_up_add_xp. by apply IH.
Qed.

Lemma levelling_progress_monotone s s' :
  levelling_progress s s' →
  level s <= level s' ∧ next_xp_target s <= next_xp_target s'
  ∧ (0 <= xp s → 0 <= xp s').
Proof.
  induction 1 as [s|s s' Hl Hx _ IH]; [done|].
  unfold spec_level_up in IH. cbn in IH. case_decide; lia.
Qed.

Lemma set_teachers_id d tid r :
  teachers d !! tid = Some r → set_teachers (insert tid r) d = d.
Proof.
  intros H. destruct d. unfold set_teachers. cbn in *. f_equal. by apply insert_id.
Qed.

Lemma levelUpLoop_progress n tid x l t w :
  teachers (db w) !! tid = Some (mkTeacher x l t) →
  ∃ r', db (world_of (levelUpLoop n tid x l t w)) = set_teachers (insert tid r') (db w)
        ∧ levelling_progress (mkTeacher x l t) r'.
Proof.
  revert x l t w. induction n as [|n IH]; intros x l t w Hrow; cbn [levelUpLoop].
  - exists (mkTeacher x l t). split; [|apply progress_none].
    cbn. by rewrite set_teachers_id.
  - destruct ((t <=? x) && (l <? MAX_LEVEL)) eqn:Hc.
    + apply andb_true_iff in Hc as [Hx Hl]. apply Z.leb_le in Hx. apply Z.ltb_lt in Hl.
      rewrite run_bind.
      destruct (pool_query_cases
                  (sql_set_level (x - t) (l + 1)
                     (if l + 1 <? MAX_LEVEL then t + 150 else t) tid) w)
        as [[_ ->]|[_ ->]]; cbn [world_of db].
      * exists (mkTeacher x l t). split; [|apply progress_none].
        by rewrite set_teachers_id.
      * unfold sql_set_level. rewrite Hrow. cbn [fst snd].
        match goal with |- context [levelUpLoop n tid ?a ?b ?c ?w1] =>
          destruct (IH a b c w1) as (r' & Hdb & Hp)
        end; [cbn; by rewrite lookup_insert_eq|].
        exists r'. split.
        -- rewrite Hdb. cbn [db]. by rewrite set_teachers_twice.
        -- apply progress_step; cbn; [unfold MAX_LEVEL in Hl; lia|done|].
           unfold spec_level_up; cbn.
           replace (if decide (l + 1 < 10) then t + 150 else t)
             with (if l + 1 <? MAX_LEVEL then t + 150 else t); [done|].
           unfold MAX_LEVEL. destruct (Z.ltb_spec (l + 1) 10); case_decide; lia.
    + exists (mkTeacher x l t). split; [|apply progress_none].
      cbn. by rewrite set_teachers_id.
Qed.

Lemma checkTeacherLevelUp_progress tid w r :
  teachers (db w) !! tid = Some r →
  ∃ r', db (world_of (checkTeacherLevelUp tid w)) = set_teachers (insert tid r') (db w)
        ∧ levelling_progress r r'.
Proof.
  intros Hr. unfold checkTeacherLevelUp. rewrite run_bind.
  destruct (pool_query_cases (sql_select_xp tid) w) as [[_ ->]|[_ ->]]; cbn [world_of db].
  - exists r. split; [by rewrite set_teachers_id|apply progress_none].
  - unfold sql_select_xp. rewrite Hr. cbn [fst snd].
    destruct (MAX_LEVEL <=? level r).
    + exists r. cbn. split; [by rewrite set_teachers_id|apply progress_none].
    + match goal with |- context [levelUpLoop ?n tid ?a ?b ?c ?w1] =>
        destruct (levelUpLoop_progress n tid a b c w1) as (r' & Hdb & Hp)
      end; [cbn; by destruct r|].
      exists r'. split; [exact Hdb|]. by destruct r.
Qed.

(** Whatever the store does, an award leaves the row where some turns of
    the rule take it from the row with the amount added, or, if the first
    [UPDATE] failed, where it was. *)
Lemma addTeacherXP_progress tid amount w r :
  teachers (db w) !! tid = Some r →
  (hd false (faults w) = true ∧ db (world_of (addTeacherXP tid amount w)) = db w)
  ∨ (hd false (faults w) = false
     ∧ ∃ r', db (world_of (addTeacherXP tid amount w)) = set_teachers (insert tid r') (db w)
             ∧ levelling_progress (add_xp amount r) r').
Proof.
  intros Hr. remember (addTeacherXP tid amount w) as run eqn:Hrun.
  unfold addTeacherXP, try_catch in Hrun.
  rewrite run_bind in Hrun. unfold print at 1 in Hrun. rewrite run_bind in Hrun.
  destruct (pool_query_cases (sql_add_xp amount tid)
              (mkWorld (db w) (console w ++ [(LLog, "[XP] addTeacherXP called ->")]) (faults w)))
    as [[Hh E]|[Hh E]]; rewrite E in Hrun; cbn [db console faults] in *.
  - left. subst run. done.
  - right. split; [done|]. rewrite run_bind in Hrun. unfold print at 1 in Hrun.
    cbn [db console faults] in Hrun. rewrite run_bind in Hrun.
    unfold sql_add_xp in Hrun. rewrite Hr in Hrun. cbn [fst snd] in Hrun.
    match type of Hrun with context [checkTeacherLevelUp tid ?w1] =>
      destruct (checkTeacherLevelUp_progress tid w1 (add_xp amount r))
        as (r' & Hdb & Hp); [cbn; by rewrite lookup_insert_eq|];
      exists r'; split; [|done];
      destruct (checkTeacherLevelUp tid w1) as [[] w2|e w2]
    end; subst run; cbn [world_of db] in *; rewrite ?run_bind; unfold print; cbn [world_of db];
    rewrite Hdb; apply set_teachers_twice.
Qed.

(** ** Administration of teachers and their batches *)

Lemma db_tables d d' :
  teachers d' = teachers d → teacher_batches d' = teacher_batches d →
  students d' = students d → attendance d' = attendance d → marks d' = marks d →
  d' = d.
Proof. destruct d, d'. cbn. by intros -> -> -> -> ->. Qed.

Lemma assigned_union (k : Z * Z) (rows rows' : AssignTable) :
  k ∈ rows ∪ rows' ↔ k ∈ rows ∨ k ∈ rows'.
Proof. apply lookup_union_is_Some. Qed.

Lemma assigned_singleton (k k' : Z * Z) (by_ : option Z) :
  k ∈ ({[ k' := by_ ]} : AssignTable) ↔ k = k'.
Proof.
  unfold elem_of, assigned. destruct (decide (k = k')) as [->|Hne].
  - rewrite lookup_singleton_eq. split; [done|by eexists].
  - rewrite lookup_singleton_ne by done. split; [by intros [? ?]|done].
Qed.

Lemma assigned_new_rows (k : Z * Z) (t : Z) (bs : list Z) :
  k ∈ (list_to_map ((fun b => ((t, b), None)) <$> bs) : AssignTable)
  ↔ ∃ b, k = (t, b) ∧ b ∈ bs.
Proof.
  unfold elem_of at 1, assigned. rewrite <- elem_of_dom, dom_list_to_map_L.
  rewrite elem_of_list_to_set, <- list_fmap_compose, list_elem_of_fmap. done.
Qed.

Lemma lookup_new_rows (k : Z * Z) (t : Z) (bs : list Z) (by_ : option Z) :
  (list_to_map ((fun b => ((t, b), None)) <$> bs) : AssignTable) !! k = Some by_ →
  by_ = None.
Proof.
  intros H%elem_of_list_to_map_2. apply list_elem_of_fmap in H as (b & [= _ ->] & _).
  done.
Qed.

Lemma assigned_delete (k k' : Z * Z) (rows : AssignTable) :
  k ∈ delete k' rows ↔ k ≠ k' ∧ k ∈ rows.
Proof.
  unfold elem_of, assigned. rewrite lookup_delete_is_Some.
  split; intros [Hne ?]; (split; [by intros ->|done]).
Qed.

Lemma assigned_other_teachers (t b id : Z) (rows : AssignTable) :
  (t, b) ∈ filter (fun row : Z * Z * option Z => row.1.1 ≠ id) rows
  ↔ t ≠ id ∧ (t, b) ∈ rows.
Proof.
  unfold elem_of, assigned, is_Some. setoid_rewrite map_lookup_filter_Some. cbn.
  split; [intros (by_ & ? & ?); eauto|intros (? & by_ & ?); eauto].
Qed.

Lemma assigned_rows (k : Z * Z) (rows : AssignTable) :
  k ∈ (map_to_list rows).*1 ↔ k ∈ rows.
Proof.
  rewrite list_elem_of_fmap. unfold elem_of at 2, assigned. split.
  - intros ([k' by_] & -> & Hin%elem_of_map_to_list). by eexists.
  - intros [by_ Hk]. exists (k, by_). split; [done|]. by apply elem_of_map_to_list.
Qed.

Lemma elem_of_batchIds_of b body :
  b ∈ batchIds_of body ↔ b ≠ 0 ∧ ∃ bs, ab_batchIds body = Some bs ∧ Some b ∈ bs.
Proof.
  unfold batchIds_of. destruct (ab_batchIds body) as [bs|].
  - rewrite list_elem_of_omap. split.
    + intros ([b'|] & Hin & Hb); cbn in Hb; [|done].
      destruct (b' =? 0) eqn:E; cbn in Hb; [done|]. injection Hb as ->.
      apply Z.eqb_neq in E. eauto.
    + intros (Hb & bs' & [= <-] & Hin). exists (Some b). split; [done|].
      cbn. apply Z.eqb_neq in Hb. by rewrite Hb.
  - split; [by intros ?%elem_of_nil|]. by intros (_ & bs & ? & _).
Qed.

Lemma post_teacher_batches_run id user body w :
  isAdmin user = true → batchIds_of body ≠ [] → hd false (faults w) = false →
  post_teacher_batches id user body w
  = Ok (done_with "Assigned")
      (mkWorld (sql_assign_batches id (batchIds_of body) (db w)).2 (console w)
         (tail (faults w))).
Proof.
  intros Hadm Hne Hh. unfold post_teacher_batches, try_catch. rewrite Hadm. cbn [negb].
  destruct (batchIds_of body) as [|b bs] eqn:Hb; [done|]. cbn [length Nat.eqb].
  rewrite run_bind.
  destruct (pool_query_cases (sql_assign_batches id (b :: bs)) w) as [[E _]|[_ ->]];
    [congruence|done].
Qed.

Lemma delete_teacher_batch_run id batch user w :
  isAdmin user = true → hd false (faults w) = false →
  delete_teacher_batch id batch user w
  = Ok (done_with "Unassigned")
      (mkWorld (sql_unassign_batch id batch (db w)).2 (console w) (tail (faults w))).
Proof.
  intros Hadm Hh. unfold delete_teacher_batch, try_catch. rewrite Hadm. cbn [negb].
  rewrite run_bind.
  destruct (pool_query_cases (sql_unassign_batch id batch) w) as [[E _]|[_ ->]];
    [congruence|done].
Qed.

Lemma hd_tail_nil (fs : list bool) : fs = [] → hd false fs = false ∧ tail fs = [].
Proof. by intros ->. Qed.

Lemma store_ok_nil n : store_ok n [] = true.
Proof. by destruct n. Qed.

(** ** Reading attendance *)

Lemma elem_of_sql_attendance_of (e : AttendanceEntry) (date : string) (batch : Z) (d : DB) :
  e ∈ (sql_attendance_of date batch d).1
  ↔ attendance d !! (Some (e_student_id e), date) = Some (e_status e, e_recorded_by e)
    ∧ in_batch d batch (e_student_id e).
Proof.
  unfold sql_attendance_of, in_batch. cbn [fst]. rewrite list_elem_of_omap. split.
  - intros ([[[sid|] dt] [st by_]] & Hin & He); cbn in He; [|done].
    case_decide as Hc; [|done]. destruct Hc as [-> Hs]. injection He as <-.
    apply elem_of_map_to_list in Hin. done.
  - intros [Hrow Hs]. exists ((Some (e_student_id e), date), (e_status e, e_recorded_by e)).
    split; [by apply elem_of_map_to_list|]. cbn.
    rewrite decide_True by done. by destruct e.
Qed.

Lemma studentIds_cons r records sid :
  sid ∈ studentIds records → sid ∈ studentIds (r :: records).
Proof.
  unfold studentIds. intros (x & Hin & Hx)%list_elem_of_omap.
  apply list_elem_of_omap. exists x. split; [apply elem_of_cons; by right|done].
Qed.

Lemma att_last_student (uid : option Z) (date : string) (records : list AttRecord)
    (sid : Z) (v : Status * option Z) :
  att_last (Some sid, date) (attendance_values uid date records) = Some v →
  sid ≠ 0 → sid ∈ studentIds records ∧ v.2 = uid.
Proof.
  intros H Hsid. induction records as [|r records IH]; [done|].
  cbn [attendance_values map att_last] in H.
  fold (attendance_values uid date records) in H.
  destruct (att_last (Some sid, date) (attendance_values uid date records)) as [v'|].
  - destruct (IH H) as [Hin Hv]. split; [by apply studentIds_cons|done].
  - cbn in H. case_decide as Hk; [|done]. injection Hk as Hk. injection H as <-.
    split; [|done]. apply list_elem_of_omap. exists r.
    split; [apply elem_of_cons; by left|]. rewrite Hk. cbn.
    apply Z.eqb_neq in Hsid. by rewrite Hsid.
Qed.

Section ReadRoute.

Variable date_parses : string → bool.

(** Every run of the read answers and changes no table; rows are sent
    only to a permitted caller, and they are those the [SELECT] gives. *)
Lemma get_attendance_outcome tid user query w :
  ∃ reply w',
    get_attendance date_parses tid user query w = Ok reply w' ∧ db w' = db w
    ∧ match reply with
      | inl resp => status resp ≠ 200
      | inr rows =>
          ∃ date batch,
            q_date query = Some date ∧ q_batch_id query = Some batch
            ∧ permitted (db w) user tid batch
            ∧ rows = (sql_attendance_of date batch (db w)).1
      end.
Proof.
  unfold get_attendance, try_catch.
  destruct (q_date query) as [date|]; [|cbn; eauto 10].
  destruct (String.eqb date "" || negb (isValidDateString date_parses date));
    [cbn; eauto 10|].
  destruct (q_batch_id query) as [batch|]; [|cbn; eauto 10].
  destruct (batch =? 0); [cbn; eauto 10|].
  destruct (isAdmin user) eqn:Hadm; cbn [negb andb].
  - rewrite run_bind. cbn [ret]. rewrite run_bind.
    destruct (pool_query_cases (sql_attendance_of date batch) w) as [[_ ->]|[_ ->]].
    + cbn. eexists _, _. split; [done|]. done.
    + cbn [ret]. eexists _, _. split; [done|]. split; [done|].
      exists date, batch. split; [done|]. split; [done|]. split; [by left|done].
  - destruct (isSelf user tid) eqn:Hself; cbn [negb]; [|cbn; eauto 10].
    rewrite !run_bind.
    destruct (teacherHasBatch_cases tid batch w) as [[_ ->]|[_ ->]].
    { cbn. eexists _, _. split; [done|]. done. }
    cbn [ret]. destruct (bool_decide _) eqn:Hb; cbn [negb]; [|cbn; eauto 10].
    apply bool_decide_eq_true in Hb. rewrite run_bind.
    match goal with |- context [pool_query ?q ?w1] =>
      destruct (pool_query_cases q w1) as [[_ ->]|[_ ->]]
    end.
    + cbn. eexists _, _. split; [done|]. done.
    + cbn [ret]. eexists _, _. split; [done|]. split; [done|].
      exists date, batch. split; [done|]. split; [done|]. split; [by right|done].
Qed.

(** The run of the read for a permitted caller when the store answers. *)
Lemma get_attendance_run tid user date batch w :
  date ≠ "" → isValidDateString date_parses date = true → batch ≠ 0 →
  permitted (db w) user tid batch → store_ok 2 (faults w) = true →
  ∃ w', get_attendance date_parses tid user (mkAttQuery (Some date) (Some batch)) w
        = Ok (inr (sql_attendance_of date batch (db w)).1) w'
        ∧ db w' = db w.
Proof.
  intros Hd0 Hdv Hb0 Hperm Hok. unfold get_attendance, try_catch. cbn [q_date q_batch_id].
  apply String.eqb_neq in Hd0. rewrite Hd0, Hdv. cbn [negb orb].
  apply Z.eqb_neq in Hb0. rewrite Hb0.
  destruct (isAdmin user) eqn:Hadm; cbn [negb andb].
  - rewrite run_bind. cbn [ret]. rewrite run_bind.
    destruct (pool_query_ok (sql_attendance_of date batch) 1 w Hok) as [-> _].
    cbn [ret]. eexists. split; [done|]. done.
  - destruct Hperm as [?|[Hself Hin]]; [congruence|]. rewrite Hself. cbn [negb].
    rewrite !run_bind.
    destruct (teacherHasBatch_cases tid batch w) as [[E _]|[_ ->]].
    { apply store_ok_step in Hok as [Hok _]. congruence. }
    rewrite bool_decide_eq_true_2 by done. cbn [ret negb]. rewrite run_bind.
    apply store_ok_step in Hok as [_ Hok].
    match goal with |- context [pool_query ?q ?w1] =>
      destruct (pool_query_ok q 0 w1 Hok) as [-> _]
    end.
    cbn [ret]. eexists. split; [done|]. done.
Qed.

End ReadRoute.

(** ** The attendance write once more *)

Section WriteRoute.

Variable date_parses : string → bool.

(** The run of the route for a permitted request whose students belong to
    the batch, when the three store calls before the award are answered. *)
Lemma post_attendance_saves tid user body date batch records w :
  well_formed date_parses body date batch records →
  permitted (db w) user tid batch →
  studentIds records ≠ [] →
  (∀ sid, sid ∈ studentIds records → in_batch (db w) batch sid) →
  store_ok 3 (faults w) = true →
  ∃ w' w1,
    post_attendance date_parses tid user body w = Ok (saved "Saved" (length records)) w'
    ∧ db w1 = written user date records (db w)
    ∧ (faults w = [] → faults w1 = [])
    ∧ db w' = db (world_of (addTeacherXP tid XP_ATTENDANCE w1)).
Proof.
  intros Hwf Hperm Hne Hval Hok.
  rewrite (post_attendance_well_formed _ _ _ _ _ _ _ _ Hwf).
  rewrite attendance_write_permitted; [|done|by do 2 apply store_ok_weaken].
  set (w0 := if isAdmin user then w else mkWorld (db w) (console w) (tail (faults w))).
  assert (Hdb0 : db w0 = db w) by (subst w0; by destruct (isAdmin user)).
  assert (Hok0 : store_ok 2 (faults w0) = true).
  { subst w0. destruct (isAdmin user); [by apply store_ok_weaken|].
    by apply store_ok_step in Hok as [_ ?]. }
  assert (Hf0 : faults w = [] → faults w0 = []).
  { subst w0. destruct (isAdmin user); [done|]. cbn. by intros ->. }
  rewrite attendance_upsert_saves; [|done|by rewrite Hdb0|done].
  match goal with |- context [addTeacherXP tid XP_ATTENDANCE ?w2] =>
    destruct (addTeacherXP tid XP_ATTENDANCE w2) as [[] w3|e w3] eqn:Hrun;
    (eexists _, w2; split; [done|]; rewrite Hrun; cbn [db world_of];
     split; [by rewrite Hdb0|]; split; [|done];
     intros E; cbn; by rewrite (Hf0 E))
  end.
Qed.

(** The write part of routes/teachers.js against that of
    routes/attendance.js: they answer alike, and the store of the former
    is that of the latter after what one award to [tid] does. *)
Lemma attendance_upsert_agree tid user date batch records w :
  match attendance_upsert_plain user date batch records w with
  | Throw e w2 => attendance_upsert tid user date batch records w = Throw e w2
  | Ok resp w2 =>
      ∃ w1, attendance_upsert tid user date batch records w = Ok resp w1
            ∧ xp_effect tid (db w2) (db w1)
  end.
Proof.
  unfold attendance_upsert, attendance_upsert_plain. cbn zeta.
  destruct (length (studentIds records) =? 0)%nat.
  { eexists. split; [done|apply xp_effect_refl]. }
  rewrite !run_bind.
  destruct (pool_query_cases (sql_students_in (studentIds records) batch) w)
    as [[_ ->]|[_ ->]]; [done|].
  destruct (negb _). { eexists. split; [done|apply xp_effect_refl]. }
  destruct (length (attendance_values (recorder user) date records) =? 0)%nat.
  { eexists. split; [done|apply xp_effect_refl]. }
  rewrite !run_bind.
  match goal with |- context [pool_query ?q ?w2] =>
    destruct (pool_query_cases q w2) as [[_ ->]|[_ ->]]; [done|]
  end.
  cbn [ret]. rewrite run_bind. unfold try_catch at 1. rewrite run_bind. unfold print at 1.
  match goal with |- context [addTeacherXP tid XP_ATTENDANCE ?w3] =>
    pose proof (addTeacherXP_effect tid XP_ATTENDANCE w3) as Hxp;
    destruct (addTeacherXP tid XP_ATTENDANCE w3) as [[] w4|e w4]
  end; cbn [db world_of] in Hxp; eexists; (split; [reflexivity|]); exact Hxp.
Qed.

Lemma attendance_write_agree tid user date batch records w :
  match attendance_write_plain tid user date batch records w with
  | Throw e w2 => attendance_write tid user date batch records w = Throw e w2
  | Ok resp w2 =>
      ∃ w1, attendance_write tid user date batch records w = Ok resp w1
            ∧ xp_effect tid (db w2) (db w1)
  end.
Proof.
  unfold attendance_write, attendance_write_plain.
  destruct (negb (isAdmin user) && negb (isSelf user tid)).
  { eexists. split; [done|apply xp_effect_refl]. }
  rewrite !run_bind.
  destruct (negb (isAdmin user)).
  - rewrite !run_bind.
    destruct (teacherHasBatch_cases tid batch w) as [[_ ->]|[_ ->]]; [done|].
    cbn [ret]. destruct (negb (bool_decide _)).
    { eexists. split; [done|apply xp_effect_refl]. }
    apply attendance_upsert_agree.
  - cbn [ret]. apply attendance_upsert_agree.
Qed.

End WriteRoute.

(** ** The marks table *)

(** The row a run of marks [INSERT]s leaves for a key: the columns of the
    last [INSERT] for it, with the exam date the table had for the key
    before, if it had one. *)
Lemma upsert_marks_all_lookup (ed : option string) (rows : list MarksRow)
    (t : MarksTable) (k : Z * Z * string) :
  Forall (fun r => m_exam_date r = ed) rows →
  foldl (fun t r => upsert_marks r t) t rows !! k
  = match marks_last k rows with
    | None => t !! k
    | Some r =>
        Some (mkMarksVal
                (match t !! k with Some old => v_exam_date old | None => ed end)
                (m_subject r) (m_marks r) (m_semester r) (m_recorded_by r)
                (m_max_marks r))
    end.
Proof.
  intros Hed. revert t. induction Hed as [|r rows Hr _ IH]; intros t; [done|].
  cbn [foldl marks_last]. rewrite IH. unfold upsert_marks, marks_key. cbn zeta.
  destruct (marks_last k rows) as [r'|].
  - rewrite lookup_insert. case_decide as Hk; [|done]. cbn. by rewrite Hk, Hr.
  - rewrite lookup_insert. case_decide as Hk.
    + cbn. by rewrite Hk, Hr.
    + done.
Qed.

Lemma marks_last_elem_of k rows r :
  marks_last k rows = Some r → r ∈ rows ∧ marks_key r = k.
Proof.
  induction rows as [|r0 rows IH]; [done|]. cbn [marks_last].
  destruct (marks_last k rows) as [r'|].
  - intros [= ->]. destruct IH as [? ?]; [done|]. split; [apply elem_of_cons; by right|done].
  - case_decide; [|done]. intros [= ->]. split; [apply elem_of_cons; by left|done].
Qed.

Lemma marks_last_is_Some k rows r :
  r ∈ rows → marks_key r = k → is_Some (marks_last k rows).
Proof.
  intros Hin Hk. induction rows as [|r0 rows IH]; [by apply elem_of_nil in Hin|].
  cbn [marks_last]. apply elem_of_cons in Hin as [<-|Hin].
  - destruct (marks_last k rows); [done|]. by rewrite decide_True.
  - destruct (IH Hin) as [r' ->]. done.
Qed.

Lemma marks_rows_exam_date batch assessment p :
  Forall (fun r => m_exam_date r = p_date p) (marks_rows batch assessment p).
Proof. unfold marks_rows. apply Forall_forall. by intros r (x & -> & _)%list_elem_of_fmap. Qed.

Lemma marks_written_idempotent batch assessment p d :
  marks (marks_written batch assessment p (marks_written batch assessment p d))
  = marks (marks_written batch assessment p d).
Proof.
  unfold marks_written. cbn. apply map_eq. intros k.
  rewrite !(upsert_marks_all_lookup (p_date p)) by apply marks_rows_exam_date.
  destruct (marks_last k (marks_rows batch assessment p)); [|done].
  by destruct (marks d !! k).
Qed.

(** ** The marks transaction *)

Lemma marks_loop_has_student (batch : Z) (assessment : string) (p : Payload)
    (rs : list MarksRecord) (tx tx' : MarksTable) (w w' : World) :
  marks_loop batch assessment p rs tx w = Ok (inr tx') w' → Forall has_student rs.
Proof.
  revert tx w. induction rs as [|r rs IH]; intros tx w; [done|].
  cbn [marks_loop]. destruct (mr_student_id r) as [sid|] eqn:Hsid.
  - destruct (sid =? 0) eqn:Hz.
    + rewrite run_bind. by destruct (conn_call_cases w) as [[_ ->]|[_ ->]].
    + rewrite run_bind. destruct (conn_call_cases w) as [[_ ->]|[_ ->]]; [done|].
      intros H. apply IH in H. constructor; [|done].
      exists sid. split; [done|]. by apply Z.eqb_neq.
  - rewrite run_bind. by destruct (conn_call_cases w) as [[_ ->]|[_ ->]].
Qed.

(** The loop when the store answers. *)
Lemma marks_loop_up (batch : Z) (assessment : string) (p : Payload)
    (rs : list MarksRecord) (tx : MarksTable) (w : World) :
  faults w = [] → Forall has_student rs →
  marks_loop batch assessment p rs tx w
  = Ok (inr (foldl (fun t r => upsert_marks r t) tx
               (map (fun r => marks_row (default 0 (mr_student_id r)) batch assessment p r)
                  rs))) w.
Proof.
  intros Hf Hall. revert tx. induction Hall as [|r rs (sid & Hsid & Hz) _ IH]; intros tx;
    [done|].
  cbn [marks_loop map foldl]. rewrite Hsid. apply Z.eqb_neq in Hz. rewrite Hz.
  rewrite run_bind. unfold conn_call. rewrite pool_query_up by done. cbn [fst snd].
  replace (mkWorld (db w) (console w) []) with w by (destruct w; cbn in *; by subst).
  by rewrite IH.
Qed.

(** A transaction that answers 200 has gone through every record. *)
Lemma marks_transaction_saved batch assessment p w resp w1 :
  marks_transaction batch assessment p w = Ok resp w1 → status resp = 200 →
  Forall has_student (p_records p).
Proof.
  unfold marks_transaction. unfold try_catch at 1.
  rewrite run_bind. destruct (conn_call_cases w) as [[_ ->]|[_ ->]].
  { cbn. by intros [= <- <-]. }
  set (w0 := mkWorld (db w) (console w) (tail (faults w))).
  assert (Hcatch : ∀ e (wf : World),
    match (try_catch conn_call (fun _ => ret tt) ;; throw e) wf with
    | Ok a w' => Ok a w'
    | Throw e0 w' =>
        (print LError "marks POST error" ;;
         ret (server_error "Database error" (Some e0))) w'
    end = Ok resp w1 → status resp = 200 → Forall has_student (p_records p)).
  { intros e wf. rewrite run_bind. unfold try_catch.
    destruct (conn_call_cases wf) as [[_ ->]|[_ ->]]; cbn; by intros [= <- <-]. }
  unfold try_catch at 1.
  rewrite run_bind. destruct (conn_call_cases w0) as [[_ ->]|[_ ->]]; [by apply Hcatch|].
  cbn [db console faults]. rewrite run_bind. cbn [db]. rewrite run_bind.
  match goal with |- context [marks_loop _ _ _ _ ?t ?w2] =>
    pose proof (marks_loop_outcome batch assessment p (p_records p) t w2) as Hout;
    destruct (marks_loop batch assessment p (p_records p) t w2) as [[e|t'] w'|e w']
      eqn:Hloop
  end.
  - destruct Hout as [_ ->]. cbn. by intros [= <- <-].
  - intros _ _. by eapply marks_loop_has_student.
  - by apply Hcatch.
Qed.

(** The transaction when the store answers. *)
Lemma marks_transaction_up batch assessment p w :
  faults w = [] → Forall has_student (p_records p) →
  marks_transaction batch assessment p w
  = Ok (saved "Marks saved" (length (p_records p)))
      (mkWorld (marks_written batch assessment p (db w)) (console w) []).
Proof.
  intros Hf Hall. unfold marks_transaction, try_catch, conn_call, conn_commit.
  rewrite run_bind, pool_query_up by done. cbn [fst snd].
  rewrite run_bind, pool_query_up by done. cbn [fst snd db console faults].
  rewrite run_bind. cbn [db]. rewrite run_bind, marks_loop_up by done.
  rewrite run_bind, pool_query_up by done. done.
Qed.

Section MarksRouteMore.

Variable locals_db : bool.

(** What a 200 of the marks route tells about the request. *)
Lemma post_marks_saved_inv res_json body w resp w' :
  sends_unchanged res_json →
  post_marks locals_db res_json body w = Ok resp w' → status resp = 200 →
  let p := buildPayload body in
  locals_db = true
  ∧ ∃ batch assessment w1,
      p_batch_id p = Some batch ∧ batch ≠ 0 ∧ p_assessment p = Some assessment
      ∧ p_records p ≠ [] ∧ Forall has_student (p_records p)
      ∧ marks_transaction batch assessment p w = Ok resp w1
      ∧ res_json resp w1 = Ok resp w'.
Proof.
  intros Hjson Hrun Hst p. revert Hrun. unfold post_marks. fold p.
  assert (Hno : ∀ resp0 w0, status resp0 ≠ 200 → res_json resp0 w0 = Ok resp w' → False).
  { intros resp0 w0 Hs E. destruct (Hjson resp0 w0) as (w2 & E2 & _).
    rewrite E in E2. injection E2 as -> _. done. }
  destruct locals_db; cbn [negb]; [|by intros ?%Hno].
  destruct (p_batch_id p) as [batch|]; [|by intros ?%Hno].
  destruct (p_assessment p) as [assessment|]; [|by intros ?%Hno].
  destruct (batch =? 0) eqn:Hb; [by intros ?%Hno|].
  destruct (length (p_records p) =? 0)%nat eqn:Hr; [by intros ?%Hno|].
  rewrite run_bind.
  destruct (marks_transaction batch assessment p w) as [resp1 w1|e w1] eqn:Htx; [|done].
  intros Hrun. destruct (Hjson resp1 w1) as (w2 & E2 & _).
  rewrite Hrun in E2. injection E2 as <- <-.
  split; [done|]. exists batch, assessment, w1.
  split; [done|]. split; [by apply Z.eqb_neq|]. split; [done|].
  split. { intros E. by rewrite E in Hr. }
  split; [by eapply marks_transaction_saved|done].
Qed.

(** The run of the teacher-scoped marks route of routes/teachers.js when
    the store answers. *)
Lemma post_teacher_marks_up tid user body batch assessment w :
  let p := buildPayload (force_recorded_by tid body) in
  locals_db = true → p_batch_id p = Some batch → batch ≠ 0 →
  p_assessment p = Some assessment → p_records p ≠ [] →
  Forall has_student (p_records p) → faults w = [] →
  ∃ w1,
    faults w1 = [] ∧ db w1 = marks_written batch assessment p (db w)
    ∧ post_teacher_marks locals_db tid user body w
      = Ok (saved "Marks saved" (length (p_records p)))
          (world_of (addTeacherXP tid XP_MARKS w1)).
Proof.
  intros p Hl Hb Hb0 Ha Hr Hall Hf. unfold post_teacher_marks, post_marks. fold p.
  rewrite Hl, Hb, Ha. cbn [negb]. apply Z.eqb_neq in Hb0. rewrite Hb0.
  destruct (p_records p) as [|r rs] eqn:Hrs; [done|]. cbn [length Nat.eqb].
  rewrite run_bind, marks_transaction_up by (by rewrite ?Hrs).
  rewrite Hrs. rewrite xp_json_saved. cbn [db console faults].
  set (w1 := mkWorld (marks_written batch assessment p (db w))
               (console w ++ [(LLog, "[XP wrapper] response body:");
                              (LLog, "[XP] awarding MARKS XP ->")]) []).
  exists w1. split; [done|]. split; [done|].
  destruct (teachers (db w1) !! tid) as [row|] eqn:Hrow.
  - destruct (addTeacherXP_up tid XP_MARKS w1 row) as (r' & -> & _); done.
  - by rewrite (addTeacherXP_up_missing tid XP_MARKS w1).
Qed.

End MarksRouteMore.

Lemma marks_last_NoDup rows r :
  NoDup (map marks_key rows) → r ∈ rows → marks_last (marks_key r) rows = Some r.
Proof.
  induction rows as [|r0 rows IH]; [by intros _ ?%elem_of_nil|].
  cbn [map marks_last]. intros [Hnot Hnd]%NoDup_cons [->|Hin]%elem_of_cons.
  - destruct (marks_last (marks_key r0) rows) as [r'|] eqn:E.
    + apply marks_last_elem_of in E as [Hin Hk]. exfalso. apply Hnot.
      rewrite <- Hk. apply list_elem_of_fmap. by exists r'.
    + by rewrite decide_True.
  - by rewrite IH.
Qed.

(** The marks table after a transaction that answered 200. *)
Lemma marks_transaction_written batch assessment p w resp w1 :
  marks_transaction batch assessment p w = Ok resp w1 → status resp = 200 →
  db w1 = marks_written batch assessment p (db w).
Proof.
  intros Hrun Hst.
  destruct (marks_transaction_outcome batch assessment p w)
    as (resp' & w1' & Hrun' & Hcase).
  rewrite Hrun in Hrun'. injection Hrun' as <- <-.
  destruct Hcase as [[[? _] _]|(_ & ? & _)]; done.
Qed.

(** The row of a student of the payload after the rows of the payload
    have been written. *)
Lemma marks_written_lookup batch assessment p d r sid :
  r ∈ p_records p → mr_student_id r = Some sid → sid ≠ 0 →
  ∃ r', r' ∈ p_records p ∧ mr_student_id r' = Some sid
        ∧ marks_last (sid, batch, assessment) (marks_rows batch assessment p)
          = Some (marks_row sid batch assessment p r')
        ∧ marks (marks_written batch assessment p d) !! (sid, batch, assessment)
          = Some (mkMarksVal
                    (match marks d !! (sid, batch, assessment) with
                     | Some old => v_exam_date old
                     | None => p_date p
                     end)
                    (mr_subject r') (mr_marks r') (mr_semester r') (mr_recorded_by r')
                    (p_max_marks p)).
Proof.
  intros Hin Hsid Hz. unfold marks_written. cbn [marks set_marks].
  rewrite (upsert_marks_all_lookup (p_date p)) by apply marks_rows_exam_date.
  destruct (marks_last_is_Some (sid, batch, assessment) (marks_rows batch assessment p)
              (marks_row sid batch assessment p r)) as [row Hlast]; [|done|].
  { unfold marks_rows. apply list_elem_of_fmap. exists r. by rewrite Hsid. }
  rewrite Hlast. destruct (marks_last_elem_of _ _ _ Hlast) as [Hrow Hk].
  unfold marks_rows in Hrow. apply list_elem_of_fmap in Hrow as (r' & -> & Hin').
  unfold marks_key in Hk. cbn in Hk. injection Hk as Hk.
  exists r'. split; [done|].
  destruct (mr_student_id r') as [sid'|] eqn:Hsid'; cbn in Hk.
  - subst sid'. done.
  - subst sid. done.
Qed.

Lemma NoDup_fmap_elem_inj {A B} (f : A → B) (l : list A) x y :
  NoDup (f <$> l) → x ∈ l → y ∈ l → f x = f y → x = y.
Proof.
  induction l as [|a l IH]; [by intros _ ?%elem_of_nil|].
  cbn [fmap list_fmap]. intros [Hnot Hnd]%NoDup_cons Hx Hy Hf.
  apply elem_of_cons in Hx as [->|Hx]; apply elem_of_cons in Hy as [->|Hy].
  - done.
  - exfalso. apply Hnot. rewrite Hf. apply list_elem_of_fmap. by exists y.
  - exfalso. apply Hnot. rewrite <- Hf. apply list_elem_of_fmap. by exists x.
  - by apply IH.
Qed.

Lemma has_student_elem_of (rs : list MarksRecord) r sid :
  Forall has_student rs → r ∈ rs → mr_student_id r = Some sid → sid ≠ 0.
Proof.
  intros Hall Hin Hsid. rewrite Forall_forall in Hall.
  destruct (Hall r Hin) as (sid' & E & Hz). congruence.
Qed.

(** ** Strings *)

Lemma append_nil_l (s : string) : "" ++ s = s.
Proof. reflexivity. Qed.

Lemma append_cons (a : ascii) (s q : string) : String a s ++ q = String a (s ++ q).
Proof. reflexivity. Qed.

Lemma includes_app c s q : includes c (s ++ String c q) = true.
Proof.
  induction s as [|a s IH].
  - rewrite append_nil_l. cbn [includes]. by rewrite Ascii.eqb_refl.
  - rewrite append_cons. cbn [includes]. rewrite IH. apply orb_true_r.
Qed.

Lemma indexOf_app c s q :
  includes c s = false → indexOf c (s ++ String c q) = Z.of_nat (String.length s).
Proof.
  induction s as [|a s IH].
  - intros _. rewrite append_nil_l. cbn [indexOf String.length]. by rewrite Ascii.eqb_refl.
  - rewrite append_cons. cbn [includes indexOf String.length].
    intros [Ha Hs]%orb_false_iff. rewrite Ha, (IH Hs).
    destruct (Z.ltb_spec (Z.of_nat (String.length s)) 0); lia.
Qed.

Lemma string_drop_app s q : string_drop (String.length s) (s ++ q) = q.
Proof.
  induction s as [|a s IH]; [done|].
  rewrite append_cons. cbn [String.length string_drop]. exact IH.
Qed.

Lemma length_append s q :
  String.length (s ++ q) = (String.length s + String.length q)%nat.
Proof.
  induction s as [|a s IH]; [done|].
  rewrite append_cons. cbn [String.length]. by rewrite IH.
Qed.

Lemma slice_app s q : slice (Z.of_nat (String.length s)) (s ++ q) = q.
Proof.
  unfold slice. rewrite length_append.
  destruct (Z.ltb_spec (Z.of_nat (String.length s)) 0); [lia|].
  rewrite Z.min_l by lia. rewrite Nat2Z.id. apply string_drop_app.
Qed.

(** ** The text of the marks reads *)

Lemma placeholders_app (a b : string) :
  placeholders (a ++ b) = (placeholders a + placeholders b)%nat.
Proof.
  induction a as [|c a IH]; [done|].
  rewrite append_cons. cbn [placeholders]. rewrite IH. lia.
Qed.

Lemma placeholders_join_and (filters : list string) :
  Forall (fun f => placeholders f = 1%nat) filters →
  placeholders (join_and filters) = length filters.
Proof.
  induction 1 as [|f fs Hf _ IH]; [done|]. cbn [join_and length].
  destruct fs as [|f' fs]; [by rewrite Hf|].
  rewrite !placeholders_app, Hf, IH. done.
Qed.

Lemma placeholders_where_clause (filters : list string) :
  Forall (fun f => placeholders f = 1%nat) filters →
  placeholders (where_clause filters) = length filters.
Proof.
  intros H. unfold where_clause. destruct filters as [|f fs]; [done|].
  cbn [length Nat.eqb]. by rewrite placeholders_app, placeholders_join_and.
Qed.

Lemma placeholders_marks_select (where_ : string) :
  placeholders (marks_select where_) = placeholders where_.
Proof. unfold marks_select. rewrite !placeholders_app. cbn. lia. Qed.

Lemma placeholders_date_condition (date : string) :
  placeholders (date_condition date) = 1%nat.
Proof. unfold date_condition. by destruct (ddmmyyyy date), (date_shape date). Qed.

Lemma push_if_bound {JsNumber} (v : option string) (condition : string → string)
    (value : string → Param JsNumber) (acc : list string * list (Param JsNumber)) :
  (∀ x, placeholders (condition x) = 1%nat) → bound acc →
  bound (push_if v condition value acc).
Proof.
  intros Hc [Hall Hlen]. unfold push_if. destruct v as [x|]; [|done].
  destruct (String.eqb x ""); [done|]. split; cbn [fst snd].
  - apply Forall_app. split; [done|]. by constructor.
  - rewrite !length_app, Hlen. done.
Qed.

Lemma push_if_fst {JsNumber} (v : option string) (condition : string → string)
    (value : string → Param JsNumber) (acc : list string * list (Param JsNumber)) :
  (push_if v condition value acc).1
  = if truthy_string v then (acc.1 ++ [condition (default "" v)])%list else acc.1.
Proof.
  unfold push_if, truthy_string. destruct v as [x|]; [|done].
  by destruct (String.eqb x "").
Qed.

Lemma push_if_head {JsNumber} (v : option string) (condition : string → string)
    (value : string → Param JsNumber) (acc : list string * list (Param JsNumber)) p :
  head acc.2 = Some p → head (push_if v condition value acc).2 = Some p.
Proof.
  intros H. unfold push_if. destruct v as [x|]; [|done].
  destruct (String.eqb x ""); [done|]. cbn [snd]. by destruct acc.2.
Qed.

(** * The statements of the specification *)

Lemma spec_levelling_at_max s : MAX_LEVEL <= level s → ∀ s', spec_levelling s s' → s' = s.
Proof.
  intros Hmax s' H. symmetry. eapply spec_levelling_det; [|exact H].
  apply levelling_done. unfold MAX_LEVEL in Hmax. lia.
Qed.

(** C1.  An award adds [amount] to [xp] and then, while [level < 10] and
    [xp >= next_xp_target], subtracts the target, raises the level and adds
    150 to the target unless the new level is 10.  From (0, 1, 250) an award
    of 250 gives (0, 2, 400) and an award of 1000 gives (350, 3, 550). *)
Theorem award_follows_levelling_rule (w : World) (tid amount : Z) (r : TeacherRow) :
  faults w = [] →
  teachers (db w) !! tid = Some r →
  1 <= level r <= 10 →
  ∃ r' w',
    addTeacherXP tid amount w = Ok tt w'
    ∧ db w' = set_teachers (insert tid r') (db w)
    ∧ spec_award amount r r'
    ∧ (r = mkTeacher 0 1 250 → amount = 250 → r' = mkTeacher 0 2 400)
    ∧ (r = mkTeacher 0 1 250 → amount = 1000 → r' = mkTeacher 350 3 550).
Proof.
  intros Hf Hr _.
  destruct (addTeacherXP_up tid amount w r Hf Hr) as (r' & Hrun & Hspec).
  exists r'. eexists. split; [exact Hrun|]. split; [done|]. split; [done|].
  split; intros -> ->; (eapply spec_levelling_det; [exact Hspec|]); unfold spec_award.
  - levelling.
  - levelling.
Qed.

Lemma award_follows_levelling_rule_witness :
  ∃ r' w',
    addTeacherXP 1 250 campus_up = Ok tt w'
    ∧ db w' = set_teachers (insert 1 r') (db campus_up)
    ∧ spec_award 250 (mkTeacher 0 1 250) r'
    ∧ (mkTeacher 0 1 250 = mkTeacher 0 1 250 → 250 = 250 → r' = mkTeacher 0 2 400)
    ∧ (mkTeacher 0 1 250 = mkTeacher 0 1 250 → 250 = 1000 → r' = mkTeacher 350 3 550).
Proof.
  apply (award_follows_levelling_rule campus_up 1 250 (mkTeacher 0 1 250));
    [reflexivity | reflexivity | simpl; lia].
Defined.

Lemma award_all_effect awards w :
  xp_frame (db w) (db (award_all awards w))
  ∧ ∀ id, match teachers (db w) !! id with
          | None => teachers (db (award_all awards w)) !! id = None
          | Some r =>
              ∃ r', teachers (db (award_all awards w)) !! id = Some r'
                    ∧ (level r <= MAX_LEVEL → level r' <= MAX_LEVEL)
                    ∧ (MAX_LEVEL <= level r →
                       level r' = level r ∧ next_xp_target r' = next_xp_target r)
          end.
Proof.
  revert w. induction awards as [|[tid amount] awards IH]; intros w.
  - split; [apply xp_frame_refl|]. intros id. cbn.
    destruct (teachers (db w) !! id) as [r|]; [|done]. by exists r.
  - cbn [award_all foldl fst snd]. fold (award_all awards).
    set (w1 := world_of (addTeacherXP tid amount w)).
    destruct (IH w1) as [Hfr Hrows].
    destruct (addTeacherXP_effect tid amount w) as (Hfr1 & Hoth & Htid).
    fold w1 in Hfr1, Hoth, Htid.
    split; [by eapply xp_frame_trans|].
    intros id. specialize (Hrows id).
    destruct (decide (id = tid)) as [->|Hne].
    + destruct (teachers (db w) !! tid) as [r|].
      * destruct Htid as (r1 & Hr1 & Hle1 & Hge1). rewrite Hr1 in Hrows.
        destruct Hrows as (r2 & Hr2 & Hle2 & Hge2). exists r2. split; [done|].
        split; [by auto|]. intros Hge. destruct (Hge1 Hge) as [E1 E2].
        destruct Hge2 as [E3 E4]; [lia|]. split; congruence.
      * by rewrite Htid in Hrows.
    + by rewrite (Hoth id Hne) in Hrows.
Qed.

(** C5.  From a state in which no level exceeds 10, no sequence of awards,
    with whatever store failures, leads to a level above 10; a teacher at
    level 10 keeps level and [next_xp_target] through every further award,
    while an award the store carries out still adds to [xp]. *)
Theorem level_capped_and_frozen (w : World) (awards : list (Z * Z)) :
  levels_capped (db w) →
  levels_capped (db (award_all awards w))
  ∧ (∀ tid r, teachers (db w) !! tid = Some r → level r = MAX_LEVEL →
       ∃ r', teachers (db (award_all awards w)) !! tid = Some r'
             ∧ level r' = MAX_LEVEL ∧ next_xp_target r' = next_xp_target r)
  ∧ (∀ tid amount r, faults w = [] → teachers (db w) !! tid = Some r →
       level r = MAX_LEVEL →
       teachers (db (world_of (addTeacherXP tid amount w))) !! tid
       = Some (mkTeacher (xp r + amount) (level r) (next_xp_target r))).
Proof.
  intros Hcap. destruct (award_all_effect awards w) as [_ Hrows]. split; [|split].
  - intros id r' Hr'. specialize (Hrows id).
    destruct (teachers (db w) !! id) as [r|] eqn:Hr; [|congruence].
    destruct Hrows as (r2 & Hr2 & Hle & _). assert (r2 = r') as -> by congruence.
    apply Hle. by eapply Hcap.
  - intros tid r Hr Hmax. specialize (Hrows tid). rewrite Hr in Hrows.
    destruct Hrows as (r' & Hr' & _ & Hge). exists r'. split; [done|].
    destruct Hge as [E1 E2]; [lia|]. split; congruence.
  - intros tid amount r Hf Hr Hmax.
    destruct (addTeacherXP_up tid amount w r Hf Hr) as (r' & -> & Hspec).
    cbn. rewrite lookup_insert_eq. f_equal.
    apply (spec_levelling_at_max (mkTeacher (xp r + amount) (level r) (next_xp_target r)));
      [cbn; lia|exact Hspec].
Qed.

Lemma level_capped_and_frozen_witness :
  levels_capped (db (award_all [(3, 10); (3, 15); (3, 10000)] campus_max))
  ∧ (∀ tid r, teachers (db campus_max) !! tid = Some r → level r = MAX_LEVEL →
       ∃ r', teachers (db (award_all [(3, 10); (3, 15); (3, 10000)] campus_max)) !! tid
             = Some r'
             ∧ level r' = MAX_LEVEL ∧ next_xp_target r' = next_xp_target r)
  ∧ (∀ tid amount r, faults campus_max = [] → teachers (db campus_max) !! tid = Some r →
       level r = MAX_LEVEL →
       teachers (db (world_of (addTeacherXP tid amount campus_max))) !! tid
       = Some (mkTeacher (xp r + amount) (level r) (next_xp_target r))).
Proof.
  apply (level_capped_and_frozen campus_max [(3, 10); (3, 15); (3, 10000)]).
  intros id r. unfold campus_max; cbn [db teachers].
  destruct (decide (id = 3)) as [->|Hne].
  - rewrite lookup_singleton_eq. intros [= <-]. cbn. unfold MAX_LEVEL. lia.
  - rewrite lookup_singleton_ne by done. discriminate.
Defined.

Lemma db_ext d d' :
  teachers d' = teachers d → xp_frame d d' → d' = d.
Proof.
  destruct d, d'. unfold xp_frame. cbn. intros -> (-> & -> & -> & ->). done.
Qed.

(** C10.  An award to a teacher id with no row changes no table, whatever
    the store does; when the store answers, [addTeacherXP] returns without
    an error, and the level-up check returns as soon as its lookup comes
    back empty. *)
Theorem award_unknown_teacher_noop (w : World) (tid amount : Z) :
  teachers (db w) !! tid = None →
  db (world_of (addTeacherXP tid amount w)) = db w
  ∧ (faults w = [] → ∃ w', addTeacherXP tid amount w = Ok tt w' ∧ db w' = db w)
  ∧ (hd false (faults w) = false →
     checkTeacherLevelUp tid w = Ok tt (mkWorld (db w) (console w) (tail (faults w)))).
Proof.
  intros Hnone. split; [|split].
  - destruct (addTeacherXP_effect tid amount w) as (Hfr & Hoth & Htid).
    rewrite Hnone in Htid. apply db_ext; [|done].
    apply map_eq. intros id. destruct (decide (id = tid)) as [->|Hne].
    + by rewrite Htid, Hnone.
    + by apply Hoth.
  - intros Hf. rewrite addTeacherXP_up_missing by done. eauto.
  - intros Hh. unfold checkTeacherLevelUp. rewrite run_bind.
    destruct (pool_query_cases (sql_select_xp tid) w) as [[E _]|[_ ->]]; [congruence|].
    unfold sql_select_xp. cbn [fst snd]. by rewrite Hnone.
Qed.

Lemma award_unknown_teacher_noop_witness :
  db (world_of (addTeacherXP 2 10 campus_up)) = db campus_up
  ∧ (faults campus_up = [] →
     ∃ w', addTeacherXP 2 10 campus_up = Ok tt w' ∧ db w' = db campus_up)
  ∧ (hd false (faults campus_up) = false →
     checkTeacherLevelUp 2 campus_up
     = Ok tt (mkWorld (db campus_up) (console campus_up) (tail (faults campus_up)))).
Proof. apply (award_unknown_teacher_noop campus_up 2 10). reflexivity. Defined.

Section RouteStatements.

Variable date_parses : string → bool.
Variable locals_db : bool.

(** The permission rule of the route as the handler has it, by ids: on a
    well-formed body, a user who is not an admin and whose id is not the
    path parameter, or whose id has no assignment to the batch, is answered
    403 and the store is left as it was; an admin's request for students of
    the batch is saved whatever the batch assignments are. *)
Theorem attendance_permission_by_id (tid : Z) (user : option User) (body : AttBody)
    (date : string) (batch : Z) (records : list AttRecord) (w : World) :
  well_formed date_parses body date batch records →
  (isAdmin user = false →
   isSelf user tid = false
   ∨ (∀ u, user = Some u → (u_id u, batch) ∉ teacher_batches (db w)) →
   store_ok 1 (faults w) = true →
   ∃ resp w',
     post_attendance date_parses tid user body w = Ok resp w'
     ∧ status resp = 403 ∧ db w' = db w)
  ∧ (isAdmin user = true →
     studentIds records ≠ [] →
     (∀ sid, sid ∈ studentIds records → in_batch (db w) batch sid) →
     store_ok 2 (faults w) = true →
     ∃ w',
       post_attendance date_parses tid user body w
       = Ok (saved "Saved" (length records)) w'
       ∧ attendance (db w') = attendance (written user date records (db w))).
Proof.
  intros Hwf. split.
  - intros Hadm Hno Hok.
    rewrite (post_attendance_well_formed _ _ _ _ _ _ _ _ Hwf).
    destruct (attendance_write_forbidden tid user date batch records w Hadm)
      as (resp & w' & -> & Hst & Hdb); [|done|by eauto].
    destruct (isSelf user tid) eqn:Hself; [right|by left].
    destruct Hno as [?|Hno]; [done|].
    destruct user as [u|]; [|done]. cbn in Hself. apply Z.eqb_eq in Hself. subst tid.
    by apply Hno.
  - intros Hadm Hne Hval Hok.
    rewrite (post_attendance_well_formed _ _ _ _ _ _ _ _ Hwf).
    rewrite attendance_write_permitted, Hadm;
      [|by left|by apply store_ok_weaken].
    rewrite attendance_upsert_saves by done.
    match goal with |- context [addTeacherXP tid XP_ATTENDANCE ?w1] =>
      destruct (addTeacherXP_effect tid XP_ATTENDANCE w1) as ((_&_&Hatt&_) & _);
      destruct (addTeacherXP tid XP_ATTENDANCE w1) as [[] w2|e w2]
    end; cbn [db world_of] in Hatt; eexists; (split; [done|]); done.
Qed.

(** The batch check as far as it reaches: [sid] is one of the ids the
    handler keeps in [studentIds], that is, a [student_id] that is a number
    other than 0.  On either teacher-scoped attendance route, a request
    with such a student outside the target batch never answers 200 and
    writes nothing, the rows of its other records included; when it passes
    the shape and permission checks and the store answers, the answer is
    the 400 validation failure. *)
Theorem foreign_student_rejects_all (tid : Z) (user : option User) (body : AttBody)
    (batch : Z) (records : list AttRecord) (sid : Z) (w : World)
    (route : Z → option User → AttBody → M Response) :
  route = post_attendance date_parses ∨ route = post_teacher_attendance date_parses →
  b_batch_id body = Some batch →
  b_records body = Some records →
  sid ∈ studentIds records →
  ¬ in_batch (db w) batch sid →
  ∃ resp w',
    route tid user body w = Ok resp w'
    ∧ status resp ≠ 200
    ∧ db w' = db w
    ∧ (∀ date, well_formed date_parses body date batch records →
         permitted (db w) user tid batch →
         store_ok 2 (faults w) = true →
         resp = invalid "records" "Some student(s) not in selected batch").
Proof.
  intros Hroute Hb Hr Hin Hout.
  assert (Hok1 : ∀ w0 : World, store_ok 2 (faults w) = true →
            w0 = (if isAdmin user then w else mkWorld (db w) (console w) (tail (faults w))) →
            db w0 = db w ∧ store_ok 1 (faults w0) = true).
  { intros w0 Hok ->. destruct (isAdmin user); cbn [db faults].
    - split; [done|]. by apply store_ok_weaken.
    - split; [done|]. by apply store_ok_step in Hok as [_ ?]. }
  destruct Hroute as [-> | ->].
  - destruct (post_attendance_outcome date_parses tid user body w)
      as (resp & w' & Hrun & Hcase).
    exists resp, w'. split; [done|].
    destruct Hcase as [[Hdb Hst]|(date & batch' & records' & Hwf & _ & _ & _ & Hval & _)].
    + split; [done|]. split; [done|].
      intros date Hwf Hperm Hok.
      rewrite (post_attendance_well_formed _ _ _ _ _ _ _ _ Hwf) in Hrun.
      rewrite attendance_write_permitted in Hrun; [|done|by apply store_ok_weaken].
      destruct (Hok1 _ Hok eq_refl) as [Hdb0 Hok0].
      rewrite (attendance_upsert_rejects _ _ _ _ _ sid) in Hrun;
        [congruence|done|by rewrite Hdb0|done].
    + exfalso. destruct Hwf as (_ & _ & _ & Hb' & _ & Hr' & _).
      assert (batch' = batch) as -> by congruence.
      assert (records' = records) as -> by congruence.
      by apply Hout, Hval.
  - destruct (post_teacher_attendance_outcome date_parses tid user body w)
      as (resp & w' & Hrun & Hcase).
    exists resp, w'. split; [done|].
    destruct Hcase as [[Hdb Hst]|(date & batch' & records' & Hwf & _ & _ & Hval)].
    + split; [done|]. split; [done|].
      intros date Hwf Hperm Hok.
      rewrite (post_teacher_attendance_well_formed _ _ _ _ _ _ _ _ Hwf) in Hrun.
      rewrite attendance_write_plain_permitted in Hrun; [|done|by apply store_ok_weaken].
      destruct (Hok1 _ Hok eq_refl) as [Hdb0 Hok0].
      rewrite (attendance_upsert_plain_rejects _ _ _ _ sid) in Hrun;
        [congruence|done|by rewrite Hdb0|done].
    + exfalso. destruct Hwf as (_ & _ & _ & Hb' & _ & Hr' & _).
      assert (batch' = batch) as -> by congruence.
      assert (records' = records) as -> by congruence.
      by apply Hout, Hval.
Qed.

(** [filter(Boolean)] drops a [student_id] that is 0 (or not a number)
    from [studentIds], so the record is not checked against the batch,
    while the [for] loop still builds a row for it. *)
Example record_without_student_is_not_checked :
  studentIds [mkAttRecord (Some 100) "Present"; mkAttRecord (Some 0) "Present"] = [100]
  ∧ map a_student_id
      (attendance_values (Some 1) "2024-01-15"
         [mkAttRecord (Some 100) "Present"; mkAttRecord (Some 0) "Present"])
    = [Some 100; Some 0].
Proof. split; reflexivity. Qed.

Lemma saved_run tid user body w :
  succeeded (post_attendance date_parses tid user body w) = true →
  ∃ date batch records w1,
    well_formed date_parses body date batch records
    ∧ answer (post_attendance date_parses tid user body w)
      = Some (saved "Saved" (length records))
    ∧ xp_effect tid (written user date records (db w))
        (db (world_of (post_attendance date_parses tid user body w)))
    ∧ db w1 = written user date records (db w)
    ∧ (faults w = [] → faults w1 = [])
    ∧ db (world_of (post_attendance date_parses tid user body w))
      = db (world_of (addTeacherXP tid XP_ATTENDANCE w1)).
Proof.
  intros Hs. apply succeeded_answer in Hs as (resp & w' & Hrun & Hst).
  destruct (post_attendance_outcome date_parses tid user body w)
    as (resp' & w'' & Hrun' & Hcase).
  rewrite Hrun in *. injection Hrun' as <- <-.
  destruct Hcase as [[_ ?]|(date & batch & records & Hwf & -> & Hxp & _ & _ & w1 & ? & ? & ?)];
    [done|].
  exists date, batch, records, w1. done.
Qed.

Lemma written_attendance user date records d :
  attendance (written user date records d)
  = foldl (fun t r => upsert_attendance r t) (attendance d)
      (attendance_values (recorder user) date records).
Proof. done. Qed.

Lemma att_keys_recorder uid uid' date records :
  att_keys (attendance_values uid date records)
  = att_keys (attendance_values uid' date records).
Proof. unfold att_keys, attendance_values. by rewrite !map_map. Qed.

(** C6.  The attendance table is keyed by (student, date).  Submitting a
    payload that was saved once more leaves the table as the first
    submission left it (for any other submitter the same keys, so no row is
    added); submitting [Present] and then [Absent] for student
    [S] on date [D] leaves for (S, D) the one row with status [Absent] and
    the second recorder, and every other key as it was. *)
Theorem attendance_last_write_wins (tidA tidB : Z) (userA userB : option User)
    (bodyA bodyB : AttBody) (w : World) :
  let runA := post_attendance date_parses tidA userA bodyA w in
  let runB := post_attendance date_parses tidB userB bodyB (world_of runA) in
  succeeded runA = true →
  (bodyB = bodyA →
   dom (attendance (db (world_of runB))) = dom (attendance (db (world_of runA)))
   ∧ (recorder userB = recorder userA →
      attendance (db (world_of runB)) = attendance (db (world_of runA))))
  ∧ (∀ (S : Z) (D : string) (batch : Z),
       bodyA = mkAttBody (Some D) (Some batch) (Some [mkAttRecord (Some S) "Present"]) →
       bodyB = mkAttBody (Some D) (Some batch) (Some [mkAttRecord (Some S) "Absent"]) →
       succeeded runB = true →
       attendance (db (world_of runB)) !! (Some S, D) = Some (Absent, recorder userB)
       ∧ ∀ k, k ≠ (Some S, D) →
              attendance (db (world_of runB)) !! k = attendance (db w) !! k).
Proof.
  intros runA runB HA. unfold runA in HA.
  destruct (saved_run _ _ _ _ HA)
    as (date & batch & records & _ & Hwf & _ & ((_&_&HattA&_) & _) & _).
  fold runA in HattA. rewrite written_attendance in HattA. split.
  - intros ->.
    destruct (post_attendance_outcome date_parses tidB userB bodyA (world_of runA))
      as (resp & w' & Hrun & Hcase). fold runB in Hrun. rewrite Hrun. cbn [world_of].
    destruct Hcase as [[-> _]|(date' & batch' & records' & Hwf' & _ & ((_&_&HattB&_) & _) & _)];
      [done|].
    rewrite HattB, written_attendance.
    destruct Hwf as (Hd & _ & _ & Hb & _ & Hr & _).
    destruct Hwf' as (Hd' & _ & _ & Hb' & _ & Hr' & _).
    assert (date' = date) as -> by congruence.
    assert (records' = records) as -> by congruence.
    rewrite HattA. split.
    + rewrite !upsert_all_dom, (att_keys_recorder (recorder userB) (recorder userA)).
      by rewrite (assoc_L (∪)), (idemp_L (∪)).
    + intros ->. apply upsert_all_idempotent.
  - intros S D b -> -> HB. unfold runB in HB.
    destruct (saved_run _ _ _ _ HB)
      as (date' & batch' & records' & _ & Hwf' & _ & ((_&_&HattB&_) & _) & _).
    fold runA runB in HattB. rewrite written_attendance in HattB.
    destruct Hwf as (Hd & _ & _ & _ & _ & Hr & _).
    destruct Hwf' as (Hd' & _ & _ & _ & _ & Hr' & _).
    cbn in Hd, Hr, Hd', Hr'.
    injection Hd as <-. injection Hr as <-. injection Hd' as <-. injection Hr' as <-.
    rewrite HattB, HattA. cbn. unfold upsert_attendance. cbn. split.
    + by rewrite lookup_insert_eq.
    + intros k Hk. by rewrite !lookup_insert_ne.
Qed.

(** C7.  When the assignment and student lookups and the [INSERT] of a
    permitted, valid request are answered, the answer is [Saved] with the
    number of records whether the XP update returns or throws; if it throws,
    the rows stay written and the only trace is the warning on the
    console. *)
Theorem xp_failure_is_soft (tid : Z) (user : option User) (body : AttBody)
    (date : string) (batch : Z) (records : list AttRecord) (w : World) :
  well_formed date_parses body date batch records →
  permitted (db w) user tid batch →
  studentIds records ≠ [] →
  (∀ sid, sid ∈ studentIds records → in_batch (db w) batch sid) →
  store_ok (if isAdmin user then 2 else 3) (faults w) = true →
  let w1 := mkWorld (written user date records (db w))
              (console w ++ [(LLog, "[XP] awarding attendance XP ->")])
              (drop (if isAdmin user then 2 else 3)%nat (faults w)) in
  match addTeacherXP tid XP_ATTENDANCE w1 with
  | Ok _ w2 =>
      post_attendance date_parses tid user body w
      = Ok (saved "Saved" (length records)) w2
  | Throw _ w2 =>
      post_attendance date_parses tid user body w
      = Ok (saved "Saved" (length records))
          (mkWorld (db w2) (console w2 ++ [(LWarn, "XP update (attendance) failed:")])
             (faults w2))
      ∧ attendance (db w2) = attendance (written user date records (db w))
  end.
Proof.
  intros Hwf Hperm Hne Hval Hok w1.
  rewrite (post_attendance_well_formed _ _ _ _ _ _ _ _ Hwf).
  assert (Hok1 : store_ok 1 (faults w) = true).
  { destruct (isAdmin user); [by apply store_ok_weaken|by do 2 apply store_ok_weaken]. }
  rewrite attendance_write_permitted by done.
  assert (Hw1 :
    attendance_upsert tid user date batch records
      (if isAdmin user then w else mkWorld (db w) (console w) (tail (faults w)))
    = match addTeacherXP tid XP_ATTENDANCE w1 with
      | Ok _ w2 => Ok (saved "Saved" (length records)) w2
      | Throw _ w2 =>
          Ok (saved "Saved" (length records))
            (mkWorld (db w2) (console w2 ++ [(LWarn, "XP update (attendance) failed:")])
               (faults w2))
      end).
  { subst w1. destruct (isAdmin user).
    - by rewrite attendance_upsert_saves.
    - rewrite attendance_upsert_saves; cbn [db console faults]; [|done|done|].
      + by destruct (faults w).
      + by apply store_ok_step in Hok as [_ ?]. }
  rewrite Hw1.
  destruct (addTeacherXP_effect tid XP_ATTENDANCE w1) as ((_&_&Hatt&_) & _).
  destruct (addTeacherXP tid XP_ATTENDANCE w1) as [[] w2|e w2]; [done|].
  split; [done|]. exact Hatt.
Qed.

(** C8 (as amended).  The [count] of a 200 answer, of the attendance route
    and of the marks route (run with Express's [res.json] or with the XP
    wrapper of the teacher route), is the number of records of the submitted
    payload.  The rows the write touches are those of the distinct keys of
    the payload, so [count] is the number of rows written when the students
    of the payload are pairwise distinct. *)
Theorem count_is_number_of_records (tid : Z) (user : option User)
    (abody : AttBody) (mbody : MarksBody) (w : World) :
  (let run := post_attendance date_parses tid user abody w in
   succeeded run = true →
   ∃ date batch records,
     well_formed date_parses abody date batch records
     ∧ answer run = Some (saved "Saved" (length records))
     ∧ dom (attendance (db (world_of run)))
       = att_keys (attendance_values (recorder user) date records) ∪ dom (attendance (db w))
     ∧ (NoDup (map r_student_id records) →
        size (att_keys (attendance_values (recorder user) date records))
        = length records))
  ∧ (∀ res_json, res_json = ret ∨ res_json = xp_json tid →
     let run := post_marks locals_db res_json mbody w in
     let p := buildPayload mbody in
     succeeded run = true →
     ∃ batch assessment,
       p_batch_id p = Some batch ∧ p_assessment p = Some assessment
       ∧ answer run = Some (saved "Marks saved" (length (p_records p)))
       ∧ dom (marks (db (world_of run)))
         = marks_keys (marks_rows batch assessment p) ∪ dom (marks (db w))
       ∧ (NoDup (map (fun r => default 0 (mr_student_id r)) (p_records p)) →
          size (marks_keys (marks_rows batch assessment p)) = length (p_records p))).
Proof.
  split.
  - intros run Hs. unfold run in *.
    destruct (saved_run _ _ _ _ Hs)
      as (date & batch & records & _ & Hwf & Hans & ((_&_&Hatt&_) & _) & _).
    exists date, batch, records. split; [done|]. split; [done|]. split.
    + rewrite Hatt, written_attendance. apply upsert_all_dom.
    + apply att_keys_size.
  - intros res_json Hjson run p Hs. unfold run in *.
    apply succeeded_answer in Hs as (resp & w' & Hrun & Hst).
    destruct (post_marks_outcome locals_db res_json mbody w)
      as (resp' & w'' & Hrun' & Hcase).
    { destruct Hjson as [-> | ->];
        [apply ret_sends_unchanged|apply xp_json_sends_unchanged]. }
    rewrite Hrun in *. injection Hrun' as <- <-.
    destruct Hcase as [[? _]|(batch & assessment & Hb & Ha & -> & Hm)]; [done|].
    exists batch, assessment. fold p in Hb, Ha, Hm. split; [done|]. split; [done|].
    split; [done|]. split.
    + cbn [world_of]. rewrite Hm. unfold marks_written. cbn [marks set_marks].
      apply upsert_marks_all_dom.
    + apply marks_keys_size.
Qed.

Lemma awarded_from amount tid d d1 d' :
  teachers d1 = teachers d → awarded amount tid d1 d' → awarded amount tid d d'.
Proof. unfold awarded. by intros ->. Qed.

(** C9.  A saved attendance submission to [/api/teachers/:id/attendance]
    changes the teachers table by one run of [addTeacherXP] for the path
    teacher with the constant 10, and a saved marks submission to
    [/api/teachers/:tid/marks] by one run with the constant 15, whatever
    the records of the payload are; when the store answers, that run is
    exactly one award of 10, respectively 15, as the specification defines
    an award. *)
Theorem flat_xp_per_submission (tid : Z) (user : option User)
    (abody : AttBody) (mbody : MarksBody) (w : World) :
  (let run := post_attendance date_parses tid user abody w in
   succeeded run = true →
   (∃ w1, teachers (db w1) = teachers (db w)
          ∧ db (world_of run) = db (world_of (addTeacherXP tid 10 w1)))
   ∧ (faults w = [] → awarded 10 tid (db w) (db (world_of run))))
  ∧ (let run := post_teacher_marks locals_db tid user mbody w in
     succeeded run = true →
     (∃ w1, teachers (db w1) = teachers (db w)
            ∧ db (world_of run) = db (world_of (addTeacherXP tid 15 w1)))
     ∧ (faults w = [] → awarded 15 tid (db w) (db (world_of run)))).
Proof.
  split.
  - intros run Hs. unfold run in *.
    destruct (saved_run _ _ _ _ Hs)
      as (date & batch & records & w1 & _ & _ & _ & Hdb & Hf1 & Hrun).
    split.
    + exists w1. split; [by rewrite Hdb|exact Hrun].
    + intros Hf. rewrite Hrun.
      apply (awarded_from _ _ _ (db w1)); [by rewrite Hdb|].
      apply (addTeacherXP_awarded tid XP_ATTENDANCE w1). by apply Hf1.
  - intros run Hs. unfold run in *.
    apply succeeded_answer in Hs as (resp & w' & Hrun & Hst).
    destruct (post_teacher_marks_outcome locals_db tid user mbody w)
      as (resp' & w'' & Hrun' & Hcase).
    rewrite Hrun in *. injection Hrun' as <- <-.
    destruct Hcase as [[? _]|(batch & assessment & w1 & _ & _ & _ & Hdb & Hf1 & Hxp)];
      [done|].
    cbn [world_of]. split.
    + exists w1. split; [by rewrite Hdb|exact Hxp].
    + intros Hf. rewrite Hxp.
      apply (awarded_from _ _ _ (db w1)); [by rewrite Hdb|].
      apply (addTeacherXP_awarded tid XP_MARKS w1). by apply Hf1.
Qed.

End RouteStatements.

(** C3.  The acting user is a student, hence neither an admin nor the
    teacher of the path, but the student's id is that teacher's: [isSelf]
    compares ids only, the teacher's assignment is found, and the route
    answers [Saved], writes the rows recorded by id 1 and awards the XP to
    teacher 1. *)
Theorem student_passes_as_teacher :
  isAdmin student1 = false
  ∧ u_role <$> student1 = Some student
  ∧ isSelf student1 1 = true
  ∧ bool_decide ((1, 7) ∈ teacher_batches (db campus_up)) = true
  ∧ match post_attendance calendar_date 1 student1 roll_call campus_up with
    | Ok resp w' =>
        resp = saved "Saved" 2
        ∧ attendance (db w') !! (Some 100, "2024-01-15") = Some (Present, Some 1)
        ∧ attendance (db w') !! (Some 101, "2024-01-15") = Some (Absent, Some 1)
        ∧ teachers (db w') !! 1 = Some (mkTeacher 10 1 250)
    | Throw _ _ => False
    end.
Proof. vm_compute. repeat split; reflexivity. Qed.

(** C4.  The second record of the request has [student_id] 0, and no
    student 0 is in batch 7, or anywhere in the store.  [filter(Boolean)]
    drops the id from [studentIds], the check against the batch sees
    student 100 alone and passes, and the [for] loop builds a row for
    every record: both teacher-scoped attendance routes answer [Saved]
    with count 2 and write a row for student 0 beside the row of student
    100, where the request was to be rejected as a whole.  The marks write
    of routes/marks.js rejects such a record ([Each record must include
    student_id]). *)
Theorem unchecked_record_is_written :
  ¬ in_batch campus 7 0
  ∧ students campus !! 0 = None
  ∧ permitted campus teacher1 1 7
  ∧ attendance campus = ∅
  ∧ match post_attendance calendar_date 1 teacher1 roll_call_zero campus_up with
    | Ok resp w' =>
        resp = saved "Saved" 2
        ∧ attendance (db w') !! (Some 0, "2024-01-15") = Some (Present, Some 1)
        ∧ attendance (db w') !! (Some 100, "2024-01-15") = Some (Present, Some 1)
    | Throw _ _ => False
    end
  ∧ match post_teacher_attendance calendar_date 1 teacher1 roll_call_zero campus_up with
    | Ok resp w' =>
        resp = saved "Saved" 2
        ∧ attendance (db w') !! (Some 0, "2024-01-15") = Some (Present, Some 1)
        ∧ attendance (db w') !! (Some 100, "2024-01-15") = Some (Present, Some 1)
    | Throw _ _ => False
    end.
Proof.
  split; [by intros [=]|]. split; [reflexivity|].
  split; [right; split; [reflexivity|by eexists]|].
  vm_compute. repeat split; reflexivity.
Qed.

(** C2.  A teacher who is neither an admin nor the teacher of the path and
    who has no batch assignment posts marks to [/api/teachers/1/marks]: the
    route answers [Marks saved], the rows are written, recorded for
    teacher 1, and teacher 1 receives the XP. *)
Theorem teacher_marks_skip_permission :
  isAdmin teacher2 = false
  ∧ isSelf teacher2 1 = false
  ∧ teacher_batches (db campus_unassigned) = ∅
  ∧ match post_teacher_marks true 1 teacher2 midterm campus_unassigned with
    | Ok resp w' =>
        resp = saved "Marks saved" 2
        ∧ marks (db w') !! (100, 7, "Midterm")
          = Some (mkMarksVal (Some "2024-01-15") None (Some 55) None (Some 1) (Some 100))
        ∧ size (marks (db w')) = 2%nat
        ∧ teachers (db w') !! 1 = Some (mkTeacher 15 1 250)
    | Throw _ _ => False
    end.
Proof. vm_compute. repeat split; reflexivity. Qed.

(** C8.  As the specification states it the property fails: a payload with
    two records for student 100 is answered with count 2 while one row is
    written. *)
Lemma count_exceeds_rows_written :
  match post_attendance calendar_date 1 teacher1 roll_call_twice campus_up with
  | Ok resp w' =>
      status resp = 200
      ∧ count resp = Some 2%nat
      ∧ attendance (db campus_up) = ∅
      ∧ size (attendance (db w')) = 1%nat
      ∧ count resp ≠ Some (size (attendance (db w')))
  | Throw _ _ => False
  end.
Proof. vm_compute. repeat split; try reflexivity. discriminate. Qed.

(** * The theorems at the example data *)

Lemma roll_call_well_formed :
  well_formed calendar_date roll_call "2024-01-15" 7
    [mkAttRecord (Some 100) "Present"; mkAttRecord (Some 101) "late"].
Proof. unfold well_formed. repeat split; done. Defined.

Lemma attendance_permission_by_id_example :
  (∃ resp w',
     post_attendance calendar_date 1 teacher2 roll_call campus_up = Ok resp w'
     ∧ status resp = 403 ∧ db w' = db campus_up)
  ∧ (∃ w',
       post_attendance calendar_date 1 admin9 roll_call campus_unassigned
       = Ok (saved "Saved" 2) w'
       ∧ attendance (db w')
         = attendance (written admin9 "2024-01-15"
                         [mkAttRecord (Some 100) "Present"; mkAttRecord (Some 101) "late"]
                         (db campus_unassigned))).
Proof.
  split.
  - refine (proj1 (attendance_permission_by_id calendar_date 1 teacher2 roll_call
                     "2024-01-15" 7 _ campus_up roll_call_well_formed) _ _ _);
      [reflexivity | left; reflexivity | reflexivity].
  - refine (proj2 (attendance_permission_by_id calendar_date 1 admin9 roll_call
                     "2024-01-15" 7 _ campus_unassigned roll_call_well_formed) _ _ _ _);
      [reflexivity | discriminate | students_in_batch | reflexivity].
Defined.

Lemma foreign_student_rejects_all_witness :
  ∃ resp w',
    post_attendance calendar_date 1 teacher1 roll_call_foreign campus_up = Ok resp w'
    ∧ status resp ≠ 200
    ∧ db w' = db campus_up
    ∧ (∀ date,
         well_formed calendar_date roll_call_foreign date 7
           [mkAttRecord (Some 100) "Present"; mkAttRecord (Some 102) "Present"] →
         permitted (db campus_up) teacher1 1 7 →
         store_ok 2 (faults campus_up) = true →
         resp = invalid "records" "Some student(s) not in selected batch").
Proof.
  apply (foreign_student_rejects_all calendar_date 1 teacher1 roll_call_foreign 7
           [mkAttRecord (Some 100) "Present"; mkAttRecord (Some 102) "Present"] 102
           campus_up (post_attendance calendar_date)).
  - left. reflexivity.
  - reflexivity.
  - reflexivity.
  - vm_compute. apply elem_of_cons. right. apply elem_of_cons. left. reflexivity.
  - intros H. vm_compute in H. discriminate.
Defined.

Lemma attendance_last_write_wins_witness :
  (let runA := post_attendance calendar_date 1 teacher1 roll_call campus_up in
   let runB := post_attendance calendar_date 1 teacher1 roll_call (world_of runA) in
   attendance (db (world_of runB)) = attendance (db (world_of runA)))
  ∧ (let runA := post_attendance calendar_date 1 teacher1 mark_present campus_up in
     let runB := post_attendance calendar_date 1 admin9 mark_absent (world_of runA) in
     attendance (db (world_of runB)) !! (Some 100, "2024-01-15") = Some (Absent, Some 9)
     ∧ ∀ k, k ≠ (Some 100, "2024-01-15") →
            attendance (db (world_of runB)) !! k = attendance (db campus_up) !! k).
Proof.
  split.
  - refine (proj2 (proj1 (attendance_last_write_wins calendar_date 1 1 teacher1 teacher1
                            roll_call roll_call campus_up _) _) _); reflexivity.
  - refine (proj2 (attendance_last_write_wins calendar_date 1 1 teacher1 admin9
                     mark_present mark_absent campus_up _) 100 "2024-01-15" 7 _ _ _);
      reflexivity.
Defined.

Lemma xp_failure_is_soft_witness :
  let run := post_attendance calendar_date 1 teacher1 roll_call campus_xp_down in
  threw (addTeacherXP 1 XP_ATTENDANCE
           (mkWorld (written teacher1 "2024-01-15"
                       [mkAttRecord (Some 100) "Present"; mkAttRecord (Some 101) "late"]
                       (db campus_xp_down))
              [(LLog, "[XP] awarding attendance XP ->")] [true])) = true
  ∧ answer run = Some (saved "Saved" 2)
  ∧ attendance (db (world_of run))
    = attendance (written teacher1 "2024-01-15"
                    [mkAttRecord (Some 100) "Present"; mkAttRecord (Some 101) "late"]
                    (db campus_xp_down))
  ∧ last (console (world_of run)) = Some (LWarn, "XP update (attendance) failed:").
Proof.
  intros run. split; [reflexivity|].
  pose proof (xp_failure_is_soft calendar_date 1 teacher1 roll_call "2024-01-15" 7
                [mkAttRecord (Some 100) "Present"; mkAttRecord (Some 101) "late"]
                campus_xp_down roll_call_well_formed) as H.
  cbv zeta in H.
  match type of H with
  | _ → _ → _ → _ → match ?m with _ => _ end =>
      assert (E : threw m = true) by reflexivity; destruct m as [|e w2]; [discriminate E|]
  end.
  destruct H as [Hrun Hatt].
  - right. split; [reflexivity|]. vm_compute. by eexists.
  - discriminate.
  - students_in_batch.
  - reflexivity.
  - subst run. rewrite Hrun. cbn [answer world_of db console].
    split; [done|]. split; [done|]. by rewrite last_snoc.
Defined.

Lemma count_is_number_of_records_witness :
  (let run := post_attendance calendar_date 1 teacher1 roll_call campus_up in
   ∃ date batch records,
     well_formed calendar_date roll_call date batch records
     ∧ answer run = Some (saved "Saved" (length records))
     ∧ dom (attendance (db (world_of run)))
       = att_keys (attendance_values (recorder teacher1) date records)
         ∪ dom (attendance (db campus_up))
     ∧ (NoDup (map r_student_id records) →
        size (att_keys (attendance_values (recorder teacher1) date records))
        = length records))
  ∧ (let run := post_teacher_marks true 1 teacher1 midterm campus_up in
     let p := buildPayload (force_recorded_by 1 midterm) in
     ∃ batch assessment,
       p_batch_id p = Some batch ∧ p_assessment p = Some assessment
       ∧ answer run = Some (saved "Marks saved" (length (p_records p)))
       ∧ dom (marks (db (world_of run)))
         = marks_keys (marks_rows batch assessment p) ∪ dom (marks (db campus_up))
       ∧ (NoDup (map (fun r => default 0 (mr_student_id r)) (p_records p)) →
          size (marks_keys (marks_rows batch assessment p)) = length (p_records p))).
Proof.
  split.
  - refine (proj1 (count_is_number_of_records calendar_date true 1 teacher1 roll_call
                     midterm campus_up) _). reflexivity.
  - refine (proj2 (count_is_number_of_records calendar_date true 1 teacher1 roll_call
                     (force_recorded_by 1 midterm) campus_up) (xp_json 1) _ _);
      [right|]; reflexivity.
Defined.

Lemma flat_xp_per_submission_witness :
  awarded 10 1 (db campus_up)
    (db (world_of (post_attendance calendar_date 1 teacher1 roll_call campus_up)))
  ∧ awarded 15 1 (db campus_up)
      (db (world_of (post_teacher_marks true 1 teacher1 midterm campus_up))).
Proof.
  destruct (flat_xp_per_submission calendar_date true 1 teacher1 roll_call midterm
              campus_up) as [HA HM].
  split; [apply HA | apply HM]; reflexivity.
Defined.

(** * Further properties of the code *)

(** ** The XP system *)

(** X1.  With the store answering, two awards in a row leave the store as
    one award of the sum does, provided the second amount is not
    negative. *)
Theorem award_is_additive (w : World) (tid a b : Z) :
  faults w = [] → 0 <= b →
  db (world_of (addTeacherXP tid b (world_of (addTeacherXP tid a w))))
  = db (world_of (addTeacherXP tid (a + b) w)).
Proof.
  intros Hf Hb. destruct (teachers (db w) !! tid) as [r|] eqn:Hr.
  - destruct (addTeacherXP_up tid a w r Hf Hr) as (r1 & -> & H1).
    destruct (addTeacherXP_up tid (a + b) w r Hf Hr) as (r3 & -> & H3).
    cbn [world_of].
    match goal with |- context [addTeacherXP tid b ?w1] =>
      destruct (addTeacherXP_up tid b w1 r1) as (r2 & -> & H2);
        [done | cbn; by rewrite lookup_insert_eq |]
    end.
    cbn [world_of db]. rewrite set_teachers_twice. f_equal. f_equal.
    eapply spec_levelling_det; [|exact H3].
    replace (mkTeacher (xp r + (a + b)) (level r) (next_xp_target r))
      with (add_xp b (add_xp a r)) by (unfold add_xp; cbn; f_equal; lia).
    eapply levelling_progress_catch_up; [|done|exact H2].
    by apply spec_levelling_progress.
  - rewrite (addTeacherXP_up_missing tid a w Hf Hr). cbn [world_of].
    rewrite (addTeacherXP_up_missing tid (a + b) w Hf Hr).
    rewrite addTeacherXP_up_missing; done.
Qed.

(** X2.  An award whose first [UPDATE] went through keeps its amount even if
    the store fails during the level-up: the next award that the store
    carries out, of a non-negative amount, takes the level-ups that were
    left, and the row ends as after one award of the sum. *)
Theorem interrupted_award_is_caught_up (w : World) (tid a b : Z) (r : TeacherRow) :
  teachers (db w) !! tid = Some r → hd false (faults w) = false → 0 <= b →
  let w1 := world_of (addTeacherXP tid a w) in
  db (world_of (addTeacherXP tid b (mkWorld (db w1) (console w1) [])))
  = db (world_of (addTeacherXP tid (a + b) (mkWorld (db w) (console w) []))).
Proof.
  intros Hr Hh Hb w1.
  destruct (addTeacherXP_progress tid a w r Hr) as [[E _]|(_ & m & Hdb & Hp)];
    [congruence|].
  fold w1 in Hdb.
  destruct (addTeacherXP_up tid b (mkWorld (db w1) (console w1) []) m)
    as (r2 & -> & H2); [done | cbn; rewrite Hdb; cbn; by rewrite lookup_insert_eq |].
  destruct (addTeacherXP_up tid (a + b) (mkWorld (db w) (console w) []) r)
    as (r3 & -> & H3); [done | done |].
  cbn [world_of db]. rewrite Hdb, set_teachers_twice. f_equal. f_equal.
  eapply spec_levelling_det; [|exact H3].
  replace (mkTeacher (xp r + (a + b)) (level r) (next_xp_target r))
    with (add_xp b (add_xp a r)) by (unfold add_xp; cbn; f_equal; lia).
  eapply levelling_progress_catch_up; [exact Hp|done|exact H2].
Qed.

(** X3.  Whatever the store does during an award, the teacher's row stays,
    its level and its next target do not go down, and an [xp] that was not
    negative stays so when the amount is not negative. *)
Theorem award_never_lowers (w : World) (tid amount : Z) (r : TeacherRow) :
  teachers (db w) !! tid = Some r →
  ∃ r', teachers (db (world_of (addTeacherXP tid amount w))) !! tid = Some r'
        ∧ level r <= level r'
        ∧ next_xp_target r <= next_xp_target r'
        ∧ (0 <= amount → 0 <= xp r → 0 <= xp r').
Proof.
  intros Hr.
  destruct (addTeacherXP_progress tid amount w r Hr) as [[_ ->]|(_ & r' & -> & Hp)].
  - exists r. split; [done|]. lia.
  - exists r'. split; [cbn; by rewrite lookup_insert_eq|].
    apply levelling_progress_monotone in Hp. cbn in Hp. lia.
Qed.

(** ** Administration of teachers and their batches *)

(** X4.  The assignment route changes the store only for an admin and only
    by adding, for the teacher of the path, the batches of the body that
    are numbers other than 0: a row the table has is kept, a row that is
    added names no [assigned_by].  Every other run answers with a status
    other than 200 and leaves the store as it was. *)
Theorem assignment_is_exact (id : Z) (user : option User) (body : AssignBody)
    (w : World) :
  ∃ resp w',
    post_teacher_batches id user body w = Ok resp w'
    ∧ ((status resp ≠ 200 ∧ db w' = db w)
       ∨ (resp = done_with "Assigned" ∧ isAdmin user = true
          ∧ (∀ t b, (t, b) ∈ teacher_batches (db w')
                    ↔ (t, b) ∈ teacher_batches (db w)
                      ∨ (t = id ∧ b ≠ 0
                         ∧ ∃ bs, ab_batchIds body = Some bs ∧ Some b ∈ bs))
          ∧ (∀ t b by_, teacher_batches (db w') !! (t, b) = Some by_ →
                        teacher_batches (db w) !! (t, b) = Some by_
                        ∨ (((t, b) ∉ teacher_batches (db w)) ∧ by_ = None))
          ∧ teachers (db w') = teachers (db w) ∧ students (db w') = students (db w)
          ∧ attendance (db w') = attendance (db w) ∧ marks (db w') = marks (db w))).
Proof.
  unfold post_teacher_batches, try_catch.
  destruct (isAdmin user) eqn:Hadm; cbn [negb]; [|cbn; eauto 10].
  destruct (length (batchIds_of body) =? 0)%nat; [cbn; eauto 10|].
  rewrite run_bind.
  destruct (pool_query_cases (sql_assign_batches id (batchIds_of body)) w)
    as [[_ ->]|[_ ->]]; [cbn; eauto 10|].
  eexists _, _. split; [reflexivity|]. right. split; [done|]. split; [done|].
  cbn [db sql_assign_batches snd set_teacher_batches teacher_batches teachers students
       attendance marks].
  split; [|split; [|done]].
  - intros t b. rewrite assigned_union, assigned_new_rows.
    rewrite <- elem_of_batchIds_of. split.
    + intros [?|(b' & [= -> ->] & ?)]; [by left|by right].
    + intros [?|[-> ?]]; [by left|right]. by exists b.
  - intros t b by_ [?|[Hnot Hnew]]%lookup_union_Some_raw; [by left|right].
    split; [intros [? ?]; by simplify_eq|by eapply lookup_new_rows].
Qed.

(** X5.  The listing route does not look at who calls: it answers
    every authenticated caller with exactly the batches assigned to the
    teacher of the path when the store answers, with a 500 when it does
    not; it changes no table. *)
Theorem listed_batches_are_the_assigned (id : Z) (user : option User) (w : World) :
  ∃ reply w',
    get_teacher_batches id user w = Ok reply w' ∧ db w' = db w
    ∧ match reply with
      | inl resp => hd false (faults w) = true ∧ resp = server_error "Server error" None
      | inr batchIds =>
          hd false (faults w) = false
          ∧ ∀ b, b ∈ batchIds ↔ (id, b) ∈ teacher_batches (db w)
      end.
Proof.
  unfold get_teacher_batches, try_catch. rewrite run_bind.
  destruct (pool_query_cases (sql_batches_of id) w) as [[Hh ->]|[Hh ->]].
  - cbn. eexists _, _. split; [done|]. done.
  - cbn. eexists _, _. split; [done|]. split; [done|]. split; [done|].
    intros b. rewrite list_elem_of_omap. split.
    + intros ([t b'] & Hin & Hb). cbn in Hb. apply assigned_rows in Hin.
      destruct (t =? id) eqn:E; [|done]. apply Z.eqb_eq in E. by simplify_eq.
    + intros Hin. exists (id, b). split; [by apply assigned_rows|].
      cbn. by rewrite Z.eqb_refl.
Qed.

(** X6.  An admin's assignment of a batch the teacher did not have,
    followed by the unassignment of that batch, leaves the store as it
    was. *)
Theorem assign_then_unassign_restores (tid batch : Z) (adm : option User) (w : World) :
  isAdmin adm = true → batch ≠ 0 → (tid, batch) ∉ teacher_batches (db w) →
  faults w = [] →
  ∃ w1 w2,
    post_teacher_batches tid adm (mkAssignBody (Some [Some batch])) w
    = Ok (done_with "Assigned") w1
    ∧ (tid, batch) ∈ teacher_batches (db w1)
    ∧ delete_teacher_batch tid batch adm w1 = Ok (done_with "Unassigned") w2
    ∧ db w2 = db w.
Proof.
  intros Hadm Hb Hnot Hf. destruct (hd_tail_nil _ Hf) as [Hh Ht].
  assert (Hids : batchIds_of (mkAssignBody (Some [Some batch])) = [batch]).
  { cbn. apply Z.eqb_neq in Hb. by rewrite Hb. }
  rewrite post_teacher_batches_run; [|done|by rewrite Hids|done].
  rewrite Hids. eexists _, _. split; [done|].
  cbn [db sql_assign_batches snd set_teacher_batches teacher_batches].
  split; [apply assigned_union; right; apply assigned_new_rows; exists batch;
          split; [done|by apply list_elem_of_singleton]|].
  rewrite delete_teacher_batch_run; [|done|by cbn; rewrite Ht].
  split; [done|].
  cbn [db sql_unassign_batch snd set_teacher_batches teacher_batches teachers students
       attendance marks].
  apply db_tables; try done. unfold set_teacher_batches. cbn [teacher_batches].
  apply map_eq. intros k. destruct (decide (k = (tid, batch))) as [->|Hk].
  - rewrite lookup_delete_eq. symmetry. by apply eq_None_not_Some.
  - rewrite lookup_delete_ne by done. rewrite lookup_union_l; [done|].
    apply eq_None_not_Some. intros (b & [= ->] & ->%list_elem_of_singleton)%assigned_new_rows.
    done.
Qed.

(** X7.  When the store carries out both statements, an admin's
    deletion of a teacher is answered [Deleted] whether or not the teacher
    existed, and afterwards the teacher has no row and no batch, while the
    rows and batches of every other teacher are as before. *)
Theorem delete_teacher_removes (id : Z) (user : option User) (w : World) :
  isAdmin user = true → store_ok 2 (faults w) = true →
  ∃ w',
    delete_teacher id user w = Ok (done_with "Deleted") w'
    ∧ teachers (db w') !! id = None
    ∧ (∀ b, (id, b) ∉ teacher_batches (db w'))
    ∧ (∀ t, t ≠ id → teachers (db w') !! t = teachers (db w) !! t)
    ∧ (∀ t b, t ≠ id → (t, b) ∈ teacher_batches (db w') ↔ (t, b) ∈ teacher_batches (db w)).
Proof.
  intros Hadm Hok. unfold delete_teacher, try_catch. rewrite Hadm. cbn [negb].
  rewrite run_bind.
  destruct (pool_query_ok (sql_delete_assignments id) 1 w Hok) as [-> Hok1].
  rewrite run_bind.
  match goal with |- context [pool_query ?q ?w1] =>
    destruct (pool_query_ok q 0 w1 Hok1) as [-> _]
  end.
  eexists. split; [reflexivity|].
  cbn [db fst snd sql_delete_assignments sql_delete_teacher set_teacher_batches set_teachers
       teacher_batches teachers].
  split; [by rewrite lookup_delete_eq|]. split; [|split].
  - intros b Hin. apply assigned_other_teachers in Hin as [Hne _]. by apply Hne.
  - intros t Hne. by rewrite lookup_delete_ne.
  - intros t b Hne. rewrite assigned_other_teachers. split; [by intros [_ ?]|by intros ?].
Qed.

(** X8.  The two statements of the deletion are not one transaction: if
    the store carries out the first and fails the second, the answer is a
    500, the teacher's batches are gone and the teacher's row is still
    there. *)
Theorem delete_teacher_is_not_atomic (id : Z) (user : option User) (w : World)
    (fs : list bool) :
  isAdmin user = true → faults w = false :: true :: fs →
  ∃ w',
    delete_teacher id user w = Ok (server_error "Server error" None) w'
    ∧ teachers (db w') = teachers (db w)
    ∧ ∀ b, (id, b) ∉ teacher_batches (db w').
Proof.
  intros Hadm Hf. unfold delete_teacher, try_catch. rewrite Hadm. cbn [negb].
  rewrite !run_bind. unfold pool_query at 1. rewrite Hf.
  cbn [sql_delete_assignments]. unfold pool_query at 1. cbn [faults].
  eexists. split; [reflexivity|].
  cbn [db set_teacher_batches teacher_batches teachers]. split; [done|].
  intros b Hin. apply assigned_other_teachers in Hin as [Hne _]. by apply Hne.
Qed.

(** ** Assignment and the attendance routes together *)

Section FurtherRouteProperties.

Variable date_parses : string → bool.

(** X9.  The attendance write of a teacher for a batch the teacher does
    not have is refused with 403; once an admin has assigned the batch,
    the same request is saved. *)
Theorem assigned_teacher_may_mark (tid batch : Z) (adm user : option User)
    (abody : AssignBody) (body : AttBody) (date : string) (records : list AttRecord)
    (w : World) :
  isAdmin adm = true → isAdmin user = false → isSelf user tid = true →
  batch ∈ batchIds_of abody →
  (tid, batch) ∉ teacher_batches (db w) →
  well_formed date_parses body date batch records →
  studentIds records ≠ [] →
  (∀ sid, sid ∈ studentIds records → in_batch (db w) batch sid) →
  faults w = [] →
  (∃ resp w0,
     post_attendance date_parses tid user body w = Ok resp w0
     ∧ status resp = 403 ∧ db w0 = db w)
  ∧ ∃ w1 w2,
      post_teacher_batches tid adm abody w = Ok (done_with "Assigned") w1
      ∧ post_attendance date_parses tid user body w1
        = Ok (saved "Saved" (length records)) w2.
Proof.
  intros Hadm Hnadm Hself Hb Hnot Hwf Hne Hval Hf.
  destruct (hd_tail_nil _ Hf) as [Hh Ht]. split.
  - rewrite (post_attendance_well_formed _ _ _ _ _ _ _ _ Hwf).
    destruct (attendance_write_forbidden tid user date batch records w Hnadm)
      as (resp & w0 & -> & Hst & Hdb);
      [by right | rewrite Hf; apply store_ok_nil | by eauto].
  - rewrite post_teacher_batches_run;
      [|done|intros E; rewrite E in Hb; by apply elem_of_nil in Hb|done].
    set (w1 := mkWorld (sql_assign_batches tid (batchIds_of abody) (db w)).2 (console w)
                 (tail (faults w))).
    destruct (post_attendance_saves date_parses tid user body date batch records w1)
      as (w2 & _ & Hrun & _); [done| |done|done| |by exists w1, w2].
    + right. split; [done|]. subst w1.
      cbn [db sql_assign_batches snd set_teacher_batches teacher_batches].
      apply assigned_union. right. apply assigned_new_rows. by exists batch.
    + subst w1. cbn [faults]. rewrite Ht. done.
Qed.

(** X10.  Once an admin has unassigned a batch from a teacher, a caller
    who is not an admin gets 403 for an attendance write on that teacher's
    path for that batch, and the write changes nothing. *)
Theorem unassigned_teacher_is_refused (tid batch : Z) (adm user : option User)
    (body : AttBody) (date : string) (records : list AttRecord) (w : World) :
  isAdmin adm = true → isAdmin user = false →
  well_formed date_parses body date batch records →
  faults w = [] →
  ∃ w1 resp w2,
    delete_teacher_batch tid batch adm w = Ok (done_with "Unassigned") w1
    ∧ post_attendance date_parses tid user body w1 = Ok resp w2
    ∧ status resp = 403 ∧ db w2 = db w1.
Proof.
  intros Hadm Hnadm Hwf Hf. destruct (hd_tail_nil _ Hf) as [Hh Ht].
  set (w1 := mkWorld (sql_unassign_batch tid batch (db w)).2 (console w) (tail (faults w))).
  destruct (attendance_write_forbidden tid user date batch records w1 Hnadm)
    as (resp & w2 & Hrun & Hst & Hdb).
  - right. subst w1. cbn [db sql_unassign_batch snd set_teacher_batches teacher_batches].
    by intros [Hin _]%assigned_delete.
  - subst w1. cbn [faults]. rewrite Ht. done.
  - exists w1, resp, w2. split; [by apply delete_teacher_batch_run|]. split; [|done].
    rewrite (post_attendance_well_formed _ _ _ _ _ _ _ _ Hwf). by rewrite Hrun.
Qed.

(** ** Reading attendance *)

(** X11.  The attendance read of routes/teachers.js never changes a table;
    it sends rows only to an admin or to the caller whose id is the path
    parameter when that teacher has the batch, and the rows are exactly
    the attendance rows of the date for the students of the batch. *)
Theorem attendance_read_is_scoped (tid : Z) (user : option User) (query : AttQuery)
    (w : World) :
  ∃ reply w',
    get_attendance date_parses tid user query w = Ok reply w' ∧ db w' = db w
    ∧ match reply with
      | inl resp => status resp ≠ 200
      | inr rows =>
          ∃ date batch,
            q_date query = Some date ∧ q_batch_id query = Some batch
            ∧ permitted (db w) user tid batch
            ∧ ∀ e, e ∈ rows
                   ↔ attendance (db w) !! (Some (e_student_id e), date)
                     = Some (e_status e, e_recorded_by e)
                     ∧ in_batch (db w) batch (e_student_id e)
      end.
Proof.
  destruct (get_attendance_outcome date_parses tid user query w)
    as (reply & w' & Hrun & Hdb & H).
  exists reply, w'. split; [done|]. split; [done|].
  destruct reply as [resp|rows]; [done|].
  destruct H as (date & batch & Hd & Hb & Hperm & ->).
  exists date, batch. split; [done|]. split; [done|]. split; [done|].
  intros e. apply elem_of_sql_attendance_of.
Qed.

(** X12.  After an attendance write was saved, the read of the same
    caller for the same date and batch, when the store answers it, holds
    for every student of the payload the row with the status of the
    student's last record and with the caller as recorder. *)
Theorem attendance_read_your_writes (tid : Z) (user : option User) (body : AttBody)
    (date : string) (batch : Z) (records : list AttRecord) (w w' : World) :
  well_formed date_parses body date batch records →
  post_attendance date_parses tid user body w = Ok (saved "Saved" (length records)) w' →
  store_ok 2 (faults w') = true →
  ∃ rows w'',
    get_attendance date_parses tid user (mkAttQuery (Some date) (Some batch)) w'
    = Ok (inr rows) w''
    ∧ ∀ sid st by_,
        sid ≠ 0 →
        att_last (Some sid, date) (attendance_values (recorder user) date records)
        = Some (st, by_) →
        by_ = recorder user ∧ mkEntry sid st by_ ∈ rows.
Proof.
  intros Hwf Hrun Hok.
  destruct (post_attendance_outcome date_parses tid user body w)
    as (resp & w0 & Hrun' & Hcase).
  rewrite Hrun in Hrun'. injection Hrun' as <- <-.
  destruct Hcase as [[_ ?]|(date' & batch' & records' & Hwf' & _ & Hxp & Hperm & Hval & _)];
    [done|].
  assert (date' = date ∧ batch' = batch ∧ records' = records) as (-> & -> & ->).
  { destruct Hwf as (Hd & _ & _ & Hb & _ & Hr & _).
    destruct Hwf' as (Hd' & _ & _ & Hb' & _ & Hr' & _).
    rewrite Hd in Hd'. rewrite Hb in Hb'. rewrite Hr in Hr'. by simplify_eq. }
  destruct Hxp as ((Htb & Hst & Hatt & _) & _).
  destruct Hwf as (_ & Hd0 & Hdv & _ & Hb0 & _ & _).
  destruct (get_attendance_run date_parses tid user date batch w') as (w'' & -> & _);
    try done.
  { destruct Hperm as [?|[? ?]]; [by left|right]. split; [done|]. by rewrite Htb. }
  eexists _, _. split; [done|]. intros sid st by_ Hsid Hlast.
  destruct (att_last_student _ _ _ _ _ Hlast Hsid) as [Hin Hby]. cbn in Hby.
  split; [done|]. apply elem_of_sql_attendance_of. cbn. split.
  - rewrite Hatt. unfold written. cbn. by rewrite upsert_all_lookup, Hlast.
  - unfold in_batch. rewrite Hst. by apply Hval.
Qed.

(** X13.  An admin's write on a teacher's path is saved whatever batches
    that teacher has; the rows carry the admin as recorder, and the award
    of the submission goes to the teacher of the path. *)
Theorem admin_write_credits_path_teacher (tid : Z) (user : option User) (body : AttBody)
    (date : string) (batch : Z) (records : list AttRecord) (w : World) :
  isAdmin user = true →
  well_formed date_parses body date batch records →
  studentIds records ≠ [] →
  (∀ sid, sid ∈ studentIds records → in_batch (db w) batch sid) →
  faults w = [] →
  ∃ w',
    post_attendance date_parses tid user body w = Ok (saved "Saved" (length records)) w'
    ∧ (∀ k v, att_last k (attendance_values (recorder user) date records) = Some v →
              attendance (db w') !! k = Some v ∧ v.2 = recorder user)
    ∧ awarded XP_ATTENDANCE tid (db w) (db w').
Proof.
  intros Hadm Hwf Hne Hval Hf.
  destruct (post_attendance_saves date_parses tid user body date batch records w)
    as (w' & w1 & Hrun & Hdb1 & Hf1 & Hdb'); try done.
  { by left. }
  { rewrite Hf. apply store_ok_nil. }
  exists w'. split; [done|]. split.
  - intros k v Hlast.
    destruct (addTeacherXP_effect tid XP_ATTENDANCE w1) as ((_ & _ & Hatt & _) & _).
    rewrite Hdb', Hatt, Hdb1. unfold written. cbn.
    rewrite upsert_all_lookup, Hlast. split; [done|].
    clear -Hlast. induction records as [|r records IH]; [done|].
    cbn [attendance_values map att_last] in Hlast.
    fold (attendance_values (recorder user) date records) in Hlast.
    destruct (att_last k (attendance_values (recorder user) date records)); [by apply IH|].
    cbn in Hlast. case_decide; [|done]. by injection Hlast as <-.
  - rewrite Hdb'. pose proof (addTeacherXP_awarded tid XP_ATTENDANCE w1 (Hf1 Hf)) as Ha.
    unfold awarded in *. rewrite Hdb1 in Ha. exact Ha.
Qed.

(** ** The attendance router (routes/attendance.js) *)

(** X14.  The teacher-scoped write of routes/attendance.js answers every
    request, under every behaviour of the store, as the one of
    routes/teachers.js does, and leaves the same attendance rows; it never
    touches the [teachers] table, so it awards no XP. *)
Theorem attendance_routes_agree (tid : Z) (user : option User) (body : AttBody)
    (w : World) :
  ∃ resp wA wB,
    post_attendance date_parses tid user body w = Ok resp wA
    ∧ post_teacher_attendance date_parses tid user body w = Ok resp wB
    ∧ attendance (db wA) = attendance (db wB)
    ∧ xp_effect tid (db wB) (db wA)
    ∧ teachers (db wB) = teachers (db w).
Proof.
  assert (Hplain : ∀ resp wB,
    post_teacher_attendance date_parses tid user body w = Ok resp wB →
    teachers (db wB) = teachers (db w)).
  { intros resp wB Hrun.
    destruct (post_teacher_attendance_outcome date_parses tid user body w)
      as (resp' & w' & Hrun' & Hcase).
    rewrite Hrun in Hrun'. injection Hrun' as <- <-.
    destruct Hcase as [[-> _]|(? & ? & ? & _ & _ & -> & _)]; done. }
  revert Hplain. unfold post_attendance, post_teacher_attendance, try_catch.
  assert (Hsame : ∀ resp : Response,
    (∀ resp' wB, Ok resp w = Ok resp' wB → teachers (db wB) = teachers (db w)) →
    ∃ resp' wA wB,
      Ok resp w = Ok resp' wA ∧ Ok resp w = Ok resp' wB
      ∧ attendance (db wA) = attendance (db wB)
      ∧ xp_effect tid (db wB) (db wA) ∧ teachers (db wB) = teachers (db w)).
  { intros resp _. exists resp, w, w. split; [done|]. split; [done|]. split; [done|].
    split; [apply xp_effect_refl|done]. }
  destruct (b_date body) as [date|]; [|apply Hsame].
  destruct (String.eqb date "" || negb (isValidDateString date_parses date));
    [apply Hsame|].
  destruct (b_batch_id body) as [batch|]; [|apply Hsame].
  destruct (batch =? 0); [apply Hsame|].
  destruct (b_records body) as [records|]; [|apply Hsame].
  destruct (length records =? 0)%nat; [apply Hsame|].
  clear Hsame.
  pose proof (attendance_write_agree tid user date batch records w) as Hag.
  destruct (attendance_write_plain tid user date batch records w) as [resp wB|e wB].
  - destruct Hag as (wA & -> & Hxp). intros H. exists resp, wA, wB.
    split; [done|]. split; [done|]. split; [by destruct Hxp as ((_&_&?&_)&_)|].
    split; [done|]. by eapply H.
  - rewrite Hag. cbn. intros H. eexists _, _, _. split; [reflexivity|].
    split; [reflexivity|]. cbn. split; [done|]. split; [apply xp_effect_refl|].
    exact (H _ _ eq_refl).
Qed.

(** X15.  The teacher-scoped read of routes/attendance.js never sends
    rows: every run is answered with a status other than 200 and changes
    no table, and a request that passes the checks of date, batch and
    permission is answered 500, because the text of the query refers to a
    constant the router does not declare. *)
Theorem attendance_router_read_never_succeeds (tid : Z) (user : option User)
    (query : AttQuery) (w : World) :
  (∃ resp w',
     get_teacher_attendance date_parses tid user query w = Ok (inl resp) w'
     ∧ status resp ≠ 200 ∧ db w' = db w)
  ∧ ∀ date batch,
      q_date query = Some date → date ≠ "" → isValidDateString date_parses date = true →
      q_batch_id query = Some batch → batch ≠ 0 →
      permitted (db w) user tid batch → store_ok 1 (faults w) = true →
      ∃ w', get_teacher_attendance date_parses tid user query w
            = Ok (inl (server_error "Server error" None)) w'.
Proof.
  split.
  - unfold get_teacher_attendance, try_catch.
    destruct (q_date query) as [date|]; [|cbn; eauto 10].
    destruct (String.eqb date "" || negb (isValidDateString date_parses date));
      [cbn; eauto 10|].
    destruct (q_batch_id query) as [batch|]; [|cbn; eauto 10].
    destruct (batch =? 0); [cbn; eauto 10|].
    destruct (isAdmin user) eqn:Hadm; cbn [negb andb].
    + cbn. eexists _, _. split; [done|]. done.
    + destruct (isSelf user tid); cbn [negb]; [|cbn; eauto 10].
      rewrite !run_bind.
      destruct (teacherHasBatch_cases tid batch w) as [[_ ->]|[_ ->]].
      { cbn. eexists _, _. split; [done|]. done. }
      cbn [ret]. destruct (negb (bool_decide _)); cbn; eexists _, _; (split; [done|]); done.
  - intros date batch Hd Hd0 Hdv Hb Hb0 Hperm Hok.
    unfold get_teacher_attendance, try_catch. rewrite Hd, Hb.
    apply String.eqb_neq in Hd0. rewrite Hd0, Hdv. cbn [negb orb].
    apply Z.eqb_neq in Hb0. rewrite Hb0.
    destruct (isAdmin user) eqn:Hadm; cbn [negb andb].
    + cbn. by eexists.
    + destruct Hperm as [?|[Hself Hin]]; [congruence|]. rewrite Hself. cbn [negb].
      rewrite !run_bind.
      destruct (teacherHasBatch_cases tid batch w) as [[E _]|[_ ->]].
      { apply store_ok_step in Hok as [Hok _]. congruence. }
      rewrite bool_decide_eq_true_2 by done. cbn. by eexists.
Qed.

End FurtherRouteProperties.

(** ** The marks routes *)

Section FurtherMarksProperties.

Variable locals_db : bool.

(** X16.  Every marks write, through the marks router's own route, its
    teacher-scoped route or the teacher-scoped route of
    routes/teachers.js, and under every behaviour of the store, writes all
    rows of the payload or none: a payload with a record that names no
    student is never answered 200 and leaves the marks table as it was,
    although the rows before that record had been inserted in the
    transaction. *)
Theorem marks_write_is_all_or_nothing (tid : Z) (user : option User) (body : MarksBody)
    (w : World) :
  all_or_nothing body w (post_marks locals_db ret body w)
  ∧ all_or_nothing (default_recorded_by tid body) w
      (post_marks_teacher locals_db tid body w)
  ∧ all_or_nothing (force_recorded_by tid body) w
      (post_teacher_marks locals_db tid user body w).
Proof.
  assert (H : ∀ res_json body0, sends_unchanged res_json →
            all_or_nothing body0 w (post_marks locals_db res_json body0 w)).
  { intros res_json body0 Hjson. unfold all_or_nothing.
    destruct (post_marks_outcome locals_db res_json body0 w Hjson)
      as (resp & w' & Hrun & Hcase).
    exists resp, w'. split; [done|].
    destruct Hcase as [?|(batch & assessment & Hb & Ha & -> & Hm)]; [by left|right].
    split; [done|]. split; [|by eauto].
    by destruct (post_marks_saved_inv locals_db res_json body0 w _ w' Hjson Hrun)
      as (_ & ? & ? & ? & _ & _ & _ & _ & ? & _). }
  split; [apply H, ret_sends_unchanged|].
  split; [apply H, ret_sends_unchanged|apply H, xp_json_sends_unchanged].
Qed.

(** X17.  Every row a write through the teacher-scoped route of
    routes/teachers.js leaves for a student of the payload carries the
    teacher of the path as recorder, whatever [recorded_by] the records of
    the request hold. *)
Theorem teacher_marks_are_signed_by_path (tid : Z) (user : option User)
    (body : MarksBody) (w w' : World) (resp : Response) :
  post_teacher_marks locals_db tid user body w = Ok resp w' → status resp = 200 →
  ∃ batch assessment records,
    mb_batch_id body = Some batch ∧ or_null (mb_assessment body) = Some assessment
    ∧ mb_records body = Some records
    ∧ ∀ r sid, r ∈ records → mr_student_id r = Some sid →
        ∃ v, marks (db w') !! (sid, batch, assessment) = Some v
             ∧ v_recorded_by v = Some tid.
Proof.
  intros Hrun Hst.
  destruct (post_marks_saved_inv locals_db (xp_json tid) (force_recorded_by tid body) w
              resp w' (xp_json_sends_unchanged tid) Hrun Hst)
    as (_ & batch & assessment & w1 & Hb & _ & Ha & Hne & Hall & Htx & Hjson).
  pose proof (marks_transaction_written _ _ _ _ _ _ Htx Hst) as Hdb1.
  destruct (xp_json_sends_unchanged tid resp w1) as (w2 & E & Hm).
  rewrite Hjson in E. injection E as <-.
  exists batch, assessment. cbn in Hb, Ha.
  destruct (mb_records body) as [records|] eqn:Hrec;
    [|exfalso; apply Hne; cbn; by rewrite Hrec].
  exists records. split; [done|]. split; [done|]. split; [done|].
  intros r sid Hin Hsid.
  set (f := fun r => mkMarksRecord (mr_student_id r) (mr_subject r) (mr_marks r)
                       (mr_semester r) (Some tid)).
  assert (Hp : p_records (buildPayload (force_recorded_by tid body)) = map f records)
    by (cbn; by rewrite Hrec).
  destruct (marks_written_lookup batch assessment
              (buildPayload (force_recorded_by tid body)) (db w) (f r) sid)
    as (r' & Hin' & _ & _ & Hlook).
  { rewrite Hp. apply list_elem_of_fmap. by exists r. }
  { done. }
  { apply (has_student_elem_of _ (f r) sid Hall); [|done]. rewrite Hp.
    apply list_elem_of_fmap. by exists r. }
  eexists. rewrite Hm, Hdb1. split; [exact Hlook|]. cbn.
  rewrite Hp in Hin'. by apply list_elem_of_fmap in Hin' as (r0 & -> & _).
Qed.

(** X18.  The teacher-scoped route of routes/marks.js fills in the teacher
    of the path only where a record has no [recorded_by]: for a payload
    that names each student once, the row of a student carries the
    recorder the client gave for it, if it gave one. *)
Theorem marks_router_keeps_given_recorder (tid : Z) (body : MarksBody) (w w' : World)
    (resp : Response) :
  post_marks_teacher locals_db tid body w = Ok resp w' → status resp = 200 →
  ∃ batch assessment records,
    mb_batch_id body = Some batch ∧ or_null (mb_assessment body) = Some assessment
    ∧ mb_records body = Some records
    ∧ (NoDup (mr_student_id <$> records) →
       ∀ r sid, r ∈ records → mr_student_id r = Some sid →
         ∃ v, marks (db w') !! (sid, batch, assessment) = Some v
              ∧ v_recorded_by v = Some (default tid (mr_recorded_by r))).
Proof.
  intros Hrun Hst. unfold post_marks_teacher in Hrun.
  destruct (post_marks_saved_inv locals_db ret (default_recorded_by tid body) w
              resp w' ret_sends_unchanged Hrun Hst)
    as (_ & batch & assessment & w1 & Hb & _ & Ha & Hne & Hall & Htx & Hjson).
  pose proof (marks_transaction_written _ _ _ _ _ _ Htx Hst) as Hdb1.
  injection Hjson as <-.
  exists batch, assessment. cbn in Hb, Ha.
  destruct (mb_records body) as [records|] eqn:Hrec;
    [|exfalso; apply Hne; cbn; by rewrite Hrec].
  exists records. split; [done|]. split; [done|]. split; [done|].
  intros Hnd r sid Hin Hsid.
  set (f := fun r => mkMarksRecord (mr_student_id r) (mr_subject r) (mr_marks r)
                       (mr_semester r)
                       (match mr_recorded_by r with
                        | Some by_ => Some by_
                        | None => Some tid
                        end)).
  assert (Hp : p_records (buildPayload (default_recorded_by tid body)) = map f records)
    by (cbn; by rewrite Hrec).
  destruct (marks_written_lookup batch assessment
              (buildPayload (default_recorded_by tid body)) (db w) (f r) sid)
    as (r' & Hin' & Hsid' & _ & Hlook).
  { rewrite Hp. apply list_elem_of_fmap. by exists r. }
  { done. }
  { apply (has_student_elem_of _ (f r) sid Hall); [|done]. rewrite Hp.
    apply list_elem_of_fmap. by exists r. }
  eexists. rewrite Hdb1. split; [exact Hlook|]. cbn.
  rewrite Hp in Hin'. apply list_elem_of_fmap in Hin' as (r0 & -> & Hin0).
  cbn in Hsid'.
  assert (r0 = r) as ->.
  { eapply (NoDup_fmap_elem_inj mr_student_id); [exact Hnd|done|done|congruence]. }
  cbn. by destruct (mr_recorded_by r).
Qed.

(** X19.  A second write for a key of the marks table replaces the marks
    and the maximum but not the exam date: after two saved submissions
    for the same batch and assessment that both name student [sid], who
    had no row before, the row holds the date of the first submission and
    the marks of the second. *)
Theorem marks_resubmission_keeps_exam_date (body1 body2 : MarksBody) (w w1 w2 : World)
    (resp1 resp2 : Response) (batch : Z) (assessment : string) (sid : Z)
    (r1 r2 : MarksRecord) :
  let p1 := buildPayload body1 in
  let p2 := buildPayload body2 in
  post_marks locals_db ret body1 w = Ok resp1 w1 → status resp1 = 200 →
  post_marks locals_db ret body2 w1 = Ok resp2 w2 → status resp2 = 200 →
  p_batch_id p1 = Some batch → p_assessment p1 = Some assessment →
  p_batch_id p2 = Some batch → p_assessment p2 = Some assessment →
  r1 ∈ p_records p1 → mr_student_id r1 = Some sid →
  r2 ∈ p_records p2 → mr_student_id r2 = Some sid →
  marks (db w) !! (sid, batch, assessment) = None →
  ∃ v r,
    marks (db w2) !! (sid, batch, assessment) = Some v
    ∧ v_exam_date v = p_date p1
    ∧ r ∈ p_records p2 ∧ mr_student_id r = Some sid
    ∧ v_marks v = mr_marks r ∧ v_max_marks v = p_max_marks p2.
Proof.
  intros p1 p2 Hrun1 Hst1 Hrun2 Hst2 Hb1 Ha1 Hb2 Ha2 Hin1 Hsid1 Hin2 Hsid2 Hnone.
  destruct (post_marks_saved_inv locals_db ret body1 w resp1 w1 ret_sends_unchanged
              Hrun1 Hst1)
    as (_ & b1 & a1 & wt1 & Hb1' & _ & Ha1' & _ & Hall1 & Htx1 & Hj1).
  destruct (post_marks_saved_inv locals_db ret body2 w1 resp2 w2 ret_sends_unchanged
              Hrun2 Hst2)
    as (_ & b2 & a2 & wt2 & Hb2' & _ & Ha2' & _ & Hall2 & Htx2 & Hj2).
  fold p1 in Hb1', Ha1', Hall1, Htx1. fold p2 in Hb2', Ha2', Hall2, Htx2.
  assert (b1 = batch ∧ a1 = assessment ∧ b2 = batch ∧ a2 = assessment)
    as (-> & -> & -> & ->) by (repeat split; congruence).
  injection Hj1 as ->. injection Hj2 as ->.
  pose proof (marks_transaction_written _ _ _ _ _ _ Htx1 Hst1) as Hdb1.
  pose proof (marks_transaction_written _ _ _ _ _ _ Htx2 Hst2) as Hdb2.
  destruct (marks_written_lookup batch assessment p1 (db w) r1 sid)
    as (r1' & _ & _ & _ & Hlook1); [done|done|by eapply has_student_elem_of|].
  destruct (marks_written_lookup batch assessment p2
              (marks_written batch assessment p1 (db w)) r2 sid)
    as (r2' & Hin2' & Hsid2' & _ & Hlook2); [done|done|by eapply has_student_elem_of|].
  rewrite Hnone in Hlook1. rewrite Hlook1 in Hlook2. cbn [v_exam_date] in Hlook2.
  eexists _, r2'. rewrite Hdb2, Hdb1. split; [exact Hlook2|]. done.
Qed.

(** X20.  Submitting the marks that were just saved once more, with the
    store answering, leaves the marks table as it is and awards the
    teacher of the path the marks XP a second time. *)
Theorem marks_resubmission_pays_again (tid : Z) (user : option User) (body : MarksBody)
    (w w1 : World) (resp : Response) :
  post_teacher_marks locals_db tid user body w = Ok resp w1 → status resp = 200 →
  faults w1 = [] →
  ∃ w2,
    post_teacher_marks locals_db tid user body w1 = Ok resp w2
    ∧ marks (db w2) = marks (db w1)
    ∧ awarded XP_MARKS tid (db w1) (db w2).
Proof.
  intros Hrun Hst Hf.
  set (p := buildPayload (force_recorded_by tid body)).
  destruct (post_marks_saved_inv locals_db (xp_json tid) (force_recorded_by tid body) w
              resp w1 (xp_json_sends_unchanged tid) Hrun Hst)
    as (Hl & batch & assessment & wt & Hb & Hb0 & Ha & Hne & Hall & Htx & Hjson).
  fold p in Hb, Ha, Hne, Hall, Htx.
  pose proof (marks_transaction_written _ _ _ _ _ _ Htx Hst) as Hdbt.
  assert (Hresp : resp = saved "Marks saved" (length (p_records p))).
  { destruct (marks_transaction_outcome batch assessment p w)
      as (resp' & w' & Hrun' & Hcase).
    rewrite Htx in Hrun'. injection Hrun' as <- <-.
    destruct Hcase as [[[? _] _]|(? & _)]; done. }
  destruct (xp_json_sends_unchanged tid resp wt) as (w' & E & Hm).
  rewrite Hjson in E. injection E as <-.
  destruct (post_teacher_marks_up locals_db tid user body batch assessment w1)
    as (wx & Hfx & Hdbx & Hrun2); try done.
  fold p in Hdbx, Hrun2.
  eexists. split; [by rewrite Hresp|].
  destruct (addTeacherXP_effect tid XP_MARKS wx) as ((_ & _ & _ & Hmx) & _).
  split.
  - rewrite Hmx, Hdbx.
    assert (Hdep : ∀ d d', marks d = marks d' →
              marks (marks_written batch assessment p d)
              = marks (marks_written batch assessment p d')).
    { intros d d' E. unfold marks_written. cbn. by rewrite E. }
    rewrite (Hdep (db w1) (marks_written batch assessment p (db w)))
      by (by rewrite Hm, Hdbt).
    rewrite marks_written_idempotent. by rewrite Hm, Hdbt.
  - pose proof (addTeacherXP_awarded tid XP_MARKS wx Hfx) as Haw.
    unfold awarded in *. rewrite Hdbx in Haw. exact Haw.
Qed.

End FurtherMarksProperties.

(** ** Forwarding to the marks router *)

(** X21.  The URL under which [GET /api/teachers/:tid/marks] hands the
    request to the marks router is the router's teacher-scoped path
    followed by the query string of the request, from its first [?] on,
    character by character; without a [?] nothing follows. *)
Theorem forwarded_url_keeps_query (tid path query : string) :
  includes "?" path = false →
  forward_marks_url tid path = "/teachers/" ++ tid ++ "/marks"
  ∧ forward_marks_url tid (path ++ String "?" query)
    = "/teachers/" ++ tid ++ "/marks" ++ String "?" query.
Proof.
  intros Hp. unfold forward_marks_url. split.
  - rewrite Hp. done.
  - rewrite includes_app, indexOf_app, slice_app by done. done.
Qed.

(** ** The two ways to assign a batch *)

(** X22.  For an admin, assigning teacher [t] to batch [b] through
    routes/batches.js and assigning batch [b] to teacher [t] through
    routes/teachers.js are answered alike, whatever the store does, and
    leave the same pairs assigned; both keep a row the table has and
    touch no other table.  They differ in the row they add:
    routes/batches.js records the acting admin in [assigned_by],
    routes/teachers.js names no [assigned_by].  The two unassignments
    are answered alike and leave the same store. *)
Theorem assignment_routes_differ_by_assigner (t b : Z) (u : User) (w : World) :
  u_role u = admin → t ≠ 0 → b ≠ 0 →
  let by_batch := post_batch_assign_teacher b u (mkAssignTeacherBody (Some t)) w in
  let by_teacher := post_teacher_batches t (Some u) (mkAssignBody (Some [Some b])) w in
  let rows := teacher_batches (db w) in
  let rows_b := teacher_batches (db (world_of by_batch)) in
  let rows_t := teacher_batches (db (world_of by_teacher)) in
  answer by_batch = answer by_teacher
  ∧ (answer by_batch = Some (done_with "Assigned") → (t, b) ∈ rows_b)
  ∧ (∀ k, k ∈ rows_b ↔ k ∈ rows_t)
  ∧ (∀ k, k ∈ rows → rows_b !! k = rows !! k ∧ rows_t !! k = rows !! k)
  ∧ (∀ k, k ∉ rows → k ∈ rows_b →
          k = (t, b) ∧ rows_b !! k = Some (Some (u_id u)) ∧ rows_t !! k = Some None)
  ∧ other_tables_kept (db w) (db (world_of by_batch))
  ∧ other_tables_kept (db w) (db (world_of by_teacher))
  ∧ answer (delete_batch_teacher b t u w) = answer (delete_teacher_batch t b (Some u) w)
  ∧ db (world_of (delete_batch_teacher b t u w))
    = db (world_of (delete_teacher_batch t b (Some u) w)).
Proof.
  intros Hadm Ht Hb. cbv zeta.
  unfold post_batch_assign_teacher, post_teacher_batches, delete_batch_teacher,
    delete_teacher_batch, try_catch, isAdmin.
  rewrite Hadm. cbn [negb at_teacher_id u_role].
  apply Z.eqb_neq in Ht. rewrite Ht.
  assert (Hids : batchIds_of (mkAssignBody (Some [Some b])) = [b]).
  { cbn. apply Z.eqb_neq in Hb. by rewrite Hb. }
  rewrite Hids. cbn [length Nat.eqb]. rewrite !run_bind.
  destruct (pool_query_cases (sql_unassign_batch t b) w) as [[_ ->]|[_ ->]];
  (destruct (pool_query_cases (sql_assign_teacher t b (u_id u)) w) as [[Hh ->]|[Hh ->]];
   destruct (pool_query_cases (sql_assign_batches t [b]) w) as [[Hh' ->]|[Hh' ->]];
   try (rewrite Hh in Hh'; discriminate Hh'));
  cbn [answer world_of db bind ret print sql_assign_teacher sql_assign_batches snd fst
       set_teacher_batches teacher_batches teachers students attendance marks
       fmap list_fmap list_to_map foldr uncurry];
  (split; [done|]);
  (split; [first [by intros [=] | intros _; apply assigned_union; right;
                                  by apply assigned_singleton]|]);
  try (split; [done|]; split; [done|]; split; [by intros k H1 H2|]; done).
  all: rewrite insert_empty.
  all: split;
    [intros k; rewrite !assigned_union, !assigned_singleton; done|].
  all: split;
    [intros k [by_ Hk]; rewrite !(lookup_union_Some_l _ _ _ _ Hk); by rewrite Hk|].
  all: split; [|done].
  all: intros k Hnot [Hin|Hin]%assigned_union; [done|].
  all: apply assigned_singleton in Hin as ->.
  all: apply eq_None_not_Some in Hnot.
  all: rewrite !lookup_union_r by done; by rewrite !lookup_singleton_eq.
Qed.

(** ** Reading marks *)

(** X23.  In both marks reads of routes/marks.js the text of the [SELECT]
    has exactly one [?] for each value handed to the driver; the
    teacher-scoped read binds the teacher of the path first; and the text
    depends on the request only through which members of the query are
    present and the form of the date, so no value of the request is ever
    part of it. *)
Theorem marks_reads_bind_every_placeholder {JsNumber : Type}
    (to_number : string → JsNumber) (tid : JsNumber) (q q' : MarksQuery) :
  let all := marks_filters to_number q ([], []) in
  let own := marks_filters to_number q (["m.recorded_by = ?"], [PNumber tid]) in
  placeholders (marks_select (where_clause all.1)) = length all.2
  ∧ placeholders (marks_select (where_clause own.1)) = length own.2
  ∧ head own.2 = Some (PNumber tid)
  ∧ (query_shape q' = query_shape q →
     (marks_filters to_number q' ([], [])).1 = all.1
     ∧ (marks_filters to_number q' (["m.recorded_by = ?"], [PNumber tid])).1 = own.1).
Proof.
  assert (Hbound : ∀ acc : list string * list (Param JsNumber),
            bound acc → bound (marks_filters to_number q acc)).
  { intros acc Hacc. unfold marks_filters.
    repeat apply push_if_bound; try done. apply placeholders_date_condition. }
  assert (Hcount : ∀ acc : list string * list (Param JsNumber),
            bound acc →
            placeholders (marks_select (where_clause (marks_filters to_number q acc).1))
            = length (marks_filters to_number q acc).2).
  { intros acc Hacc. destruct (Hbound acc Hacc) as [Hall Hlen].
    by rewrite placeholders_marks_select, placeholders_where_clause. }
  cbv zeta. split; [apply Hcount; by split|]. split.
  { apply Hcount. split; [by repeat constructor|done]. }
  split. { unfold marks_filters. by repeat apply push_if_head. }
  intros Hshape. unfold query_shape in Hshape.
  injection Hshape as Hb Hs Ha Hd.
  assert (Hdate : truthy_string (mq_date q) = true →
            date_condition (default "" (mq_date q'))
            = date_condition (default "" (mq_date q))).
  { intros Ht. rewrite Ht in Hd. destruct (mq_date q) as [d|]; [|done].
    destruct (truthy_string (mq_date q')); [|done].
    destruct (mq_date q') as [d'|]; [|done].
    cbn in Hd. injection Hd as Hd1 Hd2. cbn. unfold date_condition.
    by rewrite Hd1, Hd2. }
  assert (Hdt : truthy_string (mq_date q') = truthy_string (mq_date q)).
  { destruct (mq_date q') as [d'|], (mq_date q) as [d|]; cbn in *; try done.
    - by destruct (negb (String.eqb d' "")), (negb (String.eqb d "")).
    - by destruct (negb (String.eqb d' "")).
    - by destruct (negb (String.eqb d "")). }
  assert (Hsame : ∀ acc : list string * list (Param JsNumber),
            (marks_filters to_number q' acc).1 = (marks_filters to_number q acc).1).
  { intros acc. unfold marks_filters. rewrite !push_if_fst, Hb, Hs, Ha, Hdt.
    destruct (truthy_string (mq_date q)); [|done]. by rewrite Hdate. }
  split; apply Hsame.
Qed.

(** ** What a request may change *)

Section StoreInvariants.

Variable date_parses : string → bool.
Variable locals_db : bool.

(** X24.  The batch assignments change only through an admin's call of an
    administration route.  Whatever the store does, a caller who is not
    an admin leaves them as they are on the routes that assign, unassign
    and delete, of routes/teachers.js and of routes/batches.js, and no
    caller at all changes them through the attendance and marks routes. *)
Theorem assignments_change_only_by_admin (id batch : Z) (user : option User) (u : User)
    (abody : AssignBody) (tbody : AssignTeacherBody) (body : AttBody) (query : AttQuery)
    (mbody : MarksBody) (w : World) :
  (isAdmin user = false →
   keeps_assignments w (post_teacher_batches id user abody w)
   ∧ keeps_assignments w (delete_teacher_batch id batch user w)
   ∧ keeps_assignments w (delete_teacher id user w))
  ∧ (u_role u ≠ admin →
     keeps_assignments w (post_batch_assign_teacher batch u tbody w)
     ∧ keeps_assignments w (delete_batch_teacher batch id u w))
  ∧ keeps_assignments w (post_attendance date_parses id user body w)
  ∧ keeps_assignments w (post_teacher_attendance date_parses id user body w)
  ∧ keeps_assignments w (get_attendance date_parses id user query w)
  ∧ keeps_assignments w (post_teacher_marks locals_db id user mbody w)
  ∧ keeps_assignments w (post_marks locals_db ret mbody w).
Proof.
  unfold keeps_assignments. split.
  { intros Hadm.
    unfold post_teacher_batches, delete_teacher_batch, delete_teacher, try_catch.
    by rewrite Hadm. }
  split.
  { intros Hu. unfold post_batch_assign_teacher, delete_batch_teacher.
    by destruct (u_role u). }
  split.
  { destruct (post_attendance_outcome date_parses id user body w)
      as (resp & w' & -> & [[Hdb _]|(? & ? & ? & _ & _ & Hxp & _)]); cbn [world_of];
      [by rewrite Hdb|].
    by destruct Hxp as ((-> & _) & _). }
  split.
  { destruct (post_teacher_attendance_outcome date_parses id user body w)
      as (resp & w' & -> & [[Hdb _]|(? & ? & ? & _ & _ & Hdb & _)]); cbn [world_of];
      by rewrite Hdb. }
  split.
  { destruct (get_attendance_outcome date_parses id user query w)
      as (reply & w' & -> & Hdb & _). cbn [world_of]. by rewrite Hdb. }
  split.
  { destruct (post_teacher_marks_outcome locals_db id user mbody w)
      as (resp & w' & -> & [[_ Hdb]|(? & ? & w1 & _ & _ & _ & Hdb1 & _ & Hdb)]);
      cbn [world_of]; [by rewrite Hdb|].
    rewrite Hdb.
    destruct (addTeacherXP_effect id XP_MARKS w1) as ((-> & _) & _). by rewrite Hdb1. }
  unfold post_marks.
  destruct (negb locals_db); [done|].
  destruct (p_batch_id (buildPayload mbody)) as [b|]; [|done].
  destruct (p_assessment (buildPayload mbody)) as [a|]; [|done].
  destruct (b =? 0); [done|].
  destruct (length (p_records (buildPayload mbody)) =? 0)%nat; [done|].
  rewrite run_bind.
  destruct (marks_transaction_outcome b a (buildPayload mbody) w)
    as (resp & w1 & -> & [[_ Hdb]|(_ & Hdb & _)]); cbn [ret world_of]; by rewrite Hdb.
Qed.

(** X25.  A write that is not answered 200 changes no table: on the two
    teacher-scoped attendance routes and the two marks routes a refused or
    failed request, whatever the store does, leaves no row behind and
    awards no XP. *)
Theorem refused_write_changes_nothing (tid : Z) (user : option User) (body : AttBody)
    (mbody : MarksBody) (w : World) :
  let unchanged (run : Res Response) :=
    ∃ resp w', run = Ok resp w' ∧ (status resp ≠ 200 → db w' = db w) in
  unchanged (post_attendance date_parses tid user body w)
  ∧ unchanged (post_teacher_attendance date_parses tid user body w)
  ∧ unchanged (post_teacher_marks locals_db tid user mbody w)
  ∧ unchanged (post_marks locals_db ret mbody w).
Proof.
  cbv zeta. split.
  { destruct (post_attendance_outcome date_parses tid user body w)
      as (resp & w' & -> & [[Hdb _]|(? & ? & ? & _ & -> & _)]);
      eexists _, _; (split; [done|]); done. }
  split.
  { destruct (post_teacher_attendance_outcome date_parses tid user body w)
      as (resp & w' & -> & [[Hdb _]|(? & ? & ? & _ & -> & _)]);
      eexists _, _; (split; [done|]); done. }
  split.
  { destruct (post_teacher_marks_outcome locals_db tid user mbody w)
      as (resp & w' & -> & [[_ Hdb]|(? & ? & ? & _ & _ & -> & _)]);
      eexists _, _; (split; [done|]); done. }
  unfold post_marks.
  destruct (negb locals_db); [by eexists _, _|].
  destruct (p_batch_id (buildPayload mbody)) as [b|]; [|by eexists _, _].
  destruct (p_assessment (buildPayload mbody)) as [a|]; [|by eexists _, _].
  destruct (b =? 0); [by eexists _, _|].
  destruct (length (p_records (buildPayload mbody)) =? 0)%nat; [by eexists _, _|].
  rewrite run_bind.
  destruct (marks_transaction_outcome b a (buildPayload mbody) w)
    as (resp & w1 & -> & [[_ Hdb]|(-> & _)]); eexists _, _; (split; [done|]); done.
Qed.

End StoreInvariants.

(** * The further properties at the example data *)

Lemma award_is_additive_witness :
  db (world_of (addTeacherXP 1 15 (world_of (addTeacherXP 1 240 campus_up))))
  = db (world_of (addTeacherXP 1 (240 + 15) campus_up)).
Proof. apply award_is_additive; [reflexivity|lia]. Defined.

Lemma interrupted_award_is_caught_up_witness :
  let w := mkWorld campus [] [false; false; true] in
  let w1 := world_of (addTeacherXP 1 700 w) in
  teachers (db w1) !! 1 = Some (mkTeacher 700 1 250)
  ∧ db (world_of (addTeacherXP 1 0 (mkWorld (db w1) (console w1) [])))
    = db (world_of (addTeacherXP 1 (700 + 0) (mkWorld (db w) (console w) []))).
Proof.
  intros w w1. split; [reflexivity|].
  apply (interrupted_award_is_caught_up w 1 700 0 (mkTeacher 0 1 250));
    [reflexivity|reflexivity|lia].
Defined.

Lemma award_never_lowers_witness :
  ∃ r', teachers (db (world_of (addTeacherXP 1 700 campus_xp_down))) !! 1 = Some r'
        ∧ 1 <= level r' ∧ 250 <= next_xp_target r'
        ∧ (0 <= 700 → 0 <= 0 → 0 <= xp r').
Proof. apply (award_never_lowers campus_xp_down 1 700 (mkTeacher 0 1 250)). reflexivity. Defined.

Lemma assign_then_unassign_restores_witness :
  ∃ w1 w2,
    post_teacher_batches 2 admin9 (mkAssignBody (Some [Some 7])) campus_up
    = Ok (done_with "Assigned") w1
    ∧ (2, 7) ∈ teacher_batches (db w1)
    ∧ delete_teacher_batch 2 7 admin9 w1 = Ok (done_with "Unassigned") w2
    ∧ db w2 = db campus_up.
Proof.
  apply (assign_then_unassign_restores 2 7 admin9 campus_up);
    [reflexivity | lia | | reflexivity].
  vm_compute. by intros [? ?].
Defined.

Lemma delete_teacher_removes_witness :
  ∃ w',
    delete_teacher 1 admin9 campus_up = Ok (done_with "Deleted") w'
    ∧ teachers (db w') !! 1 = None
    ∧ (∀ b, (1, b) ∉ teacher_batches (db w'))
    ∧ (∀ t, t ≠ 1 → teachers (db w') !! t = teachers (db campus_up) !! t)
    ∧ (∀ t b, t ≠ 1 →
         (t, b) ∈ teacher_batches (db w') ↔ (t, b) ∈ teacher_batches (db campus_up)).
Proof. apply (delete_teacher_removes 1 admin9 campus_up); reflexivity. Defined.

Lemma delete_teacher_is_not_atomic_witness :
  ∃ w',
    delete_teacher 1 admin9 campus_half_down = Ok (server_error "Server error" None) w'
    ∧ teachers (db w') = teachers (db campus_half_down)
    ∧ ∀ b, (1, b) ∉ teacher_batches (db w').
Proof. apply (delete_teacher_is_not_atomic 1 admin9 campus_half_down []); reflexivity. Defined.

Lemma assigned_teacher_may_mark_witness :
  (∃ resp w0,
     post_attendance calendar_date 1 teacher1 roll_call campus_unassigned = Ok resp w0
     ∧ status resp = 403 ∧ db w0 = db campus_unassigned)
  ∧ ∃ w1 w2,
      post_teacher_batches 1 admin9 assign_7_8 campus_unassigned
      = Ok (done_with "Assigned") w1
      ∧ post_attendance calendar_date 1 teacher1 roll_call w1 = Ok (saved "Saved" 2) w2.
Proof.
  apply (assigned_teacher_may_mark calendar_date 1 7 admin9 teacher1 assign_7_8 roll_call
           "2024-01-15" [mkAttRecord (Some 100) "Present"; mkAttRecord (Some 101) "late"]
           campus_unassigned);
    [reflexivity | reflexivity | reflexivity | | | exact roll_call_well_formed
    | discriminate | students_in_batch | reflexivity].
  - vm_compute. apply elem_of_cons. by left.
  - vm_compute. by intros [? ?].
Defined.

Lemma unassigned_teacher_is_refused_witness :
  ∃ w1 resp w2,
    delete_teacher_batch 1 7 admin9 campus_up = Ok (done_with "Unassigned") w1
    ∧ post_attendance calendar_date 1 teacher1 roll_call w1 = Ok resp w2
    ∧ status resp = 403 ∧ db w2 = db w1.
Proof.
  apply (unassigned_teacher_is_refused calendar_date 1 7 admin9 teacher1 roll_call
           "2024-01-15" [mkAttRecord (Some 100) "Present"; mkAttRecord (Some 101) "late"]
           campus_up);
    [reflexivity | reflexivity | exact roll_call_well_formed | reflexivity].
Defined.

Lemma attendance_read_your_writes_witness :
  let w' := world_of (post_attendance calendar_date 1 teacher1 roll_call campus_up) in
  ∃ rows w'',
    get_attendance calendar_date 1 teacher1 (mkAttQuery (Some "2024-01-15") (Some 7)) w'
    = Ok (inr rows) w''
    ∧ mkEntry 100 Present (Some 1) ∈ rows ∧ mkEntry 101 Absent (Some 1) ∈ rows.
Proof.
  intros w'.
  destruct (attendance_read_your_writes calendar_date 1 teacher1 roll_call "2024-01-15" 7
              [mkAttRecord (Some 100) "Present"; mkAttRecord (Some 101) "late"]
              campus_up w' roll_call_well_formed)
    as (rows & w'' & Hrun & H); [reflexivity | reflexivity |].
  exists rows, w''. split; [exact Hrun|]. split.
  - apply (H 100 Present (Some 1)); [lia|vm_compute; reflexivity].
  - apply (H 101 Absent (Some 1)); [lia|vm_compute; reflexivity].
Defined.

Lemma admin_write_credits_path_teacher_witness :
  ∃ w',
    post_attendance calendar_date 1 admin9 roll_call campus_unassigned
    = Ok (saved "Saved" 2) w'
    ∧ attendance (db w') !! (Some 100, "2024-01-15") = Some (Present, Some 9)
    ∧ awarded XP_ATTENDANCE 1 (db campus_unassigned) (db w').
Proof.
  destruct (admin_write_credits_path_teacher calendar_date 1 admin9 roll_call "2024-01-15"
              7 [mkAttRecord (Some 100) "Present"; mkAttRecord (Some 101) "late"]
              campus_unassigned)
    as (w' & Hrun & Hrows & Haw);
    [reflexivity | exact roll_call_well_formed | discriminate | students_in_batch
    | reflexivity |].
  exists w'. split; [exact Hrun|]. split; [|exact Haw].
  apply (Hrows (Some 100, "2024-01-15") (Present, Some 9)). reflexivity.
Defined.

Lemma attendance_router_read_never_succeeds_witness :
  ∃ w',
    get_teacher_attendance calendar_date 1 teacher1
      (mkAttQuery (Some "2024-01-15") (Some 7)) campus_up
    = Ok (inl (server_error "Server error" None)) w'.
Proof.
  apply (proj2 (attendance_router_read_never_succeeds calendar_date 1 teacher1
                  (mkAttQuery (Some "2024-01-15") (Some 7)) campus_up)
           "2024-01-15" 7);
    [reflexivity | discriminate | reflexivity | reflexivity | discriminate | | reflexivity].
  right. split; [reflexivity|]. vm_compute. by eexists.
Defined.

Lemma teacher_marks_are_signed_by_path_witness :
  let w' := world_of (post_teacher_marks true 1 teacher1 midterm_signed campus_up) in
  ∃ v, marks (db w') !! (100, 7, "Midterm") = Some v ∧ v_recorded_by v = Some 1.
Proof.
  intros w'.
  destruct (teacher_marks_are_signed_by_path true 1 teacher1 midterm_signed campus_up w'
              (saved "Marks saved" 2))
    as (batch & assessment & records & Hb & Ha & Hr & H); [reflexivity | reflexivity |].
  injection Hb as <-. injection Ha as <-. injection Hr as <-.
  apply (H (mkMarksRecord (Some 100) None (Some 55) None (Some 2)) 100); [|reflexivity].
  apply elem_of_cons. by left.
Defined.

Lemma marks_router_keeps_given_recorder_witness :
  let w' := world_of (post_marks_teacher true 1 midterm_signed campus_up) in
  (∃ v, marks (db w') !! (100, 7, "Midterm") = Some v ∧ v_recorded_by v = Some 2)
  ∧ (∃ v, marks (db w') !! (101, 7, "Midterm") = Some v ∧ v_recorded_by v = Some 1).
Proof.
  intros w'.
  destruct (marks_router_keeps_given_recorder true 1 midterm_signed campus_up w'
              (saved "Marks saved" 2))
    as (batch & assessment & records & Hb & Ha & Hr & H); [reflexivity | reflexivity |].
  injection Hb as <-. injection Ha as <-. injection Hr as <-.
  assert (Hnd : NoDup (mr_student_id <$>
                         [mkMarksRecord (Some 100) None (Some 55) None (Some 2);
                          mkMarksRecord (Some 101) None (Some 66) None None])).
  { cbn. apply NoDup_cons. split; [|apply NoDup_singleton].
    intros Hin. apply list_elem_of_singleton in Hin. discriminate Hin. }
  split.
  - apply (H Hnd (mkMarksRecord (Some 100) None (Some 55) None (Some 2)) 100);
      [apply elem_of_cons; by left|reflexivity].
  - apply (H Hnd (mkMarksRecord (Some 101) None (Some 66) None None) 101);
      [apply elem_of_cons; right; apply elem_of_cons; by left|reflexivity].
Defined.

Lemma marks_resubmission_keeps_exam_date_witness :
  let w1 := world_of (post_marks true ret midterm campus_up) in
  let w2 := world_of (post_marks true ret midterm_regraded w1) in
  ∃ v r,
    marks (db w2) !! (100, 7, "Midterm") = Some v
    ∧ v_exam_date v = Some "2024-01-15"
    ∧ r ∈ p_records (buildPayload midterm_regraded) ∧ mr_student_id r = Some 100
    ∧ v_marks v = mr_marks r ∧ v_max_marks v = Some 50.
Proof.
  intros w1 w2.
  apply (marks_resubmission_keeps_exam_date true midterm midterm_regraded campus_up w1 w2
           (saved "Marks saved" 2) (saved "Marks saved" 1) 7 "Midterm" 100
           (mkMarksRecord (Some 100) None (Some 55) None None)
           (mkMarksRecord (Some 100) None (Some 40) None None));
    try reflexivity; apply elem_of_cons; by left.
Defined.

Lemma marks_resubmission_pays_again_witness :
  let w1 := world_of (post_teacher_marks true 1 teacher1 midterm campus_up) in
  ∃ w2,
    post_teacher_marks true 1 teacher1 midterm w1 = Ok (saved "Marks saved" 2) w2
    ∧ marks (db w2) = marks (db w1)
    ∧ awarded XP_MARKS 1 (db w1) (db w2).
Proof.
  intros w1.
  apply (marks_resubmission_pays_again true 1 teacher1 midterm campus_up w1
           (saved "Marks saved" 2)); reflexivity.
Defined.

Lemma forwarded_url_keeps_query_witness :
  forward_marks_url "12" "/12/marks" = "/teachers/12/marks"
  ∧ forward_marks_url "12" ("/12/marks" ++ String "?" "batch_id=7&assessment=Quiz?")
    = "/teachers/12/marks" ++ String "?" "batch_id=7&assessment=Quiz?".
Proof. apply (forwarded_url_keeps_query "12" "/12/marks"). reflexivity. Defined.

Lemma assignment_routes_differ_by_assigner_witness :
  let by_batch := post_batch_assign_teacher 7 (mkUser 9 admin) (mkAssignTeacherBody (Some 2))
                    campus_up in
  let by_teacher := post_teacher_batches 2 admin9 (mkAssignBody (Some [Some 7])) campus_up in
  let rows := teacher_batches (db campus_up) in
  let rows_b := teacher_batches (db (world_of by_batch)) in
  let rows_t := teacher_batches (db (world_of by_teacher)) in
  answer by_batch = answer by_teacher
  ∧ (answer by_batch = Some (done_with "Assigned") → (2, 7) ∈ rows_b)
  ∧ (∀ k, k ∈ rows_b ↔ k ∈ rows_t)
  ∧ (∀ k, k ∈ rows → rows_b !! k = rows !! k ∧ rows_t !! k = rows !! k)
  ∧ (∀ k, k ∉ rows → k ∈ rows_b →
          k = (2, 7) ∧ rows_b !! k = Some (Some 9) ∧ rows_t !! k = Some None)
  ∧ other_tables_kept (db campus_up) (db (world_of by_batch))
  ∧ other_tables_kept (db campus_up) (db (world_of by_teacher))
  ∧ answer (delete_batch_teacher 7 2 (mkUser 9 admin) campus_up)
    = answer (delete_teacher_batch 2 7 admin9 campus_up)
  ∧ db (world_of (delete_batch_teacher 7 2 (mkUser 9 admin) campus_up))
    = db (world_of (delete_teacher_batch 2 7 admin9 campus_up))
  ∧ rows_b !! (2, 7) = Some (Some 9) ∧ rows_t !! (2, 7) = Some None.
Proof.
  intros by_batch by_teacher rows rows_b rows_t.
  pose proof (assignment_routes_differ_by_assigner 2 7 (mkUser 9 admin) campus_up
                eq_refl ltac:(lia) ltac:(lia)) as H.
  cbv zeta in H. destruct H as (H1 & H2 & H3 & H4 & H5 & H6 & H7 & H8 & H9).
  repeat (split; [assumption|]). split; reflexivity.
Defined.

Lemma assignments_change_only_by_admin_witness :
  keeps_assignments campus_up (post_teacher_batches 2 teacher2 assign_7_8 campus_up)
  ∧ keeps_assignments campus_up (delete_teacher_batch 1 7 teacher2 campus_up)
  ∧ keeps_assignments campus_up (delete_teacher 1 teacher2 campus_up)
  ∧ keeps_assignments campus_up
      (post_batch_assign_teacher 7 (mkUser 2 teacher) (mkAssignTeacherBody (Some 2)) campus_up)
  ∧ keeps_assignments campus_up (delete_batch_teacher 7 1 (mkUser 2 teacher) campus_up).
Proof.
  destruct (assignments_change_only_by_admin calendar_date true 1 7 teacher2
              (mkUser 2 teacher) assign_7_8 (mkAssignTeacherBody (Some 2)) roll_call
              (mkAttQuery None None) midterm campus_up) as (H1 & H2 & _).
  destruct (H1 eq_refl) as (_ & Hb & Hc). destruct H2 as [Hd He]; [discriminate|].
  split; [|by repeat split].
  destruct (assignments_change_only_by_admin calendar_date true 2 7 teacher2
              (mkUser 2 teacher) assign_7_8 (mkAssignTeacherBody (Some 2)) roll_call
              (mkAttQuery None None) midterm campus_up) as (H1' & _).
  by destruct (H1' eq_refl) as (Ha & _).
Defined.

Lemma marks_reads_bind_every_placeholder_witness :
  let q := mkMarksQuery (Some "7") None (Some "15-01-2024") None in
  let q' := mkMarksQuery (Some "8") (Some "") (Some "01-02-2024") None in
  (marks_filters (fun _ : string => 0) q' ([], [])).1
  = (marks_filters (fun _ : string => 0) q ([], [])).1
  ∧ (marks_filters (fun _ : string => 0) q' (["m.recorded_by = ?"], [PNumber 3])).1
    = (marks_filters (fun _ : string => 0) q (["m.recorded_by = ?"], [PNumber 3])).1.
Proof.
  intros q q'.
  apply (proj2 (proj2 (proj2 (marks_reads_bind_every_placeholder (fun _ : string => 0) 3
                                q q')))).
  reflexivity.
Defined.

Lemma refused_write_changes_nothing_witness :
  answer (post_attendance calendar_date 1 teacher1 roll_call_foreign campus_up)
  = Some (invalid "records" "Some student(s) not in selected batch")
  ∧ db (world_of (post_attendance calendar_date 1 teacher1 roll_call_foreign campus_up))
    = db campus_up.
Proof.
  split; [reflexivity|].
  destruct (refused_write_changes_nothing calendar_date true 1 teacher1 roll_call_foreign
              midterm campus_up) as ((resp & w' & Hrun & H) & _).
  assert (E : answer (post_attendance calendar_date 1 teacher1 roll_call_foreign campus_up)
              = Some (invalid "records" "Some student(s) not in selected batch"))
    by reflexivity.
  rewrite Hrun in E |- *. cbn [answer world_of] in *. injection E as ->.
  apply H. discriminate.
Defined.
